(** * Trello MCP gateway: the API client and the response renderer

    A shallow embedding of [src/client.ts] (class [TrelloClientImpl]) and of
    [src/utils/formatters.ts], with the properties of the specification
    stated and proved over it; and of [src/types/env.ts] and the Worker of
    [src/index.ts], with further properties of the code.

    Conventions of the embedding.
    - A JavaScript string is a [string]: the sequence of the bytes of its
      UTF-8 encoding.  Concatenation, comparison with a literal and the
      replacement of an ASCII character commute with that encoding.
    - An optional field [f?: T] is an [option T] ([None] is [undefined]); a
      field [f?: T | null] is an [option (option T)] ([Some None] is [null]).
    - A union of string literals is kept as the [string] it is at run time.
    - A [Promise] is the outcome of running the method to completion: the
      calls made to [fetch], in order, and a value or a thrown error. *)

From Stdlib Require Import String Ascii List Bool ZArith NArith Arith Lia.
From Stdlib Require Import Decimal DecimalString DecimalNat.
Import ListNotations.
Open Scope list_scope.
Open Scope string_scope.

(* ================================================================= *)
(** ** JavaScript values the program handles *)

(** The Number type is kept abstract: the program only converts numbers to
    strings ([String(n)], template literals) and tests them for truthiness. *)
Class JsNumber : Type := {
  number : Type;
  String_number : number -> string;
  truthy_number : number -> bool
}.

(** A value produced by [JSON.parse]. *)
#[warnings="-register-all"] Inductive json `{JsNumber} : Type :=
| JNull
| JBool (b : bool)
| JNumber (n : number)
| JString (s : string)
| JArray (items : list json)
| JObject (members : list (string * json)).

(** A Number as [parseInt] returns it: NaN, a double that holds an
    integer, the zero that is negative, or an infinity.  [IntNum z] is the
    double whose value is the integer [z], so [z] is one that a double
    holds; [IntNum 0] is the zero that is positive. *)
Inductive IntNumber : Type :=
| NaN
| IntNum (z : Z)
| NegativeZero
| Infinity
| NegativeInfinity.

(** Modelled from the spec: the error classes of [utils/errors.ts], which
    [client.ts] imports and constructs.  The constructor arguments are the
    ones [client.ts] passes; [message] is the first of them.  [JsThrown]
    stands for any other thrown [Error] (a [TypeError] of [fetch] or of a
    property access, a [SyntaxError] of [JSON.parse]). *)
Inductive JsError : Type :=
| AuthenticationError (message : string)
| RateLimitError (message : string) (retryAfterSeconds : IntNumber)
| ApiError (message : string) (statusCode : Z)
| JsThrown (message : string).

Definition error_message (e : JsError) : string :=
  match e with
  | AuthenticationError m => m
  | RateLimitError m _ => m
  | ApiError m _ => m
  | JsThrown m => m
  end.


(** The outcome of an evaluation that may throw. *)
Inductive result (T : Type) : Type :=
| Ok (v : T)
| Throw (e : JsError).
Arguments Ok {T} v.
Arguments Throw {T} e.

(** The rest of the run-time library the program calls. *)
Class JsRuntime `{JsNumber} : Type := {
  (** [JSON.parse(text)] *)
  JSON_parse : string -> result json;
  (** [JSON.stringify(value)] *)
  JSON_stringify : json -> string;
  (** the message of the [TypeError] raised by reading property [p] of
      [undefined] or [null] *)
  TypeError_message : string -> string;
  (** [new Date(s).toLocaleDateString()] *)
  toLocaleDateString : string -> string
}.

(* ----------------------------------------------------------------- *)
(** *** Strings *)

Definition truthy_string (s : string) : bool := negb (s =? "").

Definition String_boolean (b : bool) : string :=
  if b then "true" else "false".

(** [String(n)] for a non-negative integer such as [array.length]. *)
Definition String_nat (n : nat) : string :=
  NilZero.string_of_uint (Nat.to_uint n).

Definition join (sep : string) (parts : list string) : string :=
  String.concat sep parts.

Definition LF : string := String (ascii_of_nat 10) "".

(** [text.replace(/c/g, by)] for a single character [c]. *)
Fixpoint replaceAll_char (c : ascii) (by_ : string) (text : string) : string :=
  match text with
  | EmptyString => EmptyString
  | String a rest =>
      if Ascii.eqb a c then by_ ++ replaceAll_char c by_ rest
      else String a (replaceAll_char c by_ rest)
  end.

Definition is_lower (a : ascii) : bool :=
  (97 <=? nat_of_ascii a)%nat && (nat_of_ascii a <=? 122)%nat.
Definition is_upper (a : ascii) : bool :=
  (65 <=? nat_of_ascii a)%nat && (nat_of_ascii a <=? 90)%nat.
Definition is_digit (a : ascii) : bool :=
  (48 <=? nat_of_ascii a)%nat && (nat_of_ascii a <=? 57)%nat.

Definition toUpperCase_ascii (a : ascii) : ascii :=
  if is_lower a then ascii_of_nat (nat_of_ascii a - 32) else a.
Definition toLowerCase_ascii (a : ascii) : ascii :=
  if is_upper a then ascii_of_nat (nat_of_ascii a + 32) else a.

Fixpoint toLowerCase (s : string) : string :=
  match s with
  | EmptyString => EmptyString
  | String a rest => String (toLowerCase_ascii a) (toLowerCase rest)
  end.

(* ----------------------------------------------------------------- *)
(** *** [parseInt(s, 10)] on a header value

    A header value is a byte string, so every character is below 256; the
    white space of [StrWhiteSpaceChar] in that range is TAB, LF, VT, FF, CR,
    SP and NBSP. *)

Definition isStrWhiteSpaceChar (a : ascii) : bool :=
  let n := nat_of_ascii a in
  ((9 <=? n) && (n <=? 13) || (n =? 32) || (n =? 160))%nat.

Fixpoint trimStart (s : string) : string :=
  match s with
  | EmptyString => EmptyString
  | String a rest => if isStrWhiteSpaceChar a then trimStart rest else s
  end.

Definition digit_value (a : ascii) : option N :=
  if is_digit a then Some (N.of_nat (nat_of_ascii a - 48)) else None.

(** The longest prefix of decimal digits, read left to right; [None] when
    that prefix is empty. *)
Fixpoint parse_digits (s : string) (acc : option N) : option N :=
  match s with
  | EmptyString => acc
  | String a rest =>
      match digit_value a with
      | Some d =>
          parse_digits rest
            (Some (d + 10 * match acc with Some n => n | None => 0 end)%N)
      | None => acc
      end
  end.

(** The double nearest to the natural number [mathInt], the one with an
    even significand when two are as near; [None] when that is beyond
    the largest double, from [2^1024 - 2^970] on.  A double holds 53
    significant bits, so the numbers up to [2^53] are kept as they are. *)
Definition round_to_double (mathInt : N) : option N :=
  let bits := N.size mathInt in
  if (bits <=? 53)%N then Some mathInt
  else
    let exponent := (bits - 53)%N in
    let significand := N.shiftr mathInt exponent in
    let remainder := (mathInt - N.shiftl significand exponent)%N in
    let half := N.shiftl 1 (exponent - 1) in
    let significand :=
      if (half <? remainder)%N || ((remainder =? half)%N && N.odd significand)
      then (significand + 1)%N else significand in
    let rounded := N.shiftl significand exponent in
    if (N.shiftl 1 1024 <=? rounded)%N then None else Some rounded.

(** The Number value of [sign * mathInt], where a [mathInt] of 0 with the
    sign -1 gives the zero that is negative.  For a numeral of more than
    20 significant digits the language lets an implementation round an
    approximation of it; the embedding rounds the number itself. *)
Definition Number_of_integer (negative : bool) (mathInt : N) : IntNumber :=
  if (mathInt =? 0)%N then
    if negative then NegativeZero else IntNum 0
  else
    match round_to_double mathInt with
    | Some rounded =>
        IntNum (if negative then - Z.of_N rounded else Z.of_N rounded)
    | None => if negative then NegativeInfinity else Infinity
    end.

Definition parseInt10 (inputString : string) : IntNumber :=
  let trimmed := trimStart inputString in
  let '(negative, digits) :=
    match trimmed with
    | String "-" rest => (true, rest)
    | String "+" rest => (false, rest)
    | _ => (false, trimmed)
    end in
  match parse_digits digits None with
  | None => NaN
  | Some mathInt => Number_of_integer negative mathInt
  end.

(* ================================================================= *)
(** ** HTTP transport *)

(** [URLSearchParams]: the list of its name-value pairs, in order. *)
Definition URLSearchParams : Type := list (string * string).

(** [params.set(name, value)]: the first pair named [name] takes the value
    and the others are removed; without such a pair, one is appended. *)
Fixpoint usp_set (name value : string) (params : URLSearchParams)
  : URLSearchParams :=
  match params with
  | [] => [(name, value)]
  | (n, v) :: rest =>
      if n =? name
      then (name, value) :: filter (fun p => negb (fst p =? name)) rest
      else (n, v) :: usp_set name value rest
  end.

Definition hex_digit (n : nat) : ascii :=
  if (n <? 10)%nat then ascii_of_nat (48 + n) else ascii_of_nat (55 + n).

(** The [application/x-www-form-urlencoded] byte serialiser. *)
Definition urlencode_byte (a : ascii) : string :=
  if is_lower a || is_upper a || is_digit a
     || Ascii.eqb a "*" || Ascii.eqb a "-" || Ascii.eqb a "."
     || Ascii.eqb a "_"
  then String a ""
  else if Ascii.eqb a " " then "+"
  else String "%" (String (hex_digit (nat_of_ascii a / 16))
                     (String (hex_digit (nat_of_ascii a mod 16)) "")).

Fixpoint urlencode (s : string) : string :=
  match s with
  | EmptyString => EmptyString
  | String a rest => urlencode_byte a ++ urlencode rest
  end.

(** [params.toString()] *)
Definition usp_toString (params : URLSearchParams) : string :=
  join "&" (map (fun p => urlencode (fst p) ++ "=" ++ urlencode (snd p)) params).

(** A plain object used as a string-keyed map: its own properties in
    insertion order. *)
Definition JsObject (V : Type) : Type := list (string * V).

(** [obj[key] = value] *)
Fixpoint obj_set {V : Type} (key : string) (value : V) (obj : JsObject V)
  : JsObject V :=
  match obj with
  | [] => [(key, value)]
  | (k, v) :: rest =>
      if k =? key then (k, value) :: rest else (k, v) :: obj_set key value rest
  end.

(** [if (cond) obj[key] = value;] *)
Definition set_if {V : Type} (cond : bool) (key : string) (value : V)
  (obj : JsObject V) : JsObject V :=
  if cond then obj_set key value obj else obj.

Definition obj_keys {V : Type} (obj : JsObject V) : list string := map fst obj.

(** What a property of [extraParams] can hold when [request] tests it. *)
Inductive ParamValue : Type :=
| PUndefined
| PNull
| PString (s : string).

(** The [RequestInit] passed as [options]. *)
Record RequestInit : Type := {
  method : option string;
  body : option string;
  headers : option (JsObject string)
}.

Definition no_options : RequestInit :=
  {| method := None; body := None; headers := None |}.
Definition with_method (m : string) : RequestInit :=
  {| method := Some m; body := None; headers := None |}.
Definition with_method_body (m b : string) : RequestInit :=
  {| method := Some m; body := Some b; headers := None |}.

(** The arguments of one call of [fetch]: the URL, kept as the endpoint and
    the query parameters it is assembled from, and the init object. *)
Record FetchCall : Type := {
  call_endpoint : string;
  call_params : URLSearchParams;
  call_method : option string;
  call_body : option string;
  call_headers : JsObject string
}.

Definition API_BASE_URL : string := "https://api.trello.com/1".

(** [`${API_BASE_URL}${endpoint}?${params}`] *)
Definition call_url (c : FetchCall) : string :=
  API_BASE_URL ++ call_endpoint c ++ "?" ++ usp_toString (call_params c).

Record Response : Type := {
  status : Z;
  response_headers : list (string * string);
  response_text : string
}.

(** [response.ok] *)
Definition ok (r : Response) : bool :=
  (200 <=? status r)%Z && (status r <=? 299)%Z.

(** [headers.get(name)]: names compare without case; several values are
    joined with a comma and a space; [None] is [null]. *)
Definition headers_get (name : string) (hs : list (string * string))
  : option string :=
  match filter (fun h => toLowerCase (fst h) =? toLowerCase name) hs with
  | [] => None
  | found => Some (join ", " (map snd found))
  end.

(** What [fetch] settles to: a response, or a rejection. *)
Inductive FetchOutcome : Type :=
| Responded (r : Response)
| Rejected (e : JsError).

Record TenantCredentials : Type := {
  apiKey : string;
  token : string
}.

(* ----------------------------------------------------------------- *)
(** *** The monad of client methods

    A method runs to a pair: the calls it made to [fetch], in order, and
    its value or the error it threw. *)

Definition Client (T : Type) : Type := list FetchCall * result T.

Definition ret {T : Type} (v : T) : Client T := ([], Ok v).

Definition throw {T : Type} (e : JsError) : Client T := ([], Throw e).

Definition bind {T U : Type} (m : Client T) (k : T -> Client U) : Client U :=
  match m with
  | (calls, Ok v) => let '(calls', r) := k v in ((calls ++ calls')%list, r)
  | (calls, Throw e) => (calls, Throw e)
  end.

(** [try { m } catch (error) { handler(error) }] *)
Definition try_catch {T : Type} (m : Client T) (handler : JsError -> Client T)
  : Client T :=
  match m with
  | (calls, Ok v) => (calls, Ok v)
  | (calls, Throw e) => let '(calls', r) := handler e in ((calls ++ calls')%list, r)
  end.

Definition lift {T : Type} (r : result T) : Client T := ([], r).

Definition sent {T : Type} (m : Client T) : list FetchCall := fst m.
Definition outcome {T : Type} (m : Client T) : result T := snd m.

Declare Scope client_scope.
Delimit Scope client_scope with client.
Notation "x <- m ;; k" := (bind m (fun x => k))
  (at level 61, m at next level, right associativity) : client_scope.
Notation "m ;;; k" := (bind m (fun _ => k))
  (at level 61, right associativity) : client_scope.

(* ================================================================= *)
(** ** Inputs of the create and update operations ([types/entities.ts]) *)

(** [pos?: 'top' | 'bottom' | number] *)
Inductive Position `{JsNumber} : Type :=
| PosTop
| PosBottom
| PosNumber (n : number).

(** [String(input.pos)] *)
Definition String_position `{JsNumber} (p : Position) : string :=
  match p with
  | PosTop => "top"
  | PosBottom => "bottom"
  | PosNumber n => String_number n
  end.

Module TrelloBoardCreateInput.
Record t : Type := {
  name : string;
  desc : option string;
  idOrganization : option string;
  idBoardSource : option string;
  keepFromSource : option string;
  powerUps : option string;
  prefs_permissionLevel : option string;
  prefs_voting : option string;
  prefs_comments : option string;
  prefs_invitations : option string;
  prefs_selfJoin : option bool;
  prefs_cardCovers : option bool;
  prefs_background : option string;
  prefs_cardAging : option string;
  defaultLabels : option bool;
  defaultLists : option bool
}.
End TrelloBoardCreateInput.

Module TrelloBoardUpdateInput.
Record t : Type := {
  name : option string;
  desc : option string;
  closed : option bool;
  subscribed : option bool;
  idOrganization : option string;
  prefs_permissionLevel : option string;
  prefs_selfJoin : option bool;
  prefs_cardCovers : option bool;
  prefs_hideVotes : option bool;
  prefs_invitations : option string;
  prefs_voting : option string;
  prefs_comments : option string;
  prefs_background : option string;
  prefs_cardAging : option string;
  prefs_calendarFeedEnabled : option bool;
  labelNames_green : option string;
  labelNames_yellow : option string;
  labelNames_orange : option string;
  labelNames_red : option string;
  labelNames_purple : option string;
  labelNames_blue : option string
}.
End TrelloBoardUpdateInput.

Module TrelloListCreateInput.
Record t `{JsNumber} : Type := {
  name : string;
  idBoard : string;
  idListSource : option string;
  pos : option Position
}.
End TrelloListCreateInput.

Module TrelloListUpdateInput.
Record t `{JsNumber} : Type := {
  name : option string;
  closed : option bool;
  idBoard : option string;
  pos : option Position;
  subscribed : option bool
}.
End TrelloListUpdateInput.

Module TrelloCardCreateInput.
Record t `{JsNumber} : Type := {
  idList : string;
  name : string;
  desc : option string;
  pos : option Position;
  due : option string;
  start : option string;
  dueComplete : option bool;
  idMembers : option (list string);
  idLabels : option (list string);
  urlSource : option string;
  fileSource : option string;
  mimeType : option string;
  idCardSource : option string;
  keepFromSource : option string;
  address : option string;
  locationName : option string;
  coordinates : option string
}.
End TrelloCardCreateInput.

Module TrelloCardCover.
(** the [cover] member of [TrelloCardUpdateInput] *)
Record t : Type := {
  color : option (option string);
  brightness : option string;
  size : option string
}.
End TrelloCardCover.

Module TrelloCardUpdateInput.
Record t `{JsNumber} : Type := {
  name : option string;
  desc : option string;
  closed : option bool;
  idList : option string;
  idBoard : option string;
  pos : option Position;
  due : option (option string);
  start : option (option string);
  dueComplete : option bool;
  subscribed : option bool;
  idMembers : option (list string);
  idLabels : option (list string);
  cover : option TrelloCardCover.t
}.

(** The object literal [{}]. *)
Definition empty `{JsNumber} : t :=
  {| name := None; desc := None; closed := None; idList := None;
     idBoard := None; pos := None; due := None; start := None;
     dueComplete := None; subscribed := None; idMembers := None;
     idLabels := None; cover := None |}.

Definition set_closed `{JsNumber} (v : bool) (i : t) : t :=
  {| name := name i; desc := desc i; closed := Some v; idList := idList i;
     idBoard := idBoard i; pos := pos i; due := due i; start := start i;
     dueComplete := dueComplete i; subscribed := subscribed i;
     idMembers := idMembers i; idLabels := idLabels i; cover := cover i |}.

Definition set_idList `{JsNumber} (v : string) (i : t) : t :=
  {| name := name i; desc := desc i; closed := closed i; idList := Some v;
     idBoard := idBoard i; pos := pos i; due := due i; start := start i;
     dueComplete := dueComplete i; subscribed := subscribed i;
     idMembers := idMembers i; idLabels := idLabels i; cover := cover i |}.

Definition set_idBoard `{JsNumber} (v : string) (i : t) : t :=
  {| name := name i; desc := desc i; closed := closed i; idList := idList i;
     idBoard := Some v; pos := pos i; due := due i; start := start i;
     dueComplete := dueComplete i; subscribed := subscribed i;
     idMembers := idMembers i; idLabels := idLabels i; cover := cover i |}.
End TrelloCardUpdateInput.

Module TrelloAttachmentCreateInput.
Record t : Type := {
  name : option string;
  file : option string;
  mimeType : option string;
  url : option string;
  setCover : option bool
}.
End TrelloAttachmentCreateInput.

Module TrelloLabelCreateInput.
(** [color: TrelloColor] is a colour name or [null] *)
Record t : Type := {
  name : string;
  color : option string;
  idBoard : string
}.
End TrelloLabelCreateInput.

Module TrelloLabelUpdateInput.
Record t : Type := {
  name : option string;
  color : option (option string)
}.
End TrelloLabelUpdateInput.

Module TrelloChecklistCreateInput.
Record t `{JsNumber} : Type := {
  idCard : string;
  name : option string;
  pos : option Position;
  idChecklistSource : option string
}.
End TrelloChecklistCreateInput.

Module TrelloCheckItemCreateInput.
Record t `{JsNumber} : Type := {
  name : string;
  pos : option Position;
  checked : option bool;
  due : option string;
  idMember : option string
}.
End TrelloCheckItemCreateInput.

Module TrelloCheckItemUpdateInput.
Record t `{JsNumber} : Type := {
  name : option string;
  state : option string;
  pos : option Position;
  due : option (option string);
  idMember : option (option string)
}.
End TrelloCheckItemUpdateInput.

Module TrelloCustomFieldCreateInput.
Record t `{JsNumber} : Type := {
  idModel : string;
  modelType : string;
  name : string;
  type : string;
  pos : option Position;
  display_cardFront : option bool
}.
End TrelloCustomFieldCreateInput.

Module TrelloCustomFieldUpdateInput.
Record t `{JsNumber} : Type := {
  name : option string;
  pos : option Position;
  display_cardFront : option bool
}.
End TrelloCustomFieldUpdateInput.

Module TrelloOrganizationCreateInput.
Record t : Type := {
  displayName : string;
  desc : option string;
  name : option string;
  website : option string
}.
End TrelloOrganizationCreateInput.

Module TrelloOrganizationUpdateInput.
Record t : Type := {
  name : option string;
  displayName : option string;
  desc : option string;
  website : option string;
  prefs_permissionLevel : option string;
  prefs_orgInviteRestrict : option string;
  prefs_boardVisibilityRestrict_private : option string;
  prefs_boardVisibilityRestrict_org : option string;
  prefs_boardVisibilityRestrict_public : option string
}.
End TrelloOrganizationUpdateInput.

Module TrelloWebhookCreateInput.
Record t : Type := {
  callbackURL : string;
  idModel : string;
  description : option string;
  active : option bool
}.
End TrelloWebhookCreateInput.

Module TrelloWebhookUpdateInput.
Record t : Type := {
  description : option string;
  callbackURL : option string;
  idModel : option string;
  active : option bool
}.
End TrelloWebhookUpdateInput.

Module SearchOptions.
(** the [options] parameter of [search] *)
Record t `{JsNumber} : Type := {
  idBoards : option (list string);
  idOrganizations : option (list string);
  modelTypes : option (list string);
  cards_limit : option number;
  boards_limit : option number;
  partial : option bool
}.
End SearchOptions.

(* ================================================================= *)
(** ** The client ([client.ts], class [TrelloClientImpl]) *)

(** The idioms with which the methods fill their [params] object. *)

(** [if (v) params[key] = v;] *)
Definition set_truthy (key : string) (v : option string)
  (params : JsObject ParamValue) : JsObject ParamValue :=
  match v with
  | Some s => set_if (truthy_string s) key (PString s) params
  | None => params
  end.

(** [if (v !== undefined) params[key] = show(v);] *)
Definition set_defined {T : Type} (key : string) (v : option T)
  (show : T -> string) (params : JsObject ParamValue) : JsObject ParamValue :=
  match v with
  | Some x => obj_set key (PString (show x)) params
  | None => params
  end.

(** [if (v?.length) params[key] = v.join(',');] *)
Definition set_nonempty (key : string) (v : option (list string))
  (params : JsObject ParamValue) : JsObject ParamValue :=
  match v with
  | Some items =>
      set_if (negb (length items =? 0)%nat) key (PString (join "," items)) params
  | None => params
  end.

(** [if (v) params[key] = String(v);] for a number *)
Definition set_truthy_number `{JsNumber} (key : string) (v : option number)
  (params : JsObject ParamValue) : JsObject ParamValue :=
  match v with
  | Some n => set_if (truthy_number n) key (PString (String_number n)) params
  | None => params
  end.

(** [v === null ? '' : v] *)
Definition null_to_empty (v : option string) : string :=
  match v with
  | None => ""
  | Some s => s
  end.

(** [v || ''] for a string or [null] *)
Definition or_empty (v : option string) : string :=
  match v with
  | None => ""
  | Some s => if truthy_string s then s else ""
  end.

Definition id_string (s : string) : string := s.

(** A parameter with a default value: [filter = 'open']. *)
Definition default_to {T : Type} (d : T) (v : option T) : T :=
  match v with
  | Some x => x
  | None => d
  end.

(** Reading a property of a parsed value.  The properties read this way
    ([fullName], [username]) are defined by no prototype, so a value that
    is not an object with that member yields [undefined]. *)
Definition js_get `{JsRuntime} (v : option json) (p : string)
  : result (option json) :=
  match v with
  | None => Throw (JsThrown (TypeError_message p))
  | Some JNull => Throw (JsThrown (TypeError_message p))
  | Some (JObject members) =>
      Ok (option_map snd (find (fun m => fst m =? p) members))
  | Some _ => Ok None
  end.

(** The string a value takes inside a template literal. *)
Fixpoint template_json `{JsNumber} (v : json) : string :=
  match v with
  | JNull => "null"
  | JBool b => String_boolean b
  | JNumber n => String_number n
  | JString s => s
  | JArray items =>
      join "," (map (fun x => match x with
                              | JNull => ""
                              | _ => template_json x
                              end) items)
  | JObject _ => "[object Object]"
  end.

Definition template `{JsNumber} (v : option json) : string :=
  match v with
  | None => "undefined"
  | Some j => template_json j
  end.

(** What [testConnection] resolves to. *)
Record ConnectionStatus : Type := {
  connected : bool;
  message : string
}.

Section TrelloClientImpl.

Context `{JsRuntime}.

(** [private credentials: TenantCredentials] *)
Variable credentials : TenantCredentials.

(** The upstream API, as seen through the global [fetch]. *)
Variable fetch : FetchCall -> FetchOutcome.

Local Open Scope client_scope.

(* --------------------------------------------------------------- *)
(** *** HTTP request helper *)

Definition getAuthParams : URLSearchParams :=
  [("key", apiKey credentials); ("token", token credentials)].

(** The body of the [forEach] over [Object.entries(extraParams)]. *)
Definition add_extra (params : URLSearchParams) (entry : string * ParamValue)
  : URLSearchParams :=
  let '(k, v) := entry in
  match v with
  | PUndefined => params
  | PNull => params
  | PString s => if negb (s =? "") then usp_set k s params else params
  end.

Definition build_params (extraParams : option (JsObject ParamValue))
  : URLSearchParams :=
  let params := getAuthParams in
  match extraParams with
  | Some extra => fold_left add_extra extra params
  | None => params
  end.

(** [{ 'Content-Type': 'application/json', ...(options.headers || {}) }] *)
Definition build_headers (options : RequestInit) : JsObject string :=
  fold_left (fun acc h => obj_set (fst h) (snd h) acc)
    (default_to [] (headers options))
    [("Content-Type", "application/json")].

(** [await fetch(url, init)] *)
Definition await_fetch (c : FetchCall) : Client Response :=
  ([c], match fetch c with
        | Responded r => Ok r
        | Rejected e => Throw e
        end).

(** The arguments [request] hands to [fetch]. *)
Definition fetch_call (endpoint : string) (options : RequestInit)
  (extraParams : option (JsObject ParamValue)) : FetchCall :=
  let params := build_params extraParams in
  {| call_endpoint := endpoint;
     call_params := params;
     call_method := method options;
     call_body := body options;
     call_headers := build_headers options |}.

(** The part of [request] that follows [await fetch(...)]. *)
Definition handle_response (response : Response) : Client (option json) :=
  if (status response =? 429)%Z then
    let retryAfter := headers_get "Retry-After" (response_headers response) in
    throw (RateLimitError "Rate limit exceeded"
             (match retryAfter with
              | Some h => if truthy_string h then parseInt10 h else IntNum 60
              | None => IntNum 60
              end))
  else if (status response =? 401)%Z then
    throw (AuthenticationError "Invalid API key or token")
  else if negb (ok response) then
    let errorBody := response_text response in
    throw (ApiError ("Trello API error: " ++ errorBody) (status response))
  else
    let text := response_text response in
    if negb (truthy_string text) then ret None
    else
      parsed <- lift (JSON_parse text) ;;
      ret (Some parsed).

Definition request (endpoint : string) (options : RequestInit)
  (extraParams : option (JsObject ParamValue)) : Client (option json) :=
  response <- await_fetch (fetch_call endpoint options extraParams) ;;
  handle_response response.

(** [await this.request<void>(...)] in a method that returns nothing. *)
Definition request_void (endpoint : string) (options : RequestInit)
  (extraParams : option (JsObject ParamValue)) : Client unit :=
  request endpoint options extraParams ;;; ret tt.

(* --------------------------------------------------------------- *)
(** *** Members *)

Definition getMe : Client (option json) :=
  request "/members/me" no_options None.

Definition getMember (idOrUsername : string) : Client (option json) :=
  request ("/members/" ++ idOrUsername) no_options None.

Definition getMemberBoards (idOrUsername : string) (filter : option string)
  : Client (option json) :=
  let filter := default_to "open" filter in
  request ("/members/" ++ idOrUsername ++ "/boards") no_options
    (Some [("filter", PString filter)]).

Definition getMemberCards (idOrUsername : string) : Client (option json) :=
  request ("/members/" ++ idOrUsername ++ "/cards") no_options None.

Definition getMemberOrganizations (idOrUsername : string)
  : Client (option json) :=
  request ("/members/" ++ idOrUsername ++ "/organizations") no_options None.

(* --------------------------------------------------------------- *)
(** *** Connection *)

(** Every thrown value of the embedding is an [Error], so the handler
    always takes [error.message]. *)
Definition testConnection : Client ConnectionStatus :=
  try_catch
    (member <- getMe ;;
     fullName <- lift (js_get member "fullName") ;;
     username <- lift (js_get member "username") ;;
     ret {| connected := true;
            message := "Connected as " ++ template fullName
                       ++ " (@" ++ template username ++ ")" |})
    (fun error =>
       ret {| connected := false; message := error_message error |}).

(* --------------------------------------------------------------- *)
(** *** Boards *)

Definition listBoards (filter : option string) : Client (option json) :=
  let filter := default_to "open" filter in
  getMemberBoards "me" (Some filter).

Definition getBoard (boardId : string) : Client (option json) :=
  request ("/boards/" ++ boardId) no_options None.

Definition createBoard (input : TrelloBoardCreateInput.t)
  : Client (option json) :=
  let params := [("name", PString (TrelloBoardCreateInput.name input))] in
  let params := set_truthy "desc" (TrelloBoardCreateInput.desc input) params in
  let params := set_truthy "idOrganization" (TrelloBoardCreateInput.idOrganization input) params in
  let params := set_truthy "idBoardSource" (TrelloBoardCreateInput.idBoardSource input) params in
  let params := set_truthy "keepFromSource" (TrelloBoardCreateInput.keepFromSource input) params in
  let params := set_truthy "powerUps" (TrelloBoardCreateInput.powerUps input) params in
  let params := set_truthy "prefs_permissionLevel" (TrelloBoardCreateInput.prefs_permissionLevel input) params in
  let params := set_truthy "prefs_voting" (TrelloBoardCreateInput.prefs_voting input) params in
  let params := set_truthy "prefs_comments" (TrelloBoardCreateInput.prefs_comments input) params in
  let params := set_truthy "prefs_invitations" (TrelloBoardCreateInput.prefs_invitations input) params in
  let params := set_defined "prefs_selfJoin" (TrelloBoardCreateInput.prefs_selfJoin input) String_boolean params in
  let params := set_defined "prefs_cardCovers" (TrelloBoardCreateInput.prefs_cardCovers input) String_boolean params in
  let params := set_truthy "prefs_background" (TrelloBoardCreateInput.prefs_background input) params in
  let params := set_truthy "prefs_cardAging" (TrelloBoardCreateInput.prefs_cardAging input) params in
  let params := set_defined "defaultLabels" (TrelloBoardCreateInput.defaultLabels input) String_boolean params in
  let params := set_defined "defaultLists" (TrelloBoardCreateInput.defaultLists input) String_boolean params in
  request "/boards" (with_method "POST") (Some params).

Definition updateBoard (boardId : string) (input : TrelloBoardUpdateInput.t)
  : Client (option json) :=
  let params := [] in
  let params := set_truthy "name" (TrelloBoardUpdateInput.name input) params in
  let params := set_defined "desc" (TrelloBoardUpdateInput.desc input) id_string params in
  let params := set_defined "closed" (TrelloBoardUpdateInput.closed input) String_boolean params in
  let params := set_defined "subscribed" (TrelloBoardUpdateInput.subscribed input) String_boolean params in
  let params := set_truthy "idOrganization" (TrelloBoardUpdateInput.idOrganization input) params in
  let params := set_truthy "prefs/permissionLevel" (TrelloBoardUpdateInput.prefs_permissionLevel input) params in
  let params := set_defined "prefs/selfJoin" (TrelloBoardUpdateInput.prefs_selfJoin input) String_boolean params in
  let params := set_defined "prefs/cardCovers" (TrelloBoardUpdateInput.prefs_cardCovers input) String_boolean params in
  let params := set_defined "prefs/hideVotes" (TrelloBoardUpdateInput.prefs_hideVotes input) String_boolean params in
  let params := set_truthy "prefs/invitations" (TrelloBoardUpdateInput.prefs_invitations input) params in
  let params := set_truthy "prefs/voting" (TrelloBoardUpdateInput.prefs_voting input) params in
  let params := set_truthy "prefs/comments" (TrelloBoardUpdateInput.prefs_comments input) params in
  let params := set_truthy "prefs/background" (TrelloBoardUpdateInput.prefs_background input) params in
  let params := set_truthy "prefs/cardAging" (TrelloBoardUpdateInput.prefs_cardAging input) params in
  let params := set_defined "prefs/calendarFeedEnabled" (TrelloBoardUpdateInput.prefs_calendarFeedEnabled input) String_boolean params in
  let params := set_truthy "labelNames/green" (TrelloBoardUpdateInput.labelNames_green input) params in
  let params := set_truthy "labelNames/yellow" (TrelloBoardUpdateInput.labelNames_yellow input) params in
  let params := set_truthy "labelNames/orange" (TrelloBoardUpdateInput.labelNames_orange input) params in
  let params := set_truthy "labelNames/red" (TrelloBoardUpdateInput.labelNames_red input) params in
  let params := set_truthy "labelNames/purple" (TrelloBoardUpdateInput.labelNames_purple input) params in
  let params := set_truthy "labelNames/blue" (TrelloBoardUpdateInput.labelNames_blue input) params in
  request ("/boards/" ++ boardId) (with_method "PUT") (Some params).

Definition deleteBoard (boardId : string) : Client unit :=
  request_void ("/boards/" ++ boardId) (with_method "DELETE") None.

Definition getBoardMembers (boardId : string) : Client (option json) :=
  request ("/boards/" ++ boardId ++ "/members") no_options None.

Definition getBoardLists (boardId : string) (filter : option string)
  : Client (option json) :=
  let filter := default_to "open" filter in
  request ("/boards/" ++ boardId ++ "/lists") no_options
    (Some [("filter", PString filter)]).

Definition getBoardCards (boardId : string) (filter : option string)
  : Client (option json) :=
  let filter := default_to "open" filter in
  request ("/boards/" ++ boardId ++ "/cards") no_options
    (Some [("filter", PString filter)]).

Definition getBoardLabels (boardId : string) : Client (option json) :=
  request ("/boards/" ++ boardId ++ "/labels") no_options None.

(** [limit = 50]; [String(50)] is ["50"]. *)
Definition getBoardActions (boardId : string) (limit : option number)
  : Client (option json) :=
  let limit := match limit with
               | Some n => String_number n
               | None => "50"
               end in
  request ("/boards/" ++ boardId ++ "/actions") no_options
    (Some [("limit", PString limit)]).

Definition getBoardChecklists (boardId : string) : Client (option json) :=
  request ("/boards/" ++ boardId ++ "/checklists") no_options None.

Definition getBoardCustomFields (boardId : string) : Client (option json) :=
  request ("/boards/" ++ boardId ++ "/customFields") no_options None.

Definition addMemberToBoard (boardId memberId : string) (type : option string)
  : Client (option json) :=
  let type := default_to "normal" type in
  request ("/boards/" ++ boardId ++ "/members/" ++ memberId)
    (with_method "PUT") (Some [("type", PString type)]).

Definition removeMemberFromBoard (boardId memberId : string) : Client unit :=
  request_void ("/boards/" ++ boardId ++ "/members/" ++ memberId)
    (with_method "DELETE") None.

(* --------------------------------------------------------------- *)
(** *** Lists *)

Definition getList (listId : string) : Client (option json) :=
  request ("/lists/" ++ listId) no_options None.

Definition createList (input : TrelloListCreateInput.t)
  : Client (option json) :=
  let params := [("name", PString (TrelloListCreateInput.name input));
                 ("idBoard", PString (TrelloListCreateInput.idBoard input))] in
  let params := set_truthy "idListSource" (TrelloListCreateInput.idListSource input) params in
  let params := set_defined "pos" (TrelloListCreateInput.pos input) String_position params in
  request "/lists" (with_method "POST") (Some params).

Definition updateList (listId : string) (input : TrelloListUpdateInput.t)
  : Client (option json) :=
  let params := [] in
  let params := set_truthy "name" (TrelloListUpdateInput.name input) params in
  let params := set_defined "closed" (TrelloListUpdateInput.closed input) String_boolean params in
  let params := set_truthy "idBoard" (TrelloListUpdateInput.idBoard input) params in
  let params := set_defined "pos" (TrelloListUpdateInput.pos input) String_position params in
  let params := set_defined "subscribed" (TrelloListUpdateInput.subscribed input) String_boolean params in
  request ("/lists/" ++ listId) (with_method "PUT") (Some params).

(** The object literal [{ closed: v }] as a [TrelloListUpdateInput]. *)
Definition list_closed_input (v : bool) : TrelloListUpdateInput.t :=
  {| TrelloListUpdateInput.name := None;
     TrelloListUpdateInput.closed := Some v;
     TrelloListUpdateInput.idBoard := None;
     TrelloListUpdateInput.pos := None;
     TrelloListUpdateInput.subscribed := None |}.

Definition archiveList (listId : string) : Client (option json) :=
  updateList listId (list_closed_input true).

Definition unarchiveList (listId : string) : Client (option json) :=
  updateList listId (list_closed_input false).

Definition getListCards (listId : string) (filter : option string)
  : Client (option json) :=
  let filter := default_to "open" filter in
  request ("/lists/" ++ listId ++ "/cards") no_options
    (Some [("filter", PString filter)]).

Definition archiveAllCardsInList (listId : string) : Client unit :=
  request_void ("/lists/" ++ listId ++ "/archiveAllCards")
    (with_method "POST") None.

Definition moveAllCardsInList (listId idBoard idList : string) : Client unit :=
  request_void ("/lists/" ++ listId ++ "/moveAllCards") (with_method "POST")
    (Some [("idBoard", PString idBoard); ("idList", PString idList)]).

(* --------------------------------------------------------------- *)
(** *** Cards *)

Definition getCard (cardId : string) : Client (option json) :=
  request ("/cards/" ++ cardId) no_options
    (Some [("checklists", PString "all"); ("attachments", PString "true")]).

Definition createCard (input : TrelloCardCreateInput.t)
  : Client (option json) :=
  let params := [("idList", PString (TrelloCardCreateInput.idList input));
                 ("name", PString (TrelloCardCreateInput.name input))] in
  let params := set_truthy "desc" (TrelloCardCreateInput.desc input) params in
  let params := set_defined "pos" (TrelloCardCreateInput.pos input) String_position params in
  let params := set_truthy "due" (TrelloCardCreateInput.due input) params in
  let params := set_truthy "start" (TrelloCardCreateInput.start input) params in
  let params := set_defined "dueComplete" (TrelloCardCreateInput.dueComplete input) String_boolean params in
  let params := set_nonempty "idMembers" (TrelloCardCreateInput.idMembers input) params in
  let params := set_nonempty "idLabels" (TrelloCardCreateInput.idLabels input) params in
  let params := set_truthy "urlSource" (TrelloCardCreateInput.urlSource input) params in
  let params := set_truthy "idCardSource" (TrelloCardCreateInput.idCardSource input) params in
  let params := set_truthy "keepFromSource" (TrelloCardCreateInput.keepFromSource input) params in
  let params := set_truthy "address" (TrelloCardCreateInput.address input) params in
  let params := set_truthy "locationName" (TrelloCardCreateInput.locationName input) params in
  let params := set_truthy "coordinates" (TrelloCardCreateInput.coordinates input) params in
  request "/cards" (with_method "POST") (Some params).

Definition updateCard (cardId : string) (input : TrelloCardUpdateInput.t)
  : Client (option json) :=
  let params := [] in
  let params := set_truthy "name" (TrelloCardUpdateInput.name input) params in
  let params := set_defined "desc" (TrelloCardUpdateInput.desc input) id_string params in
  let params := set_defined "closed" (TrelloCardUpdateInput.closed input) String_boolean params in
  let params := set_truthy "idList" (TrelloCardUpdateInput.idList input) params in
  let params := set_truthy "idBoard" (TrelloCardUpdateInput.idBoard input) params in
  let params := set_defined "pos" (TrelloCardUpdateInput.pos input) String_position params in
  let params := set_defined "due" (TrelloCardUpdateInput.due input) null_to_empty params in
  let params := set_defined "start" (TrelloCardUpdateInput.start input) null_to_empty params in
  let params := set_defined "dueComplete" (TrelloCardUpdateInput.dueComplete input) String_boolean params in
  let params := set_defined "subscribed" (TrelloCardUpdateInput.subscribed input) String_boolean params in
  request ("/cards/" ++ cardId) (with_method "PUT") (Some params).

Definition deleteCard (cardId : string) : Client unit :=
  request_void ("/cards/" ++ cardId) (with_method "DELETE") None.

Definition archiveCard (cardId : string) : Client (option json) :=
  updateCard cardId
    (TrelloCardUpdateInput.set_closed true TrelloCardUpdateInput.empty).

Definition unarchiveCard (cardId : string) : Client (option json) :=
  updateCard cardId
    (TrelloCardUpdateInput.set_closed false TrelloCardUpdateInput.empty).

Definition moveCard (cardId idList : string) (idBoard : option string)
  : Client (option json) :=
  let input :=
    TrelloCardUpdateInput.set_idList idList TrelloCardUpdateInput.empty in
  let input :=
    match idBoard with
    | Some b =>
        if truthy_string b then TrelloCardUpdateInput.set_idBoard b input
        else input
    | None => input
    end in
  updateCard cardId input.

Definition getCardActions (cardId : string) (limit : option number)
  : Client (option json) :=
  let limit := match limit with
               | Some n => String_number n
               | None => "50"
               end in
  request ("/cards/" ++ cardId ++ "/actions") no_options
    (Some [("limit", PString limit)]).

Definition getCardAttachments (cardId : string) : Client (option json) :=
  request ("/cards/" ++ cardId ++ "/attachments") no_options None.

Definition addAttachmentToCard (cardId : string)
  (input : TrelloAttachmentCreateInput.t) : Client (option json) :=
  let params := [] in
  let params := set_truthy "name" (TrelloAttachmentCreateInput.name input) params in
  let params := set_truthy "url" (TrelloAttachmentCreateInput.url input) params in
  let params := set_truthy "mimeType" (TrelloAttachmentCreateInput.mimeType input) params in
  let params := set_defined "setCover" (TrelloAttachmentCreateInput.setCover input) String_boolean params in
  request ("/cards/" ++ cardId ++ "/attachments") (with_method "POST")
    (Some params).

Definition deleteAttachment (cardId attachmentId : string) : Client unit :=
  request_void ("/cards/" ++ cardId ++ "/attachments/" ++ attachmentId)
    (with_method "DELETE") None.

Definition getCardChecklists (cardId : string) : Client (option json) :=
  request ("/cards/" ++ cardId ++ "/checklists") no_options None.

Definition addCommentToCard (cardId text : string) : Client (option json) :=
  request ("/cards/" ++ cardId ++ "/actions/comments") (with_method "POST")
    (Some [("text", PString text)]).

Definition getCardComments (cardId : string) : Client (option json) :=
  request ("/cards/" ++ cardId ++ "/actions") no_options
    (Some [("filter", PString "commentCard")]).

Definition updateComment (cardId actionId text : string)
  : Client (option json) :=
  request ("/cards/" ++ cardId ++ "/actions/" ++ actionId ++ "/comments")
    (with_method "PUT") (Some [("text", PString text)]).

Definition deleteComment (cardId actionId : string) : Client unit :=
  request_void ("/cards/" ++ cardId ++ "/actions/" ++ actionId ++ "/comments")
    (with_method "DELETE") None.

Definition addLabelToCard (cardId labelId : string) : Client unit :=
  request_void ("/cards/" ++ cardId ++ "/idLabels") (with_method "POST")
    (Some [("value", PString labelId)]).

Definition removeLabelFromCard (cardId labelId : string) : Client unit :=
  request_void ("/cards/" ++ cardId ++ "/idLabels/" ++ labelId)
    (with_method "DELETE") None.

Definition addMemberToCard (cardId memberId : string) : Client unit :=
  request_void ("/cards/" ++ cardId ++ "/idMembers") (with_method "POST")
    (Some [("value", PString memberId)]).

Definition removeMemberFromCard (cardId memberId : string) : Client unit :=
  request_void ("/cards/" ++ cardId ++ "/idMembers/" ++ memberId)
    (with_method "DELETE") None.

Definition getCardCustomFieldItems (cardId : string) : Client (option json) :=
  request ("/cards/" ++ cardId ++ "/customFieldItems") no_options None.

Definition setCardCustomFieldValue (cardId customFieldId : string)
  (value : json) : Client unit :=
  request_void
    ("/cards/" ++ cardId ++ "/customField/" ++ customFieldId ++ "/item")
    (with_method_body "PUT" (JSON_stringify value)) None.

(* --------------------------------------------------------------- *)
(** *** Labels *)

Definition getLabel (labelId : string) : Client (option json) :=
  request ("/labels/" ++ labelId) no_options None.

Definition createLabel (input : TrelloLabelCreateInput.t)
  : Client (option json) :=
  let params := [("name", PString (TrelloLabelCreateInput.name input));
                 ("idBoard", PString (TrelloLabelCreateInput.idBoard input))] in
  let params := set_truthy "color" (TrelloLabelCreateInput.color input) params in
  request "/labels" (with_method "POST") (Some params).

Definition updateLabel (labelId : string) (input : TrelloLabelUpdateInput.t)
  : Client (option json) :=
  let params := [] in
  let params := set_defined "name" (TrelloLabelUpdateInput.name input) id_string params in
  let params := set_defined "color" (TrelloLabelUpdateInput.color input) or_empty params in
  request ("/labels/" ++ labelId) (with_method "PUT") (Some params).

Definition deleteLabel (labelId : string) : Client unit :=
  request_void ("/labels/" ++ labelId) (with_method "DELETE") None.

(* --------------------------------------------------------------- *)
(** *** Checklists *)

Definition getChecklist (checklistId : string) : Client (option json) :=
  request ("/checklists/" ++ checklistId) no_options
    (Some [("checkItems", PString "all")]).

Definition createChecklist (input : TrelloChecklistCreateInput.t)
  : Client (option json) :=
  let params := [("idCard", PString (TrelloChecklistCreateInput.idCard input))] in
  let params := set_truthy "name" (TrelloChecklistCreateInput.name input) params in
  let params := set_defined "pos" (TrelloChecklistCreateInput.pos input) String_position params in
  let params := set_truthy "idChecklistSource" (TrelloChecklistCreateInput.idChecklistSource input) params in
  request "/checklists" (with_method "POST") (Some params).

Definition updateChecklist (checklistId name : string)
  : Client (option json) :=
  request ("/checklists/" ++ checklistId) (with_method "PUT")
    (Some [("name", PString name)]).

Definition deleteChecklist (checklistId : string) : Client unit :=
  request_void ("/checklists/" ++ checklistId) (with_method "DELETE") None.

Definition getCheckItems (checklistId : string) : Client (option json) :=
  request ("/checklists/" ++ checklistId ++ "/checkItems") no_options None.

Definition createCheckItem (checklistId : string)
  (input : TrelloCheckItemCreateInput.t) : Client (option json) :=
  let params := [("name", PString (TrelloCheckItemCreateInput.name input))] in
  let params := set_defined "pos" (TrelloCheckItemCreateInput.pos input) String_position params in
  let params := set_defined "checked" (TrelloCheckItemCreateInput.checked input) String_boolean params in
  let params := set_truthy "due" (TrelloCheckItemCreateInput.due input) params in
  let params := set_truthy "idMember" (TrelloCheckItemCreateInput.idMember input) params in
  request ("/checklists/" ++ checklistId ++ "/checkItems")
    (with_method "POST") (Some params).

Definition updateCheckItem (cardId checkItemId : string)
  (input : TrelloCheckItemUpdateInput.t) : Client (option json) :=
  let params := [] in
  let params := set_truthy "name" (TrelloCheckItemUpdateInput.name input) params in
  let params := set_truthy "state" (TrelloCheckItemUpdateInput.state input) params in
  let params := set_defined "pos" (TrelloCheckItemUpdateInput.pos input) String_position params in
  let params := set_defined "due" (TrelloCheckItemUpdateInput.due input) null_to_empty params in
  let params := set_defined "idMember" (TrelloCheckItemUpdateInput.idMember input) null_to_empty params in
  request ("/cards/" ++ cardId ++ "/checkItem/" ++ checkItemId)
    (with_method "PUT") (Some params).

Definition deleteCheckItem (checklistId checkItemId : string) : Client unit :=
  request_void
    ("/checklists/" ++ checklistId ++ "/checkItems/" ++ checkItemId)
    (with_method "DELETE") None.

(* --------------------------------------------------------------- *)
(** *** Custom fields *)

Definition getCustomField (customFieldId : string) : Client (option json) :=
  request ("/customFields/" ++ customFieldId) no_options None.

Definition createCustomField (input : TrelloCustomFieldCreateInput.t)
  : Client (option json) :=
  let params := [("idModel", PString (TrelloCustomFieldCreateInput.idModel input));
                 ("modelType", PString (TrelloCustomFieldCreateInput.modelType input));
                 ("name", PString (TrelloCustomFieldCreateInput.name input));
                 ("type", PString (TrelloCustomFieldCreateInput.type input))] in
  let params := set_defined "pos" (TrelloCustomFieldCreateInput.pos input) String_position params in
  let params := set_defined "display_cardFront" (TrelloCustomFieldCreateInput.display_cardFront input) String_boolean params in
  request "/customFields" (with_method "POST") (Some params).

Definition updateCustomField (customFieldId : string)
  (input : TrelloCustomFieldUpdateInput.t) : Client (option json) :=
  let params := [] in
  let params := set_truthy "name" (TrelloCustomFieldUpdateInput.name input) params in
  let params := set_defined "pos" (TrelloCustomFieldUpdateInput.pos input) String_position params in
  let params := set_defined "display/cardFront" (TrelloCustomFieldUpdateInput.display_cardFront input) String_boolean params in
  request ("/customFields/" ++ customFieldId) (with_method "PUT")
    (Some params).

Definition deleteCustomField (customFieldId : string) : Client unit :=
  request_void ("/customFields/" ++ customFieldId) (with_method "DELETE") None.

Definition getCustomFieldOptions (customFieldId : string)
  : Client (option json) :=
  request ("/customFields/" ++ customFieldId ++ "/options") no_options None.

Definition addCustomFieldOption (customFieldId value : string)
  (color : option string) : Client (option json) :=
  let body := [("value", JObject [("text", JString value)])] in
  let body :=
    match color with
    | Some c => set_if (truthy_string c) "color" (JString c) body
    | None => body
    end in
  request ("/customFields/" ++ customFieldId ++ "/options")
    (with_method_body "POST" (JSON_stringify (JObject body))) None.

Definition deleteCustomFieldOption (customFieldId optionId : string)
  : Client unit :=
  request_void ("/customFields/" ++ customFieldId ++ "/options/" ++ optionId)
    (with_method "DELETE") None.

(* --------------------------------------------------------------- *)
(** *** Organizations (workspaces) *)

Definition getOrganization (orgId : string) : Client (option json) :=
  request ("/organizations/" ++ orgId) no_options None.

Definition createOrganization (input : TrelloOrganizationCreateInput.t)
  : Client (option json) :=
  let params := [("displayName", PString (TrelloOrganizationCreateInput.displayName input))] in
  let params := set_truthy "desc" (TrelloOrganizationCreateInput.desc input) params in
  let params := set_truthy "name" (TrelloOrganizationCreateInput.name input) params in
  let params := set_truthy "website" (TrelloOrganizationCreateInput.website input) params in
  request "/organizations" (with_method "POST") (Some params).

Definition updateOrganization (orgId : string)
  (input : TrelloOrganizationUpdateInput.t) : Client (option json) :=
  let params := [] in
  let params := set_truthy "name" (TrelloOrganizationUpdateInput.name input) params in
  let params := set_truthy "displayName" (TrelloOrganizationUpdateInput.displayName input) params in
  let params := set_defined "desc" (TrelloOrganizationUpdateInput.desc input) id_string params in
  let params := set_defined "website" (TrelloOrganizationUpdateInput.website input) (fun w => or_empty (Some w)) params in
  let params := set_truthy "prefs/permissionLevel" (TrelloOrganizationUpdateInput.prefs_permissionLevel input) params in
  let params := set_truthy "prefs/orgInviteRestrict" (TrelloOrganizationUpdateInput.prefs_orgInviteRestrict input) params in
  let params := set_truthy "prefs/boardVisibilityRestrict/private" (TrelloOrganizationUpdateInput.prefs_boardVisibilityRestrict_private input) params in
  let params := set_truthy "prefs/boardVisibilityRestrict/org" (TrelloOrganizationUpdateInput.prefs_boardVisibilityRestrict_org input) params in
  let params := set_truthy "prefs/boardVisibilityRestrict/public" (TrelloOrganizationUpdateInput.prefs_boardVisibilityRestrict_public input) params in
  request ("/organizations/" ++ orgId) (with_method "PUT") (Some params).

Definition deleteOrganization (orgId : string) : Client unit :=
  request_void ("/organizations/" ++ orgId) (with_method "DELETE") None.

Definition getOrganizationMembers (orgId : string) : Client (option json) :=
  request ("/organizations/" ++ orgId ++ "/members") no_options None.

Definition getOrganizationBoards (orgId : string) (filter : option string)
  : Client (option json) :=
  let filter := default_to "open" filter in
  request ("/organizations/" ++ orgId ++ "/boards") no_options
    (Some [("filter", PString filter)]).

(* --------------------------------------------------------------- *)
(** *** Actions, search, webhooks *)

Definition getAction (actionId : string) : Client (option json) :=
  request ("/actions/" ++ actionId) no_options None.

Definition search (query : string) (options : option SearchOptions.t)
  : Client (option json) :=
  let params := [("query", PString query)] in
  let opt {T : Type} (f : SearchOptions.t -> option T) : option T :=
    match options with
    | Some o => f o
    | None => None
    end in
  let params := set_nonempty "idBoards" (opt SearchOptions.idBoards) params in
  let params := set_nonempty "idOrganizations" (opt SearchOptions.idOrganizations) params in
  let params := set_nonempty "modelTypes" (opt SearchOptions.modelTypes) params in
  let params := set_truthy_number "cards_limit" (opt SearchOptions.cards_limit) params in
  let params := set_truthy_number "boards_limit" (opt SearchOptions.boards_limit) params in
  let params := set_defined "partial" (opt SearchOptions.partial) String_boolean params in
  request "/search" no_options (Some params).

(** [limit = 8]; [String(8)] is ["8"]. *)
Definition searchMembers (query : string) (limit : option number)
  : Client (option json) :=
  let limit := match limit with
               | Some n => String_number n
               | None => "8"
               end in
  request "/search/members" no_options
    (Some [("query", PString query); ("limit", PString limit)]).

Definition getWebhook (webhookId : string) : Client (option json) :=
  request ("/webhooks/" ++ webhookId) no_options None.

Definition getWebhooks : Client (option json) :=
  request ("/tokens/" ++ token credentials ++ "/webhooks") no_options None.

Definition createWebhook (input : TrelloWebhookCreateInput.t)
  : Client (option json) :=
  let params := [("callbackURL", PString (TrelloWebhookCreateInput.callbackURL input));
                 ("idModel", PString (TrelloWebhookCreateInput.idModel input))] in
  let params := set_truthy "description" (TrelloWebhookCreateInput.description input) params in
  let params := set_defined "active" (TrelloWebhookCreateInput.active input) String_boolean params in
  request "/webhooks" (with_method "POST") (Some params).

Definition updateWebhook (webhookId : string)
  (input : TrelloWebhookUpdateInput.t) : Client (option json) :=
  let params := [] in
  let params := set_defined "description" (TrelloWebhookUpdateInput.description input) id_string params in
  let params := set_truthy "callbackURL" (TrelloWebhookUpdateInput.callbackURL input) params in
  let params := set_truthy "idModel" (TrelloWebhookUpdateInput.idModel input) params in
  let params := set_defined "active" (TrelloWebhookUpdateInput.active input) String_boolean params in
  request ("/webhooks/" ++ webhookId) (with_method "PUT") (Some params).

Definition deleteWebhook (webhookId : string) : Client unit :=
  request_void ("/webhooks/" ++ webhookId) (with_method "DELETE") None.

End TrelloClientImpl.

(* ----------------------------------------------------------------- *)
(** *** The [TrelloClient] interface

    One constructor for each method of the interface, with the arguments
    of the call. *)

Inductive Operation `{JsNumber} : Type :=
| TestConnection
| GetMe
| GetMember (idOrUsername : string)
| GetMemberBoards (idOrUsername : string) (filter : option string)
| GetMemberCards (idOrUsername : string)
| GetMemberOrganizations (idOrUsername : string)
| ListBoards (filter : option string)
| GetBoard (boardId : string)
| CreateBoard (input : TrelloBoardCreateInput.t)
| UpdateBoard (boardId : string) (input : TrelloBoardUpdateInput.t)
| DeleteBoard (boardId : string)
| GetBoardMembers (boardId : string)
| GetBoardLists (boardId : string) (filter : option string)
| GetBoardCards (boardId : string) (filter : option string)
| GetBoardLabels (boardId : string)
| GetBoardActions (boardId : string) (limit : option number)
| GetBoardChecklists (boardId : string)
| GetBoardCustomFields (boardId : string)
| AddMemberToBoard (boardId memberId : string) (type : option string)
| RemoveMemberFromBoard (boardId memberId : string)
| GetList (listId : string)
| CreateList (input : TrelloListCreateInput.t)
| UpdateList (listId : string) (input : TrelloListUpdateInput.t)
| ArchiveList (listId : string)
| UnarchiveList (listId : string)
| GetListCards (listId : string) (filter : option string)
| ArchiveAllCardsInList (listId : string)
| MoveAllCardsInList (listId idBoard idList : string)
| GetCard (cardId : string)
| CreateCard (input : TrelloCardCreateInput.t)
| UpdateCard (cardId : string) (input : TrelloCardUpdateInput.t)
| DeleteCard (cardId : string)
| ArchiveCard (cardId : string)
| UnarchiveCard (cardId : string)
| MoveCard (cardId idList : string) (idBoard : option string)
| GetCardActions (cardId : string) (limit : option number)
| GetCardAttachments (cardId : string)
| AddAttachmentToCard (cardId : string) (input : TrelloAttachmentCreateInput.t)
| DeleteAttachment (cardId attachmentId : string)
| GetCardChecklists (cardId : string)
| AddCommentToCard (cardId text : string)
| GetCardComments (cardId : string)
| UpdateComment (cardId actionId text : string)
| DeleteComment (cardId actionId : string)
| AddLabelToCard (cardId labelId : string)
| RemoveLabelFromCard (cardId labelId : string)
| AddMemberToCard (cardId memberId : string)
| RemoveMemberFromCard (cardId memberId : string)
| GetCardCustomFieldItems (cardId : string)
| SetCardCustomFieldValue (cardId customFieldId : string) (value : json)
| GetLabel (labelId : string)
| CreateLabel (input : TrelloLabelCreateInput.t)
| UpdateLabel (labelId : string) (input : TrelloLabelUpdateInput.t)
| DeleteLabel (labelId : string)
| GetChecklist (checklistId : string)
| CreateChecklist (input : TrelloChecklistCreateInput.t)
| UpdateChecklist (checklistId name : string)
| DeleteChecklist (checklistId : string)
| GetCheckItems (checklistId : string)
| CreateCheckItem (checklistId : string) (input : TrelloCheckItemCreateInput.t)
| UpdateCheckItem (cardId checkItemId : string)
    (input : TrelloCheckItemUpdateInput.t)
| DeleteCheckItem (checklistId checkItemId : string)
| GetCustomField (customFieldId : string)
| CreateCustomField (input : TrelloCustomFieldCreateInput.t)
| UpdateCustomField (customFieldId : string)
    (input : TrelloCustomFieldUpdateInput.t)
| DeleteCustomField (customFieldId : string)
| GetCustomFieldOptions (customFieldId : string)
| AddCustomFieldOption (customFieldId value : string) (color : option string)
| DeleteCustomFieldOption (customFieldId optionId : string)
| GetOrganization (orgId : string)
| CreateOrganization (input : TrelloOrganizationCreateInput.t)
| UpdateOrganization (orgId : string) (input : TrelloOrganizationUpdateInput.t)
| DeleteOrganization (orgId : string)
| GetOrganizationMembers (orgId : string)
| GetOrganizationBoards (orgId : string) (filter : option string)
| GetAction (actionId : string)
| SearchQuery (query : string) (options : option SearchOptions.t)
| SearchMembers (query : string) (limit : option number)
| GetWebhook (webhookId : string)
| GetWebhooks
| CreateWebhook (input : TrelloWebhookCreateInput.t)
| UpdateWebhook (webhookId : string) (input : TrelloWebhookUpdateInput.t)
| DeleteWebhook (webhookId : string).

(** What a method resolves to: a deserialised entity or list of entities
    ([undefined] for an empty body), nothing, or a connection status. *)
Inductive Returned `{JsNumber} : Type :=
| Data (v : option json)
| Void
| Status (s : ConnectionStatus).

Section TrelloClient.

Context `{JsRuntime}.
Variable credentials : TenantCredentials.
Variable fetch : FetchCall -> FetchOutcome.

Local Open Scope client_scope.

Definition data (m : Client (option json)) : Client Returned :=
  v <- m ;; ret (Data v).

Definition void (m : Client unit) : Client Returned :=
  m ;;; ret Void.

(** Calling the method [op] names on a client built by
    [createTrelloClient(credentials)]. *)
Definition invoke (op : Operation) : Client Returned :=
  let c := credentials in
  let f := fetch in
  match op with
  | TestConnection => s <- testConnection c f ;; ret (Status s)
  | GetMe => data (getMe c f)
  | GetMember i => data (getMember c f i)
  | GetMemberBoards i fl => data (getMemberBoards c f i fl)
  | GetMemberCards i => data (getMemberCards c f i)
  | GetMemberOrganizations i => data (getMemberOrganizations c f i)
  | ListBoards fl => data (listBoards c f fl)
  | GetBoard b => data (getBoard c f b)
  | CreateBoard i => data (createBoard c f i)
  | UpdateBoard b i => data (updateBoard c f b i)
  | DeleteBoard b => void (deleteBoard c f b)
  | GetBoardMembers b => data (getBoardMembers c f b)
  | GetBoardLists b fl => data (getBoardLists c f b fl)
  | GetBoardCards b fl => data (getBoardCards c f b fl)
  | GetBoardLabels b => data (getBoardLabels c f b)
  | GetBoardActions b l => data (getBoardActions c f b l)
  | GetBoardChecklists b => data (getBoardChecklists c f b)
  | GetBoardCustomFields b => data (getBoardCustomFields c f b)
  | AddMemberToBoard b m t => data (addMemberToBoard c f b m t)
  | RemoveMemberFromBoard b m => void (removeMemberFromBoard c f b m)
  | GetList l => data (getList c f l)
  | CreateList i => data (createList c f i)
  | UpdateList l i => data (updateList c f l i)
  | ArchiveList l => data (archiveList c f l)
  | UnarchiveList l => data (unarchiveList c f l)
  | GetListCards l fl => data (getListCards c f l fl)
  | ArchiveAllCardsInList l => void (archiveAllCardsInList c f l)
  | MoveAllCardsInList l b l' => void (moveAllCardsInList c f l b l')
  | GetCard k => data (getCard c f k)
  | CreateCard i => data (createCard c f i)
  | UpdateCard k i => data (updateCard c f k i)
  | DeleteCard k => void (deleteCard c f k)
  | ArchiveCard k => data (archiveCard c f k)
  | UnarchiveCard k => data (unarchiveCard c f k)
  | MoveCard k l b => data (moveCard c f k l b)
  | GetCardActions k l => data (getCardActions c f k l)
  | GetCardAttachments k => data (getCardAttachments c f k)
  | AddAttachmentToCard k i => data (addAttachmentToCard c f k i)
  | DeleteAttachment k a => void (deleteAttachment c f k a)
  | GetCardChecklists k => data (getCardChecklists c f k)
  | AddCommentToCard k t => data (addCommentToCard c f k t)
  | GetCardComments k => data (getCardComments c f k)
  | UpdateComment k a t => data (updateComment c f k a t)
  | DeleteComment k a => void (deleteComment c f k a)
  | AddLabelToCard k l => void (addLabelToCard c f k l)
  | RemoveLabelFromCard k l => void (removeLabelFromCard c f k l)
  | AddMemberToCard k m => void (addMemberToCard c f k m)
  | RemoveMemberFromCard k m => void (removeMemberFromCard c f k m)
  | GetCardCustomFieldItems k => data (getCardCustomFieldItems c f k)
  | SetCardCustomFieldValue k cf v => void (setCardCustomFieldValue c f k cf v)
  | GetLabel l => data (getLabel c f l)
  | CreateLabel i => data (createLabel c f i)
  | UpdateLabel l i => data (updateLabel c f l i)
  | DeleteLabel l => void (deleteLabel c f l)
  | GetChecklist l => data (getChecklist c f l)
  | CreateChecklist i => data (createChecklist c f i)
  | UpdateChecklist l n => data (updateChecklist c f l n)
  | DeleteChecklist l => void (deleteChecklist c f l)
  | GetCheckItems l => data (getCheckItems c f l)
  | CreateCheckItem l i => data (createCheckItem c f l i)
  | UpdateCheckItem k ci i => data (updateCheckItem c f k ci i)
  | DeleteCheckItem l ci => void (deleteCheckItem c f l ci)
  | GetCustomField cf => data (getCustomField c f cf)
  | CreateCustomField i => data (createCustomField c f i)
  | UpdateCustomField cf i => data (updateCustomField c f cf i)
  | DeleteCustomField cf => void (deleteCustomField c f cf)
  | GetCustomFieldOptions cf => data (getCustomFieldOptions c f cf)
  | AddCustomFieldOption cf v col => data (addCustomFieldOption c f cf v col)
  | DeleteCustomFieldOption cf o => void (deleteCustomFieldOption c f cf o)
  | GetOrganization o => data (getOrganization c f o)
  | CreateOrganization i => data (createOrganization c f i)
  | UpdateOrganization o i => data (updateOrganization c f o i)
  | DeleteOrganization o => void (deleteOrganization c f o)
  | GetOrganizationMembers o => data (getOrganizationMembers c f o)
  | GetOrganizationBoards o fl => data (getOrganizationBoards c f o fl)
  | GetAction a => data (getAction c f a)
  | SearchQuery q o => data (search c f q o)
  | SearchMembers q l => data (searchMembers c f q l)
  | GetWebhook w => data (getWebhook c f w)
  | GetWebhooks => data (getWebhooks c f)
  | CreateWebhook i => data (createWebhook c f i)
  | UpdateWebhook w i => data (updateWebhook c f w i)
  | DeleteWebhook w => void (deleteWebhook c f w)
  end.

End TrelloClient.

(* ================================================================= *)
(** ** The response renderer ([utils/formatters.ts])

    The entities are records holding the fields the renderer reads. *)

Module TrelloBoard.
Record t : Type := {
  id : string;
  name : string;
  closed : bool;
  shortUrl : string
}.
End TrelloBoard.

Module TrelloList.
Record t `{JsNumber} : Type := {
  id : string;
  name : string;
  closed : bool;
  pos : number
}.
End TrelloList.

Module TrelloCard.
Record t : Type := {
  id : string;
  name : string;
  closed : bool;
  due : option string;
  dueComplete : bool;
  shortUrl : string
}.
End TrelloCard.

Module TrelloLabel.
Record t : Type := {
  id : string;
  name : string;
  color : option string
}.
End TrelloLabel.

Module TrelloMember.
Record t : Type := {
  id : string;
  username : string;
  fullName : string
}.
End TrelloMember.

Module TrelloCheckItem.
Record t : Type := {
  name : string;
  state : string
}.
End TrelloCheckItem.

Module TrelloChecklist.
Record t : Type := {
  id : string;
  name : string;
  checkItems : list TrelloCheckItem.t
}.
End TrelloChecklist.

Module TrelloOrganization.
Record t : Type := {
  id : string;
  displayName : string;
  url : string
}.
End TrelloOrganization.

(** The [data: unknown[]] handed to the renderer: an array of one of the
    entity types, or any other array of parsed values. *)
Inductive EntityArray `{JsNumber} : Type :=
| Boards (boards : list TrelloBoard.t)
| Lists (lists : list TrelloList.t)
| Cards (cards : list TrelloCard.t)
| Labels (labels : list TrelloLabel.t)
| Members (members : list TrelloMember.t)
| Checklists (checklists : list TrelloChecklist.t)
| Organizations (orgs : list TrelloOrganization.t)
| Untyped (items : list json).

(** [data.length] *)
Definition data_length `{JsNumber} (data : EntityArray) : nat :=
  match data with
  | Boards l => length l
  | Lists l => length l
  | Cards l => length l
  | Labels l => length l
  | Members l => length l
  | Checklists l => length l
  | Organizations l => length l
  | Untyped l => length l
  end.

(** The casts [data as TrelloBoard[]] and the like.  A cast the data does
    not satisfy is outside the embedding and yields [None]. *)
Definition as_boards `{JsNumber} (data : EntityArray) :=
  match data with Boards l => Some l | _ => None end.
Definition as_lists `{JsNumber} (data : EntityArray) :=
  match data with Lists l => Some l | _ => None end.
Definition as_cards `{JsNumber} (data : EntityArray) :=
  match data with Cards l => Some l | _ => None end.
Definition as_labels `{JsNumber} (data : EntityArray) :=
  match data with Labels l => Some l | _ => None end.
Definition as_members `{JsNumber} (data : EntityArray) :=
  match data with Members l => Some l | _ => None end.
Definition as_checklists `{JsNumber} (data : EntityArray) :=
  match data with Checklists l => Some l | _ => None end.
Definition as_organizations `{JsNumber} (data : EntityArray) :=
  match data with Organizations l => Some l | _ => None end.

(** [lines.push(line)] *)
Definition push (lines : list string) (line : string) : list string :=
  (lines ++ [line])%list.

(** [str.charAt(0).toUpperCase() + str.slice(1)].  The entity kinds handed
    to the renderer are ASCII literals; a first byte outside ASCII is left
    as it is. *)
Definition capitalize (str : string) : string :=
  match str with
  | EmptyString => EmptyString
  | String a rest => String (toUpperCase_ascii a) rest
  end.

(** [text.replace(/[|]/g, '\\|').replace(/\n/g, ' ')] *)
Definition escapeMarkdown (text : string) : string :=
  replaceAll_char (ascii_of_nat 10) " " (replaceAll_char "|" "\|" text).

Section Formatters.

Context `{JsRuntime}.

(** [formatGenericTable], the fallback for the other entity kinds, is
    left uninterpreted. *)
Variable formatGenericTable : EntityArray -> string.

Definition formatBoardsTable (boards : list TrelloBoard.t) : string :=
  let lines := [] in
  let lines := push lines "| Name | ID | Status | URL |" in
  let lines := push lines "|---|---|---|---|" in
  let lines :=
    fold_left
      (fun lines board =>
         let status := if TrelloBoard.closed board then "Closed" else "Open" in
         push lines ("| " ++ TrelloBoard.name board ++ " | `"
                     ++ TrelloBoard.id board ++ "` | " ++ status ++ " | "
                     ++ TrelloBoard.shortUrl board ++ " |"))
      boards lines in
  join LF lines.

Definition formatListsTable (lists : list TrelloList.t) : string :=
  let lines := [] in
  let lines := push lines "| Name | ID | Status | Position |" in
  let lines := push lines "|---|---|---|---|" in
  let lines :=
    fold_left
      (fun lines list =>
         let status := if TrelloList.closed list then "Archived" else "Active" in
         push lines ("| " ++ TrelloList.name list ++ " | `"
                     ++ TrelloList.id list ++ "` | " ++ status ++ " | "
                     ++ String_number (TrelloList.pos list) ++ " |"))
      lists lines in
  join LF lines.

Definition formatCardsTable (cards : list TrelloCard.t) : string :=
  let lines := [] in
  let lines := push lines "| Name | ID | Due | Status | URL |" in
  let lines := push lines "|---|---|---|---|---|" in
  let lines :=
    fold_left
      (fun lines card =>
         let status := if TrelloCard.closed card then "Archived" else "Active" in
         let due :=
           match TrelloCard.due card with
           | Some d => if truthy_string d then toLocaleDateString d else "-"
           | None => "-"
           end in
         let dueStatus := if TrelloCard.dueComplete card then " (Done)" else "" in
         push lines ("| " ++ escapeMarkdown (TrelloCard.name card) ++ " | `"
                     ++ TrelloCard.id card ++ "` | " ++ due ++ dueStatus
                     ++ " | " ++ status ++ " | "
                     ++ TrelloCard.shortUrl card ++ " |"))
      cards lines in
  join LF lines.

Definition formatLabelsTable (labels : list TrelloLabel.t) : string :=
  let lines := [] in
  let lines := push lines "| Name | ID | Color |" in
  let lines := push lines "|---|---|---|" in
  let lines :=
    fold_left
      (fun lines label =>
         let name :=
           if truthy_string (TrelloLabel.name label)
           then TrelloLabel.name label else "(no name)" in
         let color :=
           match TrelloLabel.color label with
           | Some c => if truthy_string c then c else "none"
           | None => "none"
           end in
         push lines ("| " ++ escapeMarkdown name ++ " | `"
                     ++ TrelloLabel.id label ++ "` | " ++ color ++ " |"))
      labels lines in
  join LF lines.

Definition formatMembersTable (members : list TrelloMember.t) : string :=
  let lines := [] in
  let lines := push lines "| Name | Username | ID |" in
  let lines := push lines "|---|---|---|" in
  let lines :=
    fold_left
      (fun lines member =>
         push lines ("| " ++ escapeMarkdown (TrelloMember.fullName member)
                     ++ " | @" ++ TrelloMember.username member ++ " | `"
                     ++ TrelloMember.id member ++ "` |"))
      members lines in
  join LF lines.

Definition formatChecklistsTable (checklists : list TrelloChecklist.t)
  : string :=
  let lines := [] in
  let lines :=
    fold_left
      (fun lines checklist =>
         let completed :=
           length (filter (fun item => TrelloCheckItem.state item =? "complete")
                     (TrelloChecklist.checkItems checklist)) in
         let total := length (TrelloChecklist.checkItems checklist) in
         let lines :=
           push lines ("### " ++ escapeMarkdown (TrelloChecklist.name checklist)
                       ++ " (" ++ String_nat completed ++ "/"
                       ++ String_nat total ++ ")") in
         let lines :=
           push lines ("**ID:** `" ++ TrelloChecklist.id checklist ++ "`") in
         let lines := push lines "" in
         let lines :=
           if (0 <? length (TrelloChecklist.checkItems checklist))%nat then
             fold_left
               (fun lines item =>
                  let checkbox :=
                    if TrelloCheckItem.state item =? "complete"
                    then "[x]" else "[ ]" in
                  push lines ("- " ++ checkbox ++ " "
                              ++ escapeMarkdown (TrelloCheckItem.name item)))
               (TrelloChecklist.checkItems checklist) lines
           else push lines "_No items_" in
         push lines "")
      checklists lines in
  join LF lines.

Definition formatOrganizationsTable (orgs : list TrelloOrganization.t)
  : string :=
  let lines := [] in
  let lines := push lines "| Name | ID | URL |" in
  let lines := push lines "|---|---|---|" in
  let lines :=
    fold_left
      (fun lines org =>
         push lines ("| " ++ escapeMarkdown (TrelloOrganization.displayName org)
                     ++ " | `" ++ TrelloOrganization.id org ++ "` | "
                     ++ TrelloOrganization.url org ++ " |"))
      orgs lines in
  join LF lines.

Definition formatArrayAsMarkdown (data : EntityArray) (entityType : string)
  : option string :=
  if (data_length data =? 0)%nat then
    Some ("## " ++ capitalize entityType ++ LF ++ LF ++ "_No items found._")
  else
    let lines := [] in
    let lines := push lines ("## " ++ capitalize entityType) in
    let lines := push lines ("**Count:** " ++ String_nat (data_length data)) in
    let lines := push lines "" in
    let table :=
      if entityType =? "boards" then
        option_map formatBoardsTable (as_boards data)
      else if entityType =? "lists" then
        option_map formatListsTable (as_lists data)
      else if entityType =? "cards" then
        option_map formatCardsTable (as_cards data)
      else if entityType =? "labels" then
        option_map formatLabelsTable (as_labels data)
      else if entityType =? "members" then
        option_map formatMembersTable (as_members data)
      else if entityType =? "checklists" then
        option_map formatChecklistsTable (as_checklists data)
      else if entityType =? "organizations" then
        option_map formatOrganizationsTable (as_organizations data)
      else Some (formatGenericTable data) in
    option_map (fun table => join LF (push lines table)) table.

End Formatters.

(* ================================================================= *)
(** ** Tenant credentials and environment ([types/env.ts]) *)

(** [parseTenantCredentials(request)], on the headers of the request. *)
Definition parseTenantCredentials (request_headers : list (string * string))
  : TenantCredentials :=
  let headers := request_headers in
  {| apiKey := or_empty (headers_get "X-Trello-API-Key" headers);
     token := or_empty (headers_get "X-Trello-Token" headers) |}.

(** [validateCredentials(credentials)]: returns nothing or throws. *)
Definition validateCredentials (credentials : TenantCredentials)
  : result unit :=
  if negb (truthy_string (apiKey credentials)) then
    Throw (JsThrown "Missing X-Trello-API-Key header. Get your API key from https://trello.com/power-ups/admin")
  else if negb (truthy_string (token credentials)) then
    Throw (JsThrown "Missing X-Trello-Token header. Get your token from https://trello.com/power-ups/admin")
  else Ok tt.

(** *** [parseInt(s, 10)] on a text

    In the UTF-8 encoding of a text, the white space and the line
    terminators that [parseInt] skips are the six of ASCII and the
    encodings of U+00A0, U+1680, U+2000 to U+200A, U+2028, U+2029, U+202F,
    U+205F, U+3000 and U+FEFF. *)

Definition is_ascii_white_space (a : ascii) : bool :=
  let n := nat_of_ascii a in
  ((9 <=? n) && (n <=? 13) || (n =? 32))%nat.

Definition is_white_space_2 (a b : ascii) : bool :=
  ((nat_of_ascii a =? 194) && (nat_of_ascii b =? 160))%nat.

Definition is_white_space_3 (a b c : ascii) : bool :=
  let x := nat_of_ascii a in
  let y := nat_of_ascii b in
  let z := nat_of_ascii c in
  ((x =? 225) && (y =? 154) && (z =? 128)
   || (x =? 226) && (y =? 128)
      && ((128 <=? z) && (z <=? 138) || (z =? 168) || (z =? 169) || (z =? 175))
   || (x =? 226) && (y =? 129) && (z =? 159)
   || (x =? 227) && (y =? 128) && (z =? 128)
   || (x =? 239) && (y =? 187) && (z =? 191))%nat.

Fixpoint trimStart_text (s : string) : string :=
  match s with
  | EmptyString => EmptyString
  | String a rest1 =>
      if is_ascii_white_space a then trimStart_text rest1
      else
        match rest1 with
        | EmptyString => s
        | String b rest2 =>
            if is_white_space_2 a b then trimStart_text rest2
            else
              match rest2 with
              | EmptyString => s
              | String c rest3 =>
                  if is_white_space_3 a b c then trimStart_text rest3 else s
              end
        end
  end.

Definition parseInt_text (inputString : string) : IntNumber :=
  let trimmed := trimStart_text inputString in
  let '(negative, digits) :=
    match trimmed with
    | String "-" rest => (true, rest)
    | String "+" rest => (false, rest)
    | _ => (false, trimmed)
    end in
  match parse_digits digits None with
  | None => NaN
  | Some mathInt => Number_of_integer negative mathInt
  end.

(** The keys of [Env]. *)
Inductive EnvKey : Type :=
| CHARACTER_LIMIT
| DEFAULT_PAGE_SIZE
| MAX_PAGE_SIZE
| OAUTH_KV
| MCP_SESSIONS
| AI.

(** What [env[key]] holds: a string, a binding (an object), or nothing. *)
Inductive EnvValue : Type :=
| EnvString (value : string)
| EnvBinding
| EnvUndefined.

Definition Env : Type := EnvKey -> EnvValue.

Definition getEnvNumber (env : Env) (key : EnvKey) (defaultValue : IntNumber)
  : IntNumber :=
  let value := env key in
  match value with
  | EnvString value =>
      let parsed := parseInt_text value in
      match parsed with
      | NaN => defaultValue
      | _ => parsed
      end
  | _ => defaultValue
  end.




(* ================================================================= *)
(** ** The Worker ([index.ts]) *)

Definition SERVER_NAME : string := "primrose-mcp-trello".
Definition SERVER_VERSION : string := "1.0.0".

(** The request the Worker receives: the path of its URL, its method and
    its headers. *)
Record WorkerRequest : Type := {
  url_pathname : string;
  request_method : string;
  request_headers : list (string * string)
}.

(** [new Response(body, { status, headers })] *)
Record WorkerResponse : Type := {
  worker_status : Z;
  worker_headers : list (string * string);
  worker_body : string
}.

(** What the [fetch] handler of the Worker returns: a response of its own,
    or the response of the MCP handler of a server created for the
    credentials ([createStatelessServer(credentials)]). *)
Inductive Served : Type :=
| Answered (response : WorkerResponse)
| Delegated (credentials : TenantCredentials).

Definition json_response (status : Z) (body : string) : WorkerResponse :=
  {| worker_status := status;
     worker_headers := [("Content-Type", "application/json")];
     worker_body := body |}.

Section Worker.

Context `{JsRuntime}.

Definition strings (items : list string) : json :=
  JArray (map JString items).

(** The object of the default response. *)
Definition server_info : json :=
  JObject
    [ ("name", JString SERVER_NAME);
      ("version", JString SERVER_VERSION);
      ("description", JString "Multi-tenant Trello MCP Server");
      ("endpoints",
       JObject
         [ ("mcp", JString "/mcp (POST) - Streamable HTTP MCP endpoint");
           ("health", JString "/health - Health check") ]);
      ("authentication",
       JObject
         [ ("description",
            JString "Pass tenant credentials via request headers");
           ("required_headers",
            JObject [ ("X-Trello-API-Key", JString "Trello API key");
                      ("X-Trello-Token", JString "Trello API token") ]);
           ("get_credentials", JString "https://trello.com/power-ups/admin") ]);
      ("available_tools",
       strings
         [ "trello_list_boards"; "trello_get_board"; "trello_create_board";
           "trello_update_board"; "trello_delete_board";
           "trello_get_board_lists"; "trello_get_board_cards";
           "trello_get_board_members"; "trello_get_board_labels";
           "trello_get_board_actions"; "trello_add_board_member";
           "trello_remove_board_member"; "trello_get_board_custom_fields";
           "trello_get_list"; "trello_create_list"; "trello_update_list";
           "trello_archive_list"; "trello_unarchive_list";
           "trello_get_list_cards"; "trello_archive_all_cards_in_list";
           "trello_move_all_cards_in_list";
           "trello_get_card"; "trello_create_card"; "trello_update_card";
           "trello_delete_card"; "trello_archive_card";
           "trello_unarchive_card"; "trello_move_card"; "trello_add_comment";
           "trello_get_card_comments"; "trello_add_label_to_card";
           "trello_remove_label_from_card"; "trello_add_member_to_card";
           "trello_remove_member_from_card"; "trello_get_card_attachments";
           "trello_add_attachment"; "trello_delete_attachment";
           "trello_get_card_custom_fields"; "trello_set_card_custom_field";
           "trello_get_checklist"; "trello_create_checklist";
           "trello_update_checklist"; "trello_delete_checklist";
           "trello_get_card_checklists"; "trello_create_check_item";
           "trello_update_check_item"; "trello_delete_check_item";
           "trello_get_label"; "trello_create_label"; "trello_update_label";
           "trello_delete_label";
           "trello_get_me"; "trello_get_member"; "trello_get_member_boards";
           "trello_get_member_cards"; "trello_get_member_organizations";
           "trello_search_members";
           "trello_get_organization"; "trello_create_organization";
           "trello_update_organization"; "trello_delete_organization";
           "trello_get_organization_members";
           "trello_get_organization_boards";
           "trello_search";
           "trello_list_webhooks"; "trello_get_webhook";
           "trello_create_webhook"; "trello_update_webhook";
           "trello_delete_webhook";
           "trello_get_custom_field"; "trello_create_custom_field";
           "trello_update_custom_field"; "trello_delete_custom_field";
           "trello_get_custom_field_options";
           "trello_add_custom_field_option";
           "trello_delete_custom_field_option";
           "trello_test_connection" ]) ].

(** The [fetch] handler of the Worker. *)
Definition worker_fetch (request : WorkerRequest) : Served :=
  if url_pathname request =? "/health" then
    Answered
      (json_response 200
         (JSON_stringify
            (JObject [ ("status", JString "ok");
                       ("server", JString SERVER_NAME) ])))
  else if (url_pathname request =? "/mcp") && (request_method request =? "POST")
  then
    let credentials := parseTenantCredentials (request_headers request) in
    match validateCredentials credentials with
    | Throw error =>
        Answered
          (json_response 401
             (JSON_stringify
                (JObject
                   [ ("error", JString "Unauthorized");
                     ("message", JString (error_message error));
                     ("required_headers",
                      strings ["X-Trello-API-Key"; "X-Trello-Token"]);
                     ("get_credentials",
                      JString "https://trello.com/power-ups/admin") ])))
    | Ok _ => Delegated credentials
    end
  else if url_pathname request =? "/sse" then
    Answered
      {| worker_status := 501;
         worker_headers := [];
         worker_body :=
           "SSE endpoint requires Durable Objects. Enable in wrangler.jsonc." |}
  else Answered (json_response 200 (JSON_stringify server_info)).

End Worker.

(* ----------------------------------------------------------------- *)
(** *** The connection tool of the server *)

(** An entry [{ type: 'text', text }] of the content of a tool response. *)
Record TextContent : Type := {
  text : string
}.

Record ToolResponse : Type := {
  content : list TextContent;
  isError : option bool
}.

Section ConnectionTool.

Context `{JsRuntime}.

Local Open Scope client_scope.

(** [JSON.stringify(value, null, 2)] *)
Variable JSON_stringify_pretty : json -> string.

Variable credentials : TenantCredentials.
Variable fetch : FetchCall -> FetchOutcome.

(** The object that [testConnection] resolves to. *)
Definition status_object (s : ConnectionStatus) : json :=
  JObject [ ("connected", JBool (connected s));
            ("message", JString (message s)) ].

(** The handler of the tool [trello_test_connection] that
    [createStatelessServer] registers. *)
Definition trello_test_connection : Client ToolResponse :=
  try_catch
    (connection <- testConnection credentials fetch ;;
     ret {| content :=
              [ {| text := JSON_stringify_pretty (status_object connection) |} ];
            isError := None |})
    (fun error =>
       ret {| content :=
                [ {| text := "Connection failed: " ++ error_message error |} ];
              isError := Some true |}).

End ConnectionTool.

(* ================================================================= *)
(** ** The renderer of single objects and of other arrays
    ([utils/formatters.ts]) *)

(** [key.replace(/([A-Z])/g, ' $1')] *)
Fixpoint space_before_capitals (key : string) : string :=
  match key with
  | EmptyString => EmptyString
  | String a rest =>
      if is_upper a then String " " (String a (space_before_capitals rest))
      else String a (space_before_capitals rest)
  end.

(** [s.replace(/^./, (str) => str.toUpperCase())]: the dot matches no line
    terminator.  As in [capitalize], a first byte outside ASCII is left as
    it is. *)
Definition upper_first (s : string) : string :=
  match s with
  | EmptyString => EmptyString
  | String a rest =>
      if (nat_of_ascii a =? 10)%nat || (nat_of_ascii a =? 13)%nat then s
      else String (toUpperCase_ascii a) rest
  end.

Fixpoint trimStart_ascii (s : string) : string :=
  match s with
  | EmptyString => EmptyString
  | String a rest => if is_ascii_white_space a then trimStart_ascii rest else s
  end.

Fixpoint trimEnd_ascii (s : string) : string :=
  match s with
  | EmptyString => EmptyString
  | String a rest =>
      match trimEnd_ascii rest with
      | EmptyString => if is_ascii_white_space a then EmptyString
                       else String a EmptyString
      | trimmed => String a trimmed
      end
  end.

(** [s.trim()], for a text whose white space is that of ASCII. *)
Definition trim_ascii (s : string) : string :=
  trimEnd_ascii (trimStart_ascii s).

(** [formatKey(key)], for the ASCII keys of the objects of the API. *)
Definition formatKey (key : string) : string :=
  trim_ascii (upper_first (space_before_capitals key)).

(** [entityType.replace(/s$/, '')] *)
Fixpoint drop_final_s (entityType : string) : string :=
  match entityType with
  | EmptyString => EmptyString
  | String a EmptyString =>
      if Ascii.eqb a "s" then EmptyString else entityType
  | String a rest => String a (drop_final_s rest)
  end.

(** The names under which [Object.prototype] holds a function. *)
Definition Object_prototype_functions : list string :=
  [ "constructor"; "hasOwnProperty"; "isPrototypeOf"; "propertyIsEnumerable";
    "toLocaleString"; "toString"; "valueOf"; "__defineGetter__";
    "__defineSetter__"; "__lookupGetter__"; "__lookupSetter__" ].

Section ObjectRenderer.

Context `{JsNumber}.

(** [JSON.stringify(value, null, 2)] *)
Variable JSON_stringify_pretty : json -> string.

(** [String(val).slice(0, 50)] at the string [String(val)] *)
Variable slice_0_50 : string -> string.

(** [String(f)] for the function that [Object.prototype] holds under a
    name; the text of a built-in function is left to the implementation. *)
Variable String_function : string -> string.

(** [formatObjectAsMarkdown(data, entityType)], on the entries of [data]
    in the order of [Object.entries]. *)
Definition formatObjectAsMarkdown (data : JsObject json) (entityType : string)
  : string :=
  let lines := [] in
  let lines := push lines ("## " ++ capitalize (drop_final_s entityType)) in
  let lines := push lines "" in
  let lines :=
    fold_left
      (fun lines entry =>
         let '(key, value) := entry in
         match value with
         | JNull => lines
         | JArray _ | JObject _ =>
             let lines := push lines ("**" ++ formatKey key ++ ":**") in
             let lines := push lines "```json" in
             let lines := push lines (JSON_stringify_pretty value) in
             push lines "```"
         | _ => push lines ("**" ++ formatKey key ++ ":** " ++ template_json value)
         end)
      data lines in
  join LF lines.

(** What [record[k]] finds in an object that [JSON.parse] made: a
    property of the object itself, or else one that it inherits from
    [Object.prototype], which is a function under the names of
    [Object_prototype_functions] and the prototype itself under
    [__proto__]; [undefined] otherwise. *)
Inductive Property : Type :=
| Own (value : json)
| InheritedFunction (name : string)
| InheritedPrototype
| NoProperty.

Definition obj_get (record : JsObject json) (k : string) : Property :=
  match find (fun member => fst member =? k) record with
  | Some member => Own (snd member)
  | None =>
      if k =? "__proto__" then InheritedPrototype
      else if existsb (String.eqb k) Object_prototype_functions
      then InheritedFunction k
      else NoProperty
  end.

(** The cell of [record] in the column [k] of the generic table. *)
Definition generic_cell (record : JsObject json) (k : string) : string :=
  match obj_get record k with
  | NoProperty => "-"
  | Own JNull => "-"
  | Own (JArray _) => "(object)"
  | Own (JObject _) => "(object)"
  | InheritedPrototype => "(object)"
  | Own val => slice_0_50 (template_json val)
  | InheritedFunction name => slice_0_50 (String_function name)
  end.

(** [formatGenericTable(items)], for an array of objects, each with its
    properties in the order of [Object.keys].  The renderer of arrays
    above takes it as a parameter. *)
Definition formatGenericTable_records (items : list (JsObject json)) : string :=
  match items with
  | [] => "_No items_"
  | first :: _ =>
      let keys := firstn 5 (obj_keys first) in
      let lines := [] in
      let lines := push lines ("| " ++ join " | " keys ++ " |") in
      let lines :=
        push lines ("|" ++ join "|" (map (fun _ => "---") keys) ++ "|") in
      let lines :=
        fold_left
          (fun lines item =>
             let record := item in
             let values := map (generic_cell record) keys in
             push lines ("| " ++ join " | " values ++ " |"))
          items lines in
      join LF lines
  end.

End ObjectRenderer.

(* ================================================================= *)
(** ** Notions of the specification *)

Definition is_supplied {T : Type} (v : option T) : bool :=
  match v with
  | Some _ => true
  | None => false
  end.

(** An entry of the table of declared fields: the field of the input, the
    request parameter that carries it, and whether the caller supplied it. *)
Definition field {T : Type} (name wire : string) (v : option T)
  : string * string * bool :=
  (name, wire, is_supplied v).

Definition required (name : string) : string * string * bool :=
  (name, name, true).

(** The fields declared by the input type of each create and update
    operation ([types/entities.ts]); a field the method never sends is
    listed under its own name. *)
Definition declared_fields `{JsNumber} (op : Operation)
  : list (string * string * bool) :=
  match op with
  | CreateBoard i =>
      [ required "name";
        field "desc" "desc" (TrelloBoardCreateInput.desc i);
        field "idOrganization" "idOrganization" (TrelloBoardCreateInput.idOrganization i);
        field "idBoardSource" "idBoardSource" (TrelloBoardCreateInput.idBoardSource i);
        field "keepFromSource" "keepFromSource" (TrelloBoardCreateInput.keepFromSource i);
        field "powerUps" "powerUps" (TrelloBoardCreateInput.powerUps i);
        field "prefs_permissionLevel" "prefs_permissionLevel" (TrelloBoardCreateInput.prefs_permissionLevel i);
        field "prefs_voting" "prefs_voting" (TrelloBoardCreateInput.prefs_voting i);
        field "prefs_comments" "prefs_comments" (TrelloBoardCreateInput.prefs_comments i);
        field "prefs_invitations" "prefs_invitations" (TrelloBoardCreateInput.prefs_invitations i);
        field "prefs_selfJoin" "prefs_selfJoin" (TrelloBoardCreateInput.prefs_selfJoin i);
        field "prefs_cardCovers" "prefs_cardCovers" (TrelloBoardCreateInput.prefs_cardCovers i);
        field "prefs_background" "prefs_background" (TrelloBoardCreateInput.prefs_background i);
        field "prefs_cardAging" "prefs_cardAging" (TrelloBoardCreateInput.prefs_cardAging i);
        field "defaultLabels" "defaultLabels" (TrelloBoardCreateInput.defaultLabels i);
        field "defaultLists" "defaultLists" (TrelloBoardCreateInput.defaultLists i) ]
  | UpdateBoard _ i =>
      [ field "name" "name" (TrelloBoardUpdateInput.name i);
        field "desc" "desc" (TrelloBoardUpdateInput.desc i);
        field "closed" "closed" (TrelloBoardUpdateInput.closed i);
        field "subscribed" "subscribed" (TrelloBoardUpdateInput.subscribed i);
        field "idOrganization" "idOrganization" (TrelloBoardUpdateInput.idOrganization i);
        field "prefs_permissionLevel" "prefs/permissionLevel" (TrelloBoardUpdateInput.prefs_permissionLevel i);
        field "prefs_selfJoin" "prefs/selfJoin" (TrelloBoardUpdateInput.prefs_selfJoin i);
        field "prefs_cardCovers" "prefs/cardCovers" (TrelloBoardUpdateInput.prefs_cardCovers i);
        field "prefs_hideVotes" "prefs/hideVotes" (TrelloBoardUpdateInput.prefs_hideVotes i);
        field "prefs_invitations" "prefs/invitations" (TrelloBoardUpdateInput.prefs_invitations i);
        field "prefs_voting" "prefs/voting" (TrelloBoardUpdateInput.prefs_voting i);
        field "prefs_comments" "prefs/comments" (TrelloBoardUpdateInput.prefs_comments i);
        field "prefs_background" "prefs/background" (TrelloBoardUpdateInput.prefs_background i);
        field "prefs_cardAging" "prefs/cardAging" (TrelloBoardUpdateInput.prefs_cardAging i);
        field "prefs_calendarFeedEnabled" "prefs/calendarFeedEnabled" (TrelloBoardUpdateInput.prefs_calendarFeedEnabled i);
        field "labelNames_green" "labelNames/green" (TrelloBoardUpdateInput.labelNames_green i);
        field "labelNames_yellow" "labelNames/yellow" (TrelloBoardUpdateInput.labelNames_yellow i);
        field "labelNames_orange" "labelNames/orange" (TrelloBoardUpdateInput.labelNames_orange i);
        field "labelNames_red" "labelNames/red" (TrelloBoardUpdateInput.labelNames_red i);
        field "labelNames_purple" "labelNames/purple" (TrelloBoardUpdateInput.labelNames_purple i);
        field "labelNames_blue" "labelNames/blue" (TrelloBoardUpdateInput.labelNames_blue i) ]
  | CreateList i =>
      [ required "name"; required "idBoard";
        field "idListSource" "idListSource" (TrelloListCreateInput.idListSource i);
        field "pos" "pos" (TrelloListCreateInput.pos i) ]
  | UpdateList _ i =>
      [ field "name" "name" (TrelloListUpdateInput.name i);
        field "closed" "closed" (TrelloListUpdateInput.closed i);
        field "idBoard" "idBoard" (TrelloListUpdateInput.idBoard i);
        field "pos" "pos" (TrelloListUpdateInput.pos i);
        field "subscribed" "subscribed" (TrelloListUpdateInput.subscribed i) ]
  | CreateCard i =>
      [ required "idList"; required "name";
        field "desc" "desc" (TrelloCardCreateInput.desc i);
        field "pos" "pos" (TrelloCardCreateInput.pos i);
        field "due" "due" (TrelloCardCreateInput.due i);
        field "start" "start" (TrelloCardCreateInput.start i);
        field "dueComplete" "dueComplete" (TrelloCardCreateInput.dueComplete i);
        field "idMembers" "idMembers" (TrelloCardCreateInput.idMembers i);
        field "idLabels" "idLabels" (TrelloCardCreateInput.idLabels i);
        field "urlSource" "urlSource" (TrelloCardCreateInput.urlSource i);
        field "fileSource" "fileSource" (TrelloCardCreateInput.fileSource i);
        field "mimeType" "mimeType" (TrelloCardCreateInput.mimeType i);
        field "idCardSource" "idCardSource" (TrelloCardCreateInput.idCardSource i);
        field "keepFromSource" "keepFromSource" (TrelloCardCreateInput.keepFromSource i);
        field "address" "address" (TrelloCardCreateInput.address i);
        field "locationName" "locationName" (TrelloCardCreateInput.locationName i);
        field "coordinates" "coordinates" (TrelloCardCreateInput.coordinates i) ]
  | UpdateCard _ i =>
      [ field "name" "name" (TrelloCardUpdateInput.name i);
        field "desc" "desc" (TrelloCardUpdateInput.desc i);
        field "closed" "closed" (TrelloCardUpdateInput.closed i);
        field "idList" "idList" (TrelloCardUpdateInput.idList i);
        field "idBoard" "idBoard" (TrelloCardUpdateInput.idBoard i);
        field "pos" "pos" (TrelloCardUpdateInput.pos i);
        field "due" "due" (TrelloCardUpdateInput.due i);
        field "start" "start" (TrelloCardUpdateInput.start i);
        field "dueComplete" "dueComplete" (TrelloCardUpdateInput.dueComplete i);
        field "subscribed" "subscribed" (TrelloCardUpdateInput.subscribed i);
        field "idMembers" "idMembers" (TrelloCardUpdateInput.idMembers i);
        field "idLabels" "idLabels" (TrelloCardUpdateInput.idLabels i);
        field "cover" "cover" (TrelloCardUpdateInput.cover i) ]
  | AddAttachmentToCard _ i =>
      [ field "name" "name" (TrelloAttachmentCreateInput.name i);
        field "file" "file" (TrelloAttachmentCreateInput.file i);
        field "mimeType" "mimeType" (TrelloAttachmentCreateInput.mimeType i);
        field "url" "url" (TrelloAttachmentCreateInput.url i);
        field "setCover" "setCover" (TrelloAttachmentCreateInput.setCover i) ]
  | UpdateComment _ _ _ => [ required "text" ]
  | CreateLabel i => [ required "name"; required "color"; required "idBoard" ]
  | UpdateLabel _ i =>
      [ field "name" "name" (TrelloLabelUpdateInput.name i);
        field "color" "color" (TrelloLabelUpdateInput.color i) ]
  | CreateChecklist i =>
      [ required "idCard";
        field "name" "name" (TrelloChecklistCreateInput.name i);
        field "pos" "pos" (TrelloChecklistCreateInput.pos i);
        field "idChecklistSource" "idChecklistSource" (TrelloChecklistCreateInput.idChecklistSource i) ]
  | UpdateChecklist _ _ => [ required "name" ]
  | CreateCheckItem _ i =>
      [ required "name";
        field "pos" "pos" (TrelloCheckItemCreateInput.pos i);
        field "checked" "checked" (TrelloCheckItemCreateInput.checked i);
        field "due" "due" (TrelloCheckItemCreateInput.due i);
        field "idMember" "idMember" (TrelloCheckItemCreateInput.idMember i) ]
  | UpdateCheckItem _ _ i =>
      [ field "name" "name" (TrelloCheckItemUpdateInput.name i);
        field "state" "state" (TrelloCheckItemUpdateInput.state i);
        field "pos" "pos" (TrelloCheckItemUpdateInput.pos i);
        field "due" "due" (TrelloCheckItemUpdateInput.due i);
        field "idMember" "idMember" (TrelloCheckItemUpdateInput.idMember i) ]
  | CreateCustomField i =>
      [ required "idModel"; required "modelType"; required "name";
        required "type";
        field "pos" "pos" (TrelloCustomFieldCreateInput.pos i);
        field "display_cardFront" "display_cardFront" (TrelloCustomFieldCreateInput.display_cardFront i) ]
  | UpdateCustomField _ i =>
      [ field "name" "name" (TrelloCustomFieldUpdateInput.name i);
        field "pos" "pos" (TrelloCustomFieldUpdateInput.pos i);
        field "display_cardFront" "display/cardFront" (TrelloCustomFieldUpdateInput.display_cardFront i) ]
  | CreateOrganization i =>
      [ required "displayName";
        field "desc" "desc" (TrelloOrganizationCreateInput.desc i);
        field "name" "name" (TrelloOrganizationCreateInput.name i);
        field "website" "website" (TrelloOrganizationCreateInput.website i) ]
  | UpdateOrganization _ i =>
      [ field "name" "name" (TrelloOrganizationUpdateInput.name i);
        field "displayName" "displayName" (TrelloOrganizationUpdateInput.displayName i);
        field "desc" "desc" (TrelloOrganizationUpdateInput.desc i);
        field "website" "website" (TrelloOrganizationUpdateInput.website i);
        field "prefs_permissionLevel" "prefs/permissionLevel" (TrelloOrganizationUpdateInput.prefs_permissionLevel i);
        field "prefs_orgInviteRestrict" "prefs/orgInviteRestrict" (TrelloOrganizationUpdateInput.prefs_orgInviteRestrict i);
        field "prefs_boardVisibilityRestrict_private" "prefs/boardVisibilityRestrict/private" (TrelloOrganizationUpdateInput.prefs_boardVisibilityRestrict_private i);
        field "prefs_boardVisibilityRestrict_org" "prefs/boardVisibilityRestrict/org" (TrelloOrganizationUpdateInput.prefs_boardVisibilityRestrict_org i);
        field "prefs_boardVisibilityRestrict_public" "prefs/boardVisibilityRestrict/public" (TrelloOrganizationUpdateInput.prefs_boardVisibilityRestrict_public i) ]
  | CreateWebhook i =>
      [ required "callbackURL"; required "idModel";
        field "description" "description" (TrelloWebhookCreateInput.description i);
        field "active" "active" (TrelloWebhookCreateInput.active i) ]
  | UpdateWebhook _ i =>
      [ field "description" "description" (TrelloWebhookUpdateInput.description i);
        field "callbackURL" "callbackURL" (TrelloWebhookUpdateInput.callbackURL i);
        field "idModel" "idModel" (TrelloWebhookUpdateInput.idModel i);
        field "active" "active" (TrelloWebhookUpdateInput.active i) ]
  | _ => []
  end.

(** The input [{ due: null }] of [updateCard]. *)
Definition clear_due `{JsNumber} : TrelloCardUpdateInput.t :=
  {| TrelloCardUpdateInput.name := None;
     TrelloCardUpdateInput.desc := None;
     TrelloCardUpdateInput.closed := None;
     TrelloCardUpdateInput.idList := None;
     TrelloCardUpdateInput.idBoard := None;
     TrelloCardUpdateInput.pos := None;
     TrelloCardUpdateInput.due := Some None;
     TrelloCardUpdateInput.start := None;
     TrelloCardUpdateInput.dueComplete := None;
     TrelloCardUpdateInput.subscribed := None;
     TrelloCardUpdateInput.idMembers := None;
     TrelloCardUpdateInput.idLabels := None;
     TrelloCardUpdateInput.cover := None |}.

(** The input [{ due: null, idMember: null }] of [updateCheckItem]. *)
Definition clear_due_and_member `{JsNumber} : TrelloCheckItemUpdateInput.t :=
  {| TrelloCheckItemUpdateInput.name := None;
     TrelloCheckItemUpdateInput.state := None;
     TrelloCheckItemUpdateInput.pos := None;
     TrelloCheckItemUpdateInput.due := Some None;
     TrelloCheckItemUpdateInput.idMember := Some None |}.

(** The names of the parameters of an outbound call. *)
Definition param_names (c : FetchCall) : list string :=
  map fst (call_params c).

(** The number of check items whose state is [complete]. *)
Fixpoint completed_count (items : list TrelloCheckItem.t) : nat :=
  match items with
  | [] => 0
  | item :: rest =>
      if TrelloCheckItem.state item =? "complete"
      then S (completed_count rest)
      else completed_count rest
  end.

(** The table row of a board. *)
Definition board_row (board : TrelloBoard.t) : string :=
  "| " ++ TrelloBoard.name board ++ " | `" ++ TrelloBoard.id board ++ "` | "
  ++ (if TrelloBoard.closed board then "Closed" else "Open") ++ " | "
  ++ TrelloBoard.shortUrl board ++ " |".

(** The list entry of a check item. *)
Definition check_item_entry (item : TrelloCheckItem.t) : string :=
  "- " ++ (if TrelloCheckItem.state item =? "complete" then "[x]" else "[ ]")
  ++ " " ++ escapeMarkdown (TrelloCheckItem.name item).

(** The heading of a checklist, with its completed/total count. *)
Definition checklist_heading (checklist : TrelloChecklist.t) : string :=
  let items := TrelloChecklist.checkItems checklist in
  "### " ++ escapeMarkdown (TrelloChecklist.name checklist) ++ " ("
  ++ String_nat (completed_count items) ++ "/" ++ String_nat (length items)
  ++ ")".

(** The lines a checklist is rendered to. *)
Definition checklist_block (checklist : TrelloChecklist.t) : list string :=
  let items := TrelloChecklist.checkItems checklist in
  let id_line := "**ID:** `" ++ TrelloChecklist.id checklist ++ "`" in
  let entries :=
    match items with
    | [] => [ "_No items_" ]
    | _ => map check_item_entry items
    end in
  ([ checklist_heading checklist; id_line; "" ] ++ entries ++ [ "" ])%list.


(** An operation that is one [request]: it makes the one call, and throws
    whatever that [request] throws. *)
Definition single_request `{JsRuntime} (credentials : TenantCredentials)
  (fetch : FetchCall -> FetchOutcome) (op : Operation) : Prop :=
  exists endpoint options extraParams,
    sent (invoke credentials fetch op) =
      [fetch_call credentials endpoint options extraParams]
    /\ forall e,
         outcome (request credentials fetch endpoint options extraParams)
           = Throw e ->
         outcome (invoke credentials fetch op) = Throw e.

(** The list-style read operations that take a status filter: their
    endpoint and the filter argument of the call. *)
Definition status_filtered `{JsNumber} (op : Operation)
  : option (string * option string) :=
  match op with
  | GetMemberBoards i filter => Some ("/members/" ++ i ++ "/boards", filter)
  | ListBoards filter => Some ("/members/me/boards", filter)
  | GetBoardLists b filter => Some ("/boards/" ++ b ++ "/lists", filter)
  | GetBoardCards b filter => Some ("/boards/" ++ b ++ "/cards", filter)
  | GetListCards l filter => Some ("/lists/" ++ l ++ "/cards", filter)
  | GetOrganizationBoards o filter =>
      Some ("/organizations/" ++ o ++ "/boards", filter)
  | _ => None
  end.

(** A [GET] of [endpoint] whose query is the credentials and [filter]. *)
Definition filter_call (credentials : TenantCredentials)
  (endpoint filter : string) : FetchCall :=
  {| call_endpoint := endpoint;
     call_params := [("key", apiKey credentials);
                     ("token", token credentials);
                     ("filter", filter)];
     call_method := None;
     call_body := None;
     call_headers := [("Content-Type", "application/json")] |}.

(** A [PUT] of [endpoint] whose query is [params]. *)
Definition put_call (endpoint : string) (params : URLSearchParams)
  : FetchCall :=
  {| call_endpoint := endpoint;
     call_params := params;
     call_method := Some "PUT";
     call_body := None;
     call_headers := [("Content-Type", "application/json")] |}.

(** [part] occurs in [text]. *)
Definition includes (text part : string) : Prop :=
  exists before after, text = before ++ part ++ after.

(** The line that gives the number of entities. *)
Definition count_line (n : nat) : string := "**Count:** " ++ String_nat n.


(** [c] occurs in [text]. *)
Fixpoint has_char (c : ascii) (text : string) : bool :=
  match text with
  | EmptyString => false
  | String a rest => Ascii.eqb a c || has_char c rest
  end.

(** Every ["|"] of [text] follows a backslash; [escaped] tells whether the
    character before [text] is one. *)
Fixpoint pipes_escaped (escaped : bool) (text : string) : bool :=
  match text with
  | EmptyString => true
  | String a rest =>
      (negb (Ascii.eqb a "|") || escaped)
      && pipes_escaped (Ascii.eqb a "\") rest
  end.

(* ----------------------------------------------------------------- *)
(** *** A run-time library to evaluate the embedding with

    Numbers are integers printed in decimal; the parser knows a few
    literals. *)

Definition integer_numbers : JsNumber :=
  {| number := Z;
     String_number := fun z => NilZero.string_of_int (Z.to_int z);
     truthy_number := fun z => negb (z =? 0)%Z |}.

Definition literal_runtime : @JsRuntime integer_numbers :=
  {| JSON_parse := fun text =>
       if text =? "null" then Ok (@JNull integer_numbers)
       else if text =? "[]" then Ok (@JArray integer_numbers [])
       else if text =? "{}" then Ok (@JObject integer_numbers [])
       else Throw (JsThrown "Unexpected token");
     JSON_stringify := fun _ => "{}";
     TypeError_message := fun p =>
       "Cannot read properties of undefined (reading '" ++ p ++ "')";
     toLocaleDateString := fun s => s |}.

(** A card created with a list and a name only. *)
Definition bare_card : @TrelloCardCreateInput.t integer_numbers :=
  {| TrelloCardCreateInput.idList := "l1";
     TrelloCardCreateInput.name := "Buy milk";
     TrelloCardCreateInput.desc := None;
     TrelloCardCreateInput.pos := None;
     TrelloCardCreateInput.due := None;
     TrelloCardCreateInput.start := None;
     TrelloCardCreateInput.dueComplete := None;
     TrelloCardCreateInput.idMembers := None;
     TrelloCardCreateInput.idLabels := None;
     TrelloCardCreateInput.urlSource := None;
     TrelloCardCreateInput.fileSource := None;
     TrelloCardCreateInput.mimeType := None;
     TrelloCardCreateInput.idCardSource := None;
     TrelloCardCreateInput.keepFromSource := None;
     TrelloCardCreateInput.address := None;
     TrelloCardCreateInput.locationName := None;
     TrelloCardCreateInput.coordinates := None |}.

(** A successful answer whose body is the empty array. *)
Definition empty_array_answer : Response :=
  {| status := 200; response_headers := []; response_text := "[]" |}.

Definition roadmap_board : TrelloBoard.t :=
  {| TrelloBoard.id := "b1"; TrelloBoard.name := "Roadmap";
     TrelloBoard.closed := false;
     TrelloBoard.shortUrl := "https://trello.com/b/r" |}.

Definition archive_board : TrelloBoard.t :=
  {| TrelloBoard.id := "b2"; TrelloBoard.name := "Archive";
     TrelloBoard.closed := true;
     TrelloBoard.shortUrl := "https://trello.com/b/a" |}.

Definition todo_checklist : TrelloChecklist.t :=
  {| TrelloChecklist.id := "cl1"; TrelloChecklist.name := "Todo";
     TrelloChecklist.checkItems :=
       [ {| TrelloCheckItem.name := "a"; TrelloCheckItem.state := "complete" |};
         {| TrelloCheckItem.name := "b";
            TrelloCheckItem.state := "incomplete" |} ] |}.

(** A stand-in for [formatGenericTable]. *)
Definition no_generic_table : @EntityArray integer_numbers -> string :=
  fun _ => "".

Definition tenant : TenantCredentials :=
  {| apiKey := "k"; token := "t" |}.

(** An upstream that answers every request with the same response. *)
Definition always (r : Response) : FetchCall -> FetchOutcome :=
  fun _ => Responded r.

Definition unauthorized : Response :=
  {| status := 401; response_headers := []; response_text := "invalid key" |}.

Definition too_many_requests (retryAfter : option string) : Response :=
  {| status := 429;
     response_headers :=
       match retryAfter with
       | Some v => [("retry-after", v)]
       | None => []
       end;
     response_text := "" |}.

(* ================================================================= *)
(** ** Further notions: what the code is compared with *)

(** The methods the interface declares with [Promise<void>]. *)
Definition returns_nothing `{JsNumber} (op : Operation) : bool :=
  match op with
  | DeleteBoard _ | RemoveMemberFromBoard _ _ | ArchiveAllCardsInList _
  | MoveAllCardsInList _ _ _ | DeleteCard _ | DeleteAttachment _ _
  | DeleteComment _ _ | AddLabelToCard _ _ | RemoveLabelFromCard _ _
  | AddMemberToCard _ _ | RemoveMemberFromCard _ _
  | SetCardCustomFieldValue _ _ _ | DeleteLabel _ | DeleteChecklist _
  | DeleteCheckItem _ _ | DeleteCustomField _ | DeleteCustomFieldOption _ _
  | DeleteOrganization _ | DeleteWebhook _ => true
  | _ => false
  end.

(** What an operation resolves to when its [request] resolves to [v]. *)
Definition resolved `{JsNumber} (op : Operation) (v : option json) : Returned :=
  if returns_nothing op then Void else Data v.

(** The entries of [extraParams] that [request] keeps: the strings that are
    not empty, in order. *)
Definition kept_entries (extra : JsObject ParamValue) : URLSearchParams :=
  flat_map (fun entry =>
              match snd entry with
              | PString s => if s =? "" then [] else [(fst entry, s)]
              | _ => []
              end) extra.

(** The boolean fields of the inputs: the request parameter that carries
    each, and the value the caller gave. *)
Definition boolean_fields `{JsNumber} (op : Operation)
  : list (string * option bool) :=
  match op with
  | CreateBoard i =>
      [ ("prefs_selfJoin", TrelloBoardCreateInput.prefs_selfJoin i);
        ("prefs_cardCovers", TrelloBoardCreateInput.prefs_cardCovers i);
        ("defaultLabels", TrelloBoardCreateInput.defaultLabels i);
        ("defaultLists", TrelloBoardCreateInput.defaultLists i) ]
  | UpdateBoard _ i =>
      [ ("closed", TrelloBoardUpdateInput.closed i);
        ("subscribed", TrelloBoardUpdateInput.subscribed i);
        ("prefs/selfJoin", TrelloBoardUpdateInput.prefs_selfJoin i);
        ("prefs/cardCovers", TrelloBoardUpdateInput.prefs_cardCovers i);
        ("prefs/hideVotes", TrelloBoardUpdateInput.prefs_hideVotes i);
        ("prefs/calendarFeedEnabled",
         TrelloBoardUpdateInput.prefs_calendarFeedEnabled i) ]
  | UpdateList _ i =>
      [ ("closed", TrelloListUpdateInput.closed i);
        ("subscribed", TrelloListUpdateInput.subscribed i) ]
  | CreateCard i => [ ("dueComplete", TrelloCardCreateInput.dueComplete i) ]
  | UpdateCard _ i =>
      [ ("closed", TrelloCardUpdateInput.closed i);
        ("dueComplete", TrelloCardUpdateInput.dueComplete i);
        ("subscribed", TrelloCardUpdateInput.subscribed i) ]
  | AddAttachmentToCard _ i =>
      [ ("setCover", TrelloAttachmentCreateInput.setCover i) ]
  | CreateCheckItem _ i => [ ("checked", TrelloCheckItemCreateInput.checked i) ]
  | CreateCustomField i =>
      [ ("display_cardFront", TrelloCustomFieldCreateInput.display_cardFront i) ]
  | UpdateCustomField _ i =>
      [ ("display/cardFront", TrelloCustomFieldUpdateInput.display_cardFront i) ]
  | CreateWebhook i => [ ("active", TrelloWebhookCreateInput.active i) ]
  | UpdateWebhook _ i => [ ("active", TrelloWebhookUpdateInput.active i) ]
  | SearchQuery _ (Some o) => [ ("partial", SearchOptions.partial o) ]
  | _ => []
  end.

(** A [params] object that [request] can pass on entry by entry: its
    properties are distinct and none is [key] or [token]. *)
Definition well_keyed {V : Type} (obj : JsObject V) : Prop :=
  NoDup (obj_keys obj) /\ ~ In "key" (obj_keys obj) /\ ~ In "token" (obj_keys obj).

(** The body of the call of an operation: the two operations on custom
    fields that send JSON, and no body for the others. *)
Definition json_body `{JsRuntime} (op : Operation) : option string :=
  match op with
  | SetCardCustomFieldValue _ _ value => Some (JSON_stringify value)
  | AddCustomFieldOption _ value color =>
      Some (JSON_stringify
              (JObject
                 (("value", JObject [("text", JString value)])
                  :: match color with
                     | Some c => if c =? "" then [] else [("color", JString c)]
                     | None => []
                     end)))
  | _ => None
  end.

(* ----------------------------------------------------------------- *)
(** *** Notions for the renderer *)

(** The number of occurrences of [c] in [text]. *)
Fixpoint count_char (c : ascii) (text : string) : nat :=
  match text with
  | EmptyString => 0
  | String a rest =>
      if Ascii.eqb a c then S (count_char c rest) else count_char c rest
  end.

(** The number of lines of [text]. *)
Definition line_count (text : string) : nat :=
  S (count_char (ascii_of_nat 10) text).



(** Every byte of [text] is below 128. *)
Fixpoint is_ascii_text (text : string) : bool :=
  match text with
  | EmptyString => true
  | String a rest => (nat_of_ascii a <? 128)%nat && is_ascii_text rest
  end.

(** The table rows of the entities whose name is escaped. *)
Definition card_row `{JsRuntime} (card : TrelloCard.t) : string :=
  "| " ++ escapeMarkdown (TrelloCard.name card) ++ " | `" ++ TrelloCard.id card
  ++ "` | "
  ++ match TrelloCard.due card with
     | Some d => if d =? "" then "-" else toLocaleDateString d
     | None => "-"
     end
  ++ (if TrelloCard.dueComplete card then " (Done)" else "")
  ++ " | " ++ (if TrelloCard.closed card then "Archived" else "Active")
  ++ " | " ++ TrelloCard.shortUrl card ++ " |".

Definition label_row (label : TrelloLabel.t) : string :=
  "| "
  ++ escapeMarkdown (if TrelloLabel.name label =? "" then "(no name)"
                     else TrelloLabel.name label)
  ++ " | `" ++ TrelloLabel.id label ++ "` | "
  ++ match TrelloLabel.color label with
     | Some c => if c =? "" then "none" else c
     | None => "none"
     end
  ++ " |".

Definition member_row (member : TrelloMember.t) : string :=
  "| " ++ escapeMarkdown (TrelloMember.fullName member) ++ " | @"
  ++ TrelloMember.username member ++ " | `" ++ TrelloMember.id member ++ "` |".

Definition organization_row (org : TrelloOrganization.t) : string :=
  "| " ++ escapeMarkdown (TrelloOrganization.displayName org) ++ " | `"
  ++ TrelloOrganization.id org ++ "` | " ++ TrelloOrganization.url org ++ " |".


(** [value === null] *)
Definition is_null `{JsNumber} (value : json) : bool :=
  match value with
  | JNull => true
  | _ => false
  end.

(** The object [record] without the properties that hold [null]. *)
Definition without_nulls `{JsNumber} (record : JsObject json) : JsObject json :=
  filter (fun member => negb (is_null (snd member))) record.

(** The lines that an entry of an object is rendered to. *)
Definition entry_lines `{JsNumber} (JSON_stringify_pretty : json -> string)
  (entry : string * json) : list string :=
  match snd entry with
  | JNull => []
  | JArray _ | JObject _ =>
      [ "**" ++ formatKey (fst entry) ++ ":**"; "```json";
        JSON_stringify_pretty (snd entry); "```" ]
  | value => [ "**" ++ formatKey (fst entry) ++ ":** " ++ template_json value ]
  end.



(** [entityType] ends with the letter [s]. *)
Fixpoint ends_in_s (entityType : string) : bool :=
  match entityType with
  | EmptyString => false
  | String a EmptyString => Ascii.eqb a "s"
  | String _ rest => ends_in_s rest
  end.

(** The line breaks in the names of [boards]. *)
Definition name_line_breaks (boards : list TrelloBoard.t) : nat :=
  list_sum
    (map (fun board => count_char (ascii_of_nat 10) (TrelloBoard.name board))
       boards).

(** [field] holds no line break. *)
Definition line_free (field : string) : Prop :=
  has_char (ascii_of_nat 10) field = false.



(* ----------------------------------------------------------------- *)
(** *** Further inputs to evaluate the embedding with *)

Definition server_error : Response :=
  {| status := 500; response_headers := []; response_text := "boom" |}.

(** A successful answer whose body is the empty object. *)
Definition empty_object_answer : Response :=
  {| status := 200; response_headers := []; response_text := "{}" |}.

(** An upstream that cannot be reached. *)
Definition unreachable : FetchCall -> FetchOutcome :=
  fun _ => Rejected (JsThrown "fetch failed").

(** Parameters of which one is a string that is not empty. *)
Definition mixed_params : JsObject ParamValue :=
  [ ("name", PString "n"); ("desc", PString ""); ("pos", PNull);
    ("due", PUndefined) ].

(** A list that is opened again. *)
Definition reopened_list : @TrelloListUpdateInput.t integer_numbers :=
  {| TrelloListUpdateInput.name := None;
     TrelloListUpdateInput.closed := Some false;
     TrelloListUpdateInput.idBoard := None;
     TrelloListUpdateInput.pos := None;
     TrelloListUpdateInput.subscribed := None |}.

(** A label whose colour is removed. *)
Definition uncoloured_label : TrelloLabelUpdateInput.t :=
  {| TrelloLabelUpdateInput.name := None;
     TrelloLabelUpdateInput.color := Some None |}.

(** A card created with two members and no label. *)
Definition assigned_card : @TrelloCardCreateInput.t integer_numbers :=
  {| TrelloCardCreateInput.idList := "l1";
     TrelloCardCreateInput.name := "Buy milk";
     TrelloCardCreateInput.desc := None;
     TrelloCardCreateInput.pos := None;
     TrelloCardCreateInput.due := None;
     TrelloCardCreateInput.start := None;
     TrelloCardCreateInput.dueComplete := None;
     TrelloCardCreateInput.idMembers := Some ["m1"; "m2"];
     TrelloCardCreateInput.idLabels := Some [];
     TrelloCardCreateInput.urlSource := None;
     TrelloCardCreateInput.fileSource := None;
     TrelloCardCreateInput.mimeType := None;
     TrelloCardCreateInput.idCardSource := None;
     TrelloCardCreateInput.keepFromSource := None;
     TrelloCardCreateInput.address := None;
     TrelloCardCreateInput.locationName := None;
     TrelloCardCreateInput.coordinates := None |}.

(** The credential headers as a client that writes them in lower case
    sends them. *)
Definition lower_case_headers : list (string * string) :=
  [ ("x-trello-api-key", "k"); ("x-trello-token", "t") ].


(** A request to the MCP endpoint without credentials. *)
Definition anonymous_post : WorkerRequest :=
  {| url_pathname := "/mcp"; request_method := "POST";
     request_headers := [] |}.

(** A member whose name holds a line break. *)
Definition two_line_member : TrelloMember.t :=
  {| TrelloMember.id := "m1"; TrelloMember.username := "ann";
     TrelloMember.fullName := "Ann" ++ LF ++ "Lee" |}.

(** A stand-in for [JSON.stringify(value, null, 2)], and [slice(0, 50)]
    on a text of ASCII. *)
Definition no_pretty_printer : @json integer_numbers -> string :=
  fun _ => "{}".

Definition ascii_slice_0_50 : string -> string :=
  fun s => substring 0 50 s.

(** A stand-in for the text of a built-in function. *)
Definition native_function (name : string) : string :=
  "function " ++ name ++ "() { [native code] }".

(** A board whose name holds the end of a row and the start of another. *)
Definition forged_board : TrelloBoard.t :=
  {| TrelloBoard.id := "b2";
     TrelloBoard.name :=
       "Roadmap | `b1` | Open | https://trello.com/b/r |" ++ LF ++ "| Archive";
     TrelloBoard.closed := true;
     TrelloBoard.shortUrl := "https://trello.com/b/a" |}.

(* ================================================================= *)
(** ** Auxiliary facts *)

(** *** [parseInt] reads back the decimal numerals *)











(** *** Running the client monad *)

Create HintDb client_methods.

#[global] Hint Unfold
  getMe getMember getMemberBoards getMemberCards getMemberOrganizations
  listBoards getBoard createBoard updateBoard deleteBoard getBoardMembers
  getBoardLists getBoardCards getBoardLabels getBoardActions
  getBoardChecklists getBoardCustomFields addMemberToBoard
  removeMemberFromBoard getList createList updateList archiveList
  unarchiveList getListCards archiveAllCardsInList moveAllCardsInList
  getCard createCard updateCard deleteCard archiveCard unarchiveCard moveCard
  getCardActions getCardAttachments addAttachmentToCard deleteAttachment
  getCardChecklists addCommentToCard getCardComments updateComment
  deleteComment addLabelToCard removeLabelFromCard addMemberToCard
  removeMemberFromCard getCardCustomFieldItems setCardCustomFieldValue
  getLabel createLabel updateLabel deleteLabel getChecklist createChecklist
  updateChecklist deleteChecklist getCheckItems createCheckItem
  updateCheckItem deleteCheckItem getCustomField createCustomField
  updateCustomField deleteCustomField getCustomFieldOptions
  addCustomFieldOption deleteCustomFieldOption getOrganization
  createOrganization updateOrganization deleteOrganization
  getOrganizationMembers getOrganizationBoards getAction search
  searchMembers getWebhook getWebhooks createWebhook updateWebhook
  deleteWebhook : client_methods.

Section ClientRuns.

Context `{JsRuntime}.
Variable credentials : TenantCredentials.
Variable fetch : FetchCall -> FetchOutcome.

Lemma sent_handle_response (r : Response) :
  sent (handle_response r) = [].
Proof.
  unfold handle_response.
  repeat match goal with
         | |- context [if ?c then _ else _] => destruct c
         end; try reflexivity.
  cbn. destruct (JSON_parse (response_text r)); reflexivity.
Qed.

(** A [request] makes one call, and its outcome is decided by the answer
    to that call. *)
Lemma request_run endpoint options extraParams :
  request credentials fetch endpoint options extraParams =
  ([fetch_call credentials endpoint options extraParams],
   match fetch (fetch_call credentials endpoint options extraParams) with
   | Responded r => outcome (handle_response r)
   | Rejected e => Throw e
   end).
Proof.
  unfold request, await_fetch, bind.
  destruct (fetch _) as [r|e]; [|reflexivity].
  pose proof (sent_handle_response r) as Hsent.
  destruct (handle_response r) as [calls res].
  cbn in Hsent |- *. now subst calls.
Qed.

Lemma request_void_run endpoint options extraParams :
  request_void credentials fetch endpoint options extraParams =
  ([fetch_call credentials endpoint options extraParams],
   match fetch (fetch_call credentials endpoint options extraParams) with
   | Responded r =>
       match outcome (handle_response r) with
       | Ok _ => Ok tt
       | Throw e => Throw e
       end
   | Rejected e => Throw e
   end).
Proof.
  unfold request_void. rewrite request_run. unfold bind.
  destruct (fetch _) as [r|e]; [|reflexivity].
  destruct (outcome (handle_response r)); reflexivity.
Qed.

Lemma data_run (m : Client (option json)) :
  data m = (sent m, match outcome m with
                    | Ok v => Ok (Data v)
                    | Throw e => Throw e
                    end).
Proof.
  destruct m as [calls [v|e]]; cbn; [now rewrite app_nil_r | reflexivity].
Qed.

Lemma void_run (m : Client unit) :
  void m = (sent m, match outcome m with
                    | Ok _ => Ok Void
                    | Throw e => Throw e
                    end).
Proof.
  destruct m as [calls [v|e]]; cbn; [now rewrite app_nil_r | reflexivity].
Qed.

Lemma testConnection_sent :
  sent (testConnection credentials fetch) =
  [fetch_call credentials "/members/me" no_options None].
Proof.
  unfold testConnection, getMe. rewrite request_run.
  unfold try_catch, bind.
  destruct (fetch _) as [r|e]; [|reflexivity].
  destruct (outcome (handle_response r)) as [member|e]; [|reflexivity].
  cbn.
  destruct (js_get member "fullName"); [|reflexivity].
  destruct (js_get member "username"); reflexivity.
Qed.

Lemma testConnection_catches (e : JsError) :
  outcome (getMe credentials fetch) = Throw e ->
  outcome (testConnection credentials fetch) =
  Ok {| connected := false; message := error_message e |}.
Proof.
  unfold testConnection, try_catch.
  destruct (getMe credentials fetch) as [calls [v|e']]; cbn;
    [discriminate|].
  now intros [= ->].
Qed.

(** Every method but [testConnection] is one [request]. *)
Lemma methods_are_single_requests (op : Operation) :
  op <> TestConnection -> single_request credentials fetch op.
Proof.
  intro Hop. unfold single_request.
  destruct op; try congruence; clear Hop; cbn [invoke];
    autounfold with client_methods;
    do 3 eexists;
    rewrite ?data_run, ?void_run, ?request_void_run, ?request_run;
    cbn [sent outcome fst snd];
    (split; [reflexivity|]);
    intros e; destruct (fetch _) as [r|e'];
      try (destruct (outcome (handle_response r)));
      congruence.
Qed.

End ClientRuns.

Section ErrorClassification.

Context `{JsRuntime}.
Variable credentials : TenantCredentials.
Variable fetch : FetchCall -> FetchOutcome.

Lemma handle_unauthorized (r : Response) :
  status r = 401%Z ->
  outcome (handle_response r) =
  Throw (AuthenticationError "Invalid API key or token").
Proof.
  intro Hstatus. unfold handle_response. now rewrite Hstatus.
Qed.


Lemma invoke_testConnection_sent :
  sent (invoke credentials fetch TestConnection) =
  [fetch_call credentials "/members/me" no_options None].
Proof.
  cbn [invoke]. rewrite <- (testConnection_sent credentials fetch).
  destruct (testConnection credentials fetch) as [calls [s|e]]; cbn;
    [now rewrite app_nil_r | reflexivity].
Qed.

Lemma invoke_testConnection_catches (e : JsError) :
  outcome (getMe credentials fetch) = Throw e ->
  outcome (invoke credentials fetch TestConnection) =
  Ok (Status {| connected := false; message := error_message e |}).
Proof.
  intro Hthrow. apply testConnection_catches in Hthrow.
  cbn [invoke].
  destruct (testConnection credentials fetch) as [calls [s|e']];
    cbn in Hthrow |- *; congruence.
Qed.

Lemma invoke_throws (op : Operation) (r : Response) (e : JsError) :
  op <> TestConnection ->
  (forall call, In call (sent (invoke credentials fetch op)) ->
                fetch call = Responded r) ->
  outcome (handle_response r) = Throw e ->
  outcome (invoke credentials fetch op) = Throw e.
Proof.
  intros Hop Hfetch Hthrow.
  destruct (methods_are_single_requests credentials fetch op Hop)
    as (endpoint & options & extraParams & Hsent & Hpropagates).
  apply Hpropagates. rewrite request_run. cbn [outcome snd].
  rewrite Hfetch; [assumption|].
  rewrite Hsent. now left.
Qed.

Lemma testConnection_reports (r : Response) (e : JsError) :
  (forall call, In call (sent (invoke credentials fetch TestConnection)) ->
                fetch call = Responded r) ->
  outcome (handle_response r) = Throw e ->
  outcome (invoke credentials fetch TestConnection) =
  Ok (Status {| connected := false; message := error_message e |}).
Proof.
  intros Hfetch Hthrow. apply invoke_testConnection_catches.
  unfold getMe. rewrite request_run. cbn [outcome snd].
  rewrite Hfetch; [assumption|].
  rewrite invoke_testConnection_sent. now left.
Qed.

(** C3 (amended). When the upstream answers the call of an operation with
    status 401, every operation but [testConnection] throws the
    [AuthenticationError] built by [request], unchanged;
    [testConnection] catches it and resolves to a status that is not
    connected and carries the message of the error. *)
Theorem unauthorized_classification (op : Operation) (r : Response) :
  (forall call, In call (sent (invoke credentials fetch op)) ->
                fetch call = Responded r) ->
  status r = 401%Z ->
  match op with
  | TestConnection =>
      outcome (invoke credentials fetch op) =
      Ok (Status {| connected := false;
                    message := "Invalid API key or token" |})
  | _ =>
      outcome (invoke credentials fetch op) =
      Throw (AuthenticationError "Invalid API key or token")
  end.
Proof.
  intros Hfetch Hstatus.
  pose proof (handle_unauthorized r Hstatus) as Hthrow.
  destruct op;
    try (apply invoke_throws with (r := r); [discriminate | assumption ..]).
  exact (testConnection_reports r _ Hfetch Hthrow).
Qed.


End ErrorClassification.

(** *** Parameter objects and query parameters *)

Lemma usp_set_In (name value : string) (params : URLSearchParams) k v :
  In (k, v) (usp_set name value params) ->
  (k = name /\ v = value) \/ In (k, v) params.
Proof.
  induction params as [|[n x] rest IH]; cbn.
  - intros [[= <- <-]|[]]. now left.
  - destruct (n =? name) eqn:Hname.
    + intros [[= <- <-]|Hin]; [now left|].
      apply filter_In in Hin. right. right. apply Hin.
    + intros [Hin|Hin]; [right; now left|].
      destruct (IH Hin) as [Heq|Hrest]; [now left|right; now right].
Qed.

Lemma obj_set_keys {V : Type} (key : string) (value : V) (obj : JsObject V) k :
  In k (obj_keys (obj_set key value obj)) -> k = key \/ In k (obj_keys obj).
Proof.
  unfold obj_keys.
  induction obj as [|[n x] rest IH]; cbn.
  - intros [<-|[]]. now left.
  - destruct (n =? key) eqn:Hkey; cbn.
    + intros [<-|Hin]; right; [now left|now right].
    + intros [<-|Hin]; [right; now left|].
      destruct (IH Hin) as [->|Hrest]; [now left|right; now right].
Qed.

Lemma set_if_keys {V : Type} (cond : bool) key (value : V) obj k :
  In k (obj_keys (set_if cond key value obj)) ->
  (cond = true /\ k = key) \/ In k (obj_keys obj).
Proof.
  destruct cond; cbn; [|now right].
  intro Hin. apply obj_set_keys in Hin. intuition.
Qed.

Lemma set_truthy_keys key (v : option string) obj k :
  In k (obj_keys (set_truthy key v obj)) ->
  (is_supplied v = true /\ k = key) \/ In k (obj_keys obj).
Proof.
  destruct v as [s|]; cbn; [|now right].
  intro Hin. apply set_if_keys in Hin. intuition.
Qed.

Lemma set_defined_keys {T : Type} key (v : option T) show obj k :
  In k (obj_keys (set_defined key v show obj)) ->
  (is_supplied v = true /\ k = key) \/ In k (obj_keys obj).
Proof.
  destruct v as [x|]; cbn; [|now right].
  intro Hin. apply obj_set_keys in Hin. intuition.
Qed.

Lemma set_nonempty_keys key (v : option (list string)) obj k :
  In k (obj_keys (set_nonempty key v obj)) ->
  (is_supplied v = true /\ k = key) \/ In k (obj_keys obj).
Proof.
  destruct v as [items|]; cbn; [|now right].
  intro Hin. apply set_if_keys in Hin. intuition.
Qed.

Section QueryParameters.

Context `{JsRuntime}.
Variable credentials : TenantCredentials.
Variable fetch : FetchCall -> FetchOutcome.

Lemma add_extra_In (extra : JsObject ParamValue) :
  forall (params : URLSearchParams) k v,
    In (k, v) (fold_left (add_extra) extra params) ->
    In (k, v) params \/ (v <> "" /\ In (k, PString v) extra).
Proof.
  induction extra as [|[n x] rest IH]; intros params k v; cbn [fold_left].
  - now left.
  - intro Hin. destruct (IH _ _ _ Hin) as [Hparams|[Hne Hrest]].
    + destruct x as [| |s]; cbn in Hparams; try (now left).
      destruct (s =? "") eqn:Hs; cbn in Hparams; [now left|].
      apply usp_set_In in Hparams.
      destruct Hparams as [[-> ->]|Hparams]; [|now left].
      right. split; [now apply String.eqb_neq|now left].
    + right. split; [assumption|now right].
Qed.

Lemma build_params_In extraParams k v :
  In (k, v) (build_params credentials extraParams) ->
  k <> "key" -> k <> "token" ->
  v <> "" /\ exists extra, extraParams = Some extra /\ In (k, PString v) extra.
Proof.
  unfold build_params, getAuthParams.
  intros Hin Hkey Htoken.
  destruct extraParams as [extra|].
  - apply add_extra_In in Hin.
    destruct Hin as [[[= <- _]|[[= <- _]|[]]]|[Hne Hin]]; try congruence.
    split; [assumption|]. now exists extra.
  - destruct Hin as [[= <- _]|[[= <- _]|[]]]; congruence.
Qed.

Lemma build_params_names extraParams k :
  In k (map fst (build_params credentials extraParams)) ->
  k = "key" \/ k = "token"
  \/ exists extra, extraParams = Some extra /\ In k (obj_keys extra).
Proof.
  intro Hin. apply in_map_iff in Hin. destruct Hin as ([k' v] & Hk & Hin).
  cbn in Hk. subst k'.
  destruct (string_dec k "key") as [|Hkey]; [now left|].
  destruct (string_dec k "token") as [|Htoken]; [right; now left|].
  destruct (build_params_In _ _ _ Hin Hkey Htoken)
    as (_ & extra & -> & Hextra).
  right. right. exists extra. split; [reflexivity|].
  unfold obj_keys. apply in_map_iff. now exists (k, PString v).
Qed.

Lemma invoke_sends_one_call (op : Operation) :
  exists endpoint options extraParams,
    sent (invoke credentials fetch op) =
    [fetch_call credentials endpoint options extraParams].
Proof.
  assert (Hcases : op = TestConnection \/ op <> TestConnection)
    by (destruct op; (now left) || (right; discriminate)).
  destruct Hcases as [->|Hop].
  - rewrite invoke_testConnection_sent. now do 3 eexists.
  - destruct (methods_are_single_requests credentials fetch op Hop)
      as (e & o & x & Hone & _).
    now exists e, o, x.
Qed.

(** C10. The call [request] hands to [fetch] carries, besides [key] and
    [token], only parameters that [extraParams] holds with a string that
    is not empty: an entry that is [undefined], [null] or the empty
    string adds no parameter, and this holds for the call of every
    operation. *)
Theorem request_query_invariant endpoint options extraParams :
  let call := fetch_call credentials endpoint options extraParams in
  sent (request credentials fetch endpoint options extraParams) = [call]
  /\ (forall k v,
        In (k, v) (call_params call) -> k <> "key" -> k <> "token" ->
        v <> ""
        /\ exists extra,
             extraParams = Some extra /\ In (k, PString v) extra)
  /\ (forall k,
        k <> "key" -> k <> "token" ->
        (forall extra v,
           extraParams = Some extra -> In (k, v) extra ->
           v = PUndefined \/ v = PNull \/ v = PString "") ->
        ~ In k (param_names call))
  /\ (forall op call' k v,
        In call' (sent (invoke credentials fetch op)) ->
        In (k, v) (call_params call') -> k <> "key" -> k <> "token" ->
        v <> "").
Proof.
  intro call. split; [now rewrite request_run|].
  split; [intros k v; apply build_params_In|].
  split.
  - intros k Hkey Htoken Hexcluded Hin.
    apply in_map_iff in Hin. destruct Hin as ([k' v] & Hk & Hin).
    cbn in Hk. subst k'.
    destruct (build_params_In _ _ _ Hin Hkey Htoken)
      as (Hne & extra & Hextra & Hentry).
    destruct (Hexcluded _ _ Hextra Hentry) as [|[|]]; congruence.
  - intros op call' k v Hsent Hin Hkey Htoken.
    destruct (invoke_sends_one_call op) as (e & o & x & Hone).
    rewrite Hone in Hsent. destruct Hsent as [<-|[]].
    now apply (build_params_In _ _ _ Hin).
Qed.

End QueryParameters.

Lemma set_truthy_number_keys `{JsNumber} key (v : option number) obj k :
  In k (obj_keys (set_truthy_number key v obj)) ->
  (is_supplied v = true /\ k = key) \/ In k (obj_keys obj).
Proof.
  destruct v as [n|]; cbn; [|now right].
  intro Hin. apply set_if_keys in Hin. intuition.
Qed.

(** Going down the assignments that fill a [params] object, in search of
    the one that set the property [Hin] is about. *)
Ltac trace_assignment Hin :=
  repeat first
    [ apply set_truthy_keys in Hin; destruct Hin as [[? ?]|Hin]; [congruence|]
    | apply set_defined_keys in Hin; destruct Hin as [[? ?]|Hin]; [congruence|]
    | apply set_nonempty_keys in Hin; destruct Hin as [[? ?]|Hin]; [congruence|]
    | apply set_truthy_number_keys in Hin;
      destruct Hin as [[? ?]|Hin]; [congruence|] ];
  cbn in Hin; intuition congruence.

Lemma obj_set_In {V : Type} (key : string) (value : V) (obj : JsObject V) k x :
  In (k, x) (obj_set key value obj) ->
  (k = key /\ x = value) \/ In (k, x) obj.
Proof.
  induction obj as [|[n y] rest IH]; cbn.
  - intros [[= <- <-]|[]]. now left.
  - destruct (n =? key) eqn:Hkey; cbn.
    + apply String.eqb_eq in Hkey. subst n.
      intros [[= <- <-]|Hin]; [now left|right; now right].
    + intros [Hin|Hin]; [right; now left|].
      destruct (IH Hin) as [Heq|Hrest]; [now left|right; now right].
Qed.

Lemma set_if_In {V : Type} (cond : bool) key (value : V) obj k x :
  In (k, x) (set_if cond key value obj) ->
  (k = key /\ x = value) \/ In (k, x) obj.
Proof.
  destruct cond; cbn; [apply obj_set_In|now right].
Qed.

Lemma set_truthy_In key (v : option string) obj k x :
  In (k, x) (set_truthy key v obj) ->
  (k = key /\ exists s, v = Some s /\ x = PString s) \/ In (k, x) obj.
Proof.
  destruct v as [s|]; cbn; [|now right].
  intro Hin. apply set_if_In in Hin.
  destruct Hin as [[-> ->]|Hin]; [left|now right].
  split; [reflexivity|now exists s].
Qed.

Lemma set_defined_In {T : Type} key (v : option T) show obj k x :
  In (k, x) (set_defined key v show obj) ->
  (k = key /\ exists y, v = Some y /\ x = PString (show y)) \/ In (k, x) obj.
Proof.
  destruct v as [y|]; cbn; [|now right].
  intro Hin. apply obj_set_In in Hin.
  destruct Hin as [[-> ->]|Hin]; [left|now right].
  split; [reflexivity|now exists y].
Qed.

(** Going down the assignments that fill a [params] object, in search of
    the one that gave the property of [Hin] its value. *)
Ltac trace_value Hin :=
  repeat first
    [ apply set_truthy_In in Hin;
      destruct Hin as [[? (? & ? & ?)]|Hin]; [try discriminate|]
    | apply set_defined_In in Hin;
      destruct Hin as [[? (? & ? & ?)]|Hin]; [try discriminate|] ].

(** The assignment found gave the empty string, for a field that is
    [null]: it cannot be the value of a parameter that was sent. *)
Ltac clear_value Hnull Hne :=
  match goal with
  | Hsome : _ = Some ?x, Hvalue : PString _ = PString (null_to_empty ?x) |- _ =>
      rewrite Hnull in Hsome; injection Hsome as <-;
      injection Hvalue as ->; now apply Hne
  end.

Section Parameters.

Context `{JsRuntime}.
Variable credentials : TenantCredentials.
Variable fetch : FetchCall -> FetchOutcome.

Lemma handle_success (r : Response) (parsed : json) :
  ok r = true ->
  response_text r <> "" ->
  JSON_parse (response_text r) = Ok parsed ->
  outcome (handle_response r) = Ok (Some parsed).
Proof.
  intros Hok Htext Hparse. unfold handle_response.
  unfold ok in Hok. apply andb_true_iff in Hok. destruct Hok as [Hlo Hhi].
  apply Z.leb_le in Hlo, Hhi.
  replace (status r =? 429)%Z with false by (symmetry; apply Z.eqb_neq; lia).
  replace (status r =? 401)%Z with false by (symmetry; apply Z.eqb_neq; lia).
  unfold ok. rewrite (proj2 (Z.leb_le _ _) Hlo), (proj2 (Z.leb_le _ _) Hhi).
  cbn [andb negb]. unfold truthy_string.
  apply String.eqb_neq in Htext. rewrite Htext. cbn [negb].
  rewrite Hparse. reflexivity.
Qed.

(** C7. A list-style read operation called without a filter sends
    [filter=open], and called with ['all'] sends [filter=all]; the
    entities of a successful answer are returned as [JSON.parse] gives
    them, none excluded. *)
Theorem status_filter_default_and_all (op : Operation) (endpoint : string)
  (filter : option string) :
  status_filtered op = Some (endpoint, filter) ->
  (filter = None ->
   sent (invoke credentials fetch op) =
   [filter_call credentials endpoint "open"])
  /\ (filter = Some "all" ->
      sent (invoke credentials fetch op) =
      [filter_call credentials endpoint "all"])
  /\ (forall r parsed,
        filter = None \/ filter = Some "all" ->
        fetch (filter_call credentials endpoint (default_to "open" filter))
          = Responded r ->
        ok r = true ->
        response_text r <> "" ->
        JSON_parse (response_text r) = Ok parsed ->
        outcome (invoke credentials fetch op) = Ok (Data (Some parsed))).
Proof.
  intro Hop.
  destruct op; try discriminate Hop; injection Hop as <- <-;
    cbn [invoke]; autounfold with client_methods;
    rewrite data_run, request_run; cbn [sent outcome fst snd];
    (split; [now intros -> | split; [now intros -> |]]);
    intros r parsed [-> | ->] Hfetch Hok Htext Hparse;
    unfold filter_call in Hfetch; unfold fetch_call;
    cbn in Hfetch |- *; rewrite Hfetch;
    now rewrite (handle_success r parsed Hok Htext Hparse).
Qed.

(** C5. Archiving and unarchiving a list or a card is the update that
    sets [closed]; moving a card is the update whose input holds the
    list and, when given, the board, and nothing else, so that its
    request carries no other parameter. *)
Theorem derived_operations_are_updates :
  (forall listId,
      archiveList credentials fetch listId =
      updateList credentials fetch listId
        {| TrelloListUpdateInput.name := None;
           TrelloListUpdateInput.closed := Some true;
           TrelloListUpdateInput.idBoard := None;
           TrelloListUpdateInput.pos := None;
           TrelloListUpdateInput.subscribed := None |})
  /\ (forall listId,
      unarchiveList credentials fetch listId =
      updateList credentials fetch listId
        {| TrelloListUpdateInput.name := None;
           TrelloListUpdateInput.closed := Some false;
           TrelloListUpdateInput.idBoard := None;
           TrelloListUpdateInput.pos := None;
           TrelloListUpdateInput.subscribed := None |})
  /\ (forall cardId,
      archiveCard credentials fetch cardId =
      updateCard credentials fetch cardId
        {| TrelloCardUpdateInput.name := None;
           TrelloCardUpdateInput.desc := None;
           TrelloCardUpdateInput.closed := Some true;
           TrelloCardUpdateInput.idList := None;
           TrelloCardUpdateInput.idBoard := None;
           TrelloCardUpdateInput.pos := None;
           TrelloCardUpdateInput.due := None;
           TrelloCardUpdateInput.start := None;
           TrelloCardUpdateInput.dueComplete := None;
           TrelloCardUpdateInput.subscribed := None;
           TrelloCardUpdateInput.idMembers := None;
           TrelloCardUpdateInput.idLabels := None;
           TrelloCardUpdateInput.cover := None |})
  /\ (forall cardId,
      unarchiveCard credentials fetch cardId =
      updateCard credentials fetch cardId
        {| TrelloCardUpdateInput.name := None;
           TrelloCardUpdateInput.desc := None;
           TrelloCardUpdateInput.closed := Some false;
           TrelloCardUpdateInput.idList := None;
           TrelloCardUpdateInput.idBoard := None;
           TrelloCardUpdateInput.pos := None;
           TrelloCardUpdateInput.due := None;
           TrelloCardUpdateInput.start := None;
           TrelloCardUpdateInput.dueComplete := None;
           TrelloCardUpdateInput.subscribed := None;
           TrelloCardUpdateInput.idMembers := None;
           TrelloCardUpdateInput.idLabels := None;
           TrelloCardUpdateInput.cover := None |})
  /\ (forall cardId idList idBoard,
      moveCard credentials fetch cardId idList idBoard =
      updateCard credentials fetch cardId
        {| TrelloCardUpdateInput.name := None;
           TrelloCardUpdateInput.desc := None;
           TrelloCardUpdateInput.closed := None;
           TrelloCardUpdateInput.idList := Some idList;
           TrelloCardUpdateInput.idBoard := idBoard;
           TrelloCardUpdateInput.pos := None;
           TrelloCardUpdateInput.due := None;
           TrelloCardUpdateInput.start := None;
           TrelloCardUpdateInput.dueComplete := None;
           TrelloCardUpdateInput.subscribed := None;
           TrelloCardUpdateInput.idMembers := None;
           TrelloCardUpdateInput.idLabels := None;
           TrelloCardUpdateInput.cover := None |})
  /\ (forall cardId idList idBoard,
      sent (moveCard credentials fetch cardId idList idBoard) =
      [fetch_call credentials ("/cards/" ++ cardId) (with_method "PUT")
         (Some (set_truthy "idBoard" idBoard
                  (set_truthy "idList" (Some idList) [])))])
  /\ (forall listId closed,
      sent (updateList credentials fetch listId (list_closed_input closed)) =
      [put_call ("/lists/" ++ listId)
         [("key", apiKey credentials); ("token", token credentials);
          ("closed", String_boolean closed)]])
  /\ (forall cardId closed,
      sent (updateCard credentials fetch cardId
              (TrelloCardUpdateInput.set_closed closed
                 TrelloCardUpdateInput.empty)) =
      [put_call ("/cards/" ++ cardId)
         [("key", apiKey credentials); ("token", token credentials);
          ("closed", String_boolean closed)]]).
Proof.
  assert (Hfalsy : forall b, truthy_string b = false -> b = "")
    by (intros b Hb; apply negb_false_iff in Hb; now apply String.eqb_eq).
  repeat split; try reflexivity.
  - intros cardId idList [b|]; [|reflexivity].
    unfold moveCard. destruct (truthy_string b) eqn:Hb; [reflexivity|].
    now rewrite (Hfalsy b Hb).
  - intros cardId idList [b|]; unfold moveCard;
      [destruct (truthy_string b) eqn:Hb; [|rewrite (Hfalsy b Hb)]|];
      unfold updateCard; rewrite request_run; cbn [sent fst];
      reflexivity.
  - intros listId []; unfold updateList; now rewrite request_run.
  - intros cardId []; unfold updateCard; now rewrite request_run.
Qed.

(** A parameter of the call made for [extraParams] that is neither [key]
    nor [token] has the value, not empty, that [extraParams] gives it. *)
Lemma sent_parameter extra name :
  name <> "key" -> name <> "token" ->
  In name (map fst (build_params credentials (Some extra))) ->
  exists v, v <> "" /\ In (name, PString v) extra.
Proof.
  intros Hkey Htoken Hin.
  apply in_map_iff in Hin. destruct Hin as ([k v] & Hk & Hin).
  cbn in Hk. subst k.
  destruct (build_params_In credentials _ _ _ Hin Hkey Htoken)
    as (Hne & extra' & [= <-] & Hentry).
  now exists v.
Qed.

(** C1 (the code departs from it). An update whose nullable field is
    [null] sends a request without that field: whatever else the input
    holds, [updateCard] with [due: null] sends no [due], and
    [updateCheckItem] with [due: null] or [idMember: null] sends no [due]
    or no [idMember]; with nothing else in the input, the request carries
    the credentials only. *)
Theorem null_field_is_not_sent :
  (forall cardId input call,
      TrelloCardUpdateInput.due input = Some None ->
      In call (sent (updateCard credentials fetch cardId input)) ->
      ~ In "due" (param_names call))
  /\ (forall cardId checkItemId input call,
        In call (sent (updateCheckItem credentials fetch cardId checkItemId
                         input)) ->
        (TrelloCheckItemUpdateInput.due input = Some None ->
         ~ In "due" (param_names call))
        /\ (TrelloCheckItemUpdateInput.idMember input = Some None ->
            ~ In "idMember" (param_names call)))
  /\ (forall cardId,
        sent (updateCard credentials fetch cardId clear_due) =
        [put_call ("/cards/" ++ cardId)
           [("key", apiKey credentials); ("token", token credentials)]])
  /\ (forall cardId checkItemId,
        sent (updateCheckItem credentials fetch cardId checkItemId
                clear_due_and_member) =
        [put_call ("/cards/" ++ cardId ++ "/checkItem/" ++ checkItemId)
           [("key", apiKey credentials); ("token", token credentials)]]).
Proof.
  split; [|split; [|split]].
  - intros cardId input call Hnull Hcall Hsent.
    unfold updateCard in Hcall. rewrite request_run in Hcall.
    destruct Hcall as [<-|[]].
    apply sent_parameter in Hsent; try discriminate.
    destruct Hsent as (v & Hne & Hin).
    trace_value Hin; try contradiction.
    clear_value Hnull Hne.
  - intros cardId checkItemId input call Hcall.
    unfold updateCheckItem in Hcall. rewrite request_run in Hcall.
    destruct Hcall as [<-|[]].
    split; intros Hnull Hsent;
      (apply sent_parameter in Hsent; try discriminate);
      destruct Hsent as (v & Hne & Hin);
      trace_value Hin; try contradiction; clear_value Hnull Hne.
  - intro cardId. unfold updateCard. now rewrite request_run.
  - intros cardId checkItemId. unfold updateCheckItem.
    now rewrite request_run.
Qed.

End Parameters.

Section OmittedFields.

Context `{JsRuntime}.
Variable credentials : TenantCredentials.
Variable fetch : FetchCall -> FetchOutcome.

(** C6. A field that the caller of a create or update operation leaves
    out adds no parameter to the request: the parameter that would carry
    it is absent from the call.  In particular [createCard] without [due]
    sends no [due]. *)
Theorem omitted_fields_are_not_sent :
  (forall (op : Operation) (name wire : string) (call : FetchCall),
      In (name, wire, false) (declared_fields op) ->
      In call (sent (invoke credentials fetch op)) ->
      ~ In wire (param_names call))
  /\ (forall (input : TrelloCardCreateInput.t) (call : FetchCall),
        TrelloCardCreateInput.due input = None ->
        In call (sent (createCard credentials fetch input)) ->
        ~ In "due" (param_names call)).
Proof.
  assert (Hgeneral :
    forall (op : Operation) (name wire : string) (call : FetchCall),
      In (name, wire, false) (declared_fields op) ->
      In call (sent (invoke credentials fetch op)) ->
      ~ In wire (param_names call)).
  { intros op name wire call Hfield Hcall Hsent.
    destruct op; cbn [declared_fields] in Hfield; try contradiction;
      cbn [invoke] in Hcall; autounfold with client_methods in Hcall;
      rewrite data_run, request_run in Hcall; cbn [sent fst] in Hcall;
      destruct Hcall as [<-|[]];
      unfold param_names, fetch_call in Hsent; cbn [call_params] in Hsent;
      apply build_params_names in Hsent;
      unfold field, required in Hfield; cbn [In] in Hfield;
      repeat (destruct Hfield as [Hfield|Hfield]);
      try contradiction; try discriminate Hfield;
      injection Hfield as <- <- Hsupplied;
      (destruct Hsent as [Hsent|[Hsent|(extra & [= <-] & Hsent)]];
       [discriminate Hsent | discriminate Hsent |]);
      cbv zeta in Hsent; trace_assignment Hsent. }
  split; [exact Hgeneral|].
  intros input call Hdue Hcall.
  apply (Hgeneral (CreateCard input) "due" "due").
  - cbn [declared_fields]. unfold field at 3. rewrite Hdue.
    cbn [is_supplied In]. tauto.
  - cbn [invoke]. now rewrite data_run.
Qed.

End OmittedFields.

(* ================================================================= *)
(** ** Properties of the renderer *)

Lemma fold_left_push {A : Type} (render : A -> string) (items : list A) :
  forall lines,
    fold_left (fun lines item => push lines (render item)) items lines =
    (lines ++ map render items)%list.
Proof.
  induction items as [|item rest IH]; intro lines; cbn.
  - now rewrite app_nil_r.
  - rewrite IH. unfold push. now rewrite <- app_assoc.
Qed.

Lemma join_cons (sep first : string) (rest : list string) :
  rest <> [] ->
  join sep (first :: rest) = first ++ sep ++ join sep rest.
Proof.
  destruct rest; [congruence|reflexivity].
Qed.

Lemma string_app_assoc (a b c : string) : (a ++ b) ++ c = a ++ b ++ c.
Proof.
  induction a as [|x a IH]; cbn; [reflexivity|now rewrite IH].
Qed.

(** Joining lines of which the last is itself a join of lines. *)
Lemma join_nested (sep : string) (lines table : list string) :
  table <> [] ->
  join sep (push lines (join sep table)) = join sep (lines ++ table)%list.
Proof.
  intro Htable. unfold push.
  induction lines as [|line rest IH]; cbn [app].
  - reflexivity.
  - rewrite <- !app_comm_cons. rewrite !join_cons.
    + now rewrite IH.
    + destruct rest; [now destruct table|discriminate].
    + destruct rest; discriminate.
Qed.

Lemma completed_count_filter (items : list TrelloCheckItem.t) :
  length (filter (fun item => TrelloCheckItem.state item =? "complete") items)
  = completed_count items.
Proof.
  induction items as [|item rest IH]; cbn; [reflexivity|].
  destruct (TrelloCheckItem.state item =? "complete"); cbn; now rewrite IH.
Qed.

Lemma formatBoardsTable_rows (boards : list TrelloBoard.t) :
  formatBoardsTable boards =
  join LF (["| Name | ID | Status | URL |"; "|---|---|---|---|"]
           ++ map board_row boards)%list.
Proof.
  unfold formatBoardsTable. cbv zeta.
  now rewrite (fold_left_push board_row).
Qed.

Lemma formatChecklistsTable_blocks (checklists : list TrelloChecklist.t) :
  formatChecklistsTable checklists =
  join LF (flat_map checklist_block checklists).
Proof.
  unfold formatChecklistsTable. cbv zeta. f_equal.
  match goal with
  | |- fold_left ?step _ _ = _ =>
      enough (Hgen : forall lines,
                 fold_left step checklists lines =
                 (lines ++ flat_map checklist_block checklists)%list)
        by exact (Hgen [])
  end.
  induction checklists as [|checklist rest IH]; intro lines;
    cbn [fold_left flat_map].
  - now rewrite app_nil_r.
  - rewrite IH, app_assoc. f_equal.
    unfold checklist_block, checklist_heading. cbv zeta.
    rewrite completed_count_filter.
    rewrite (fold_left_push check_item_entry).
    destruct (TrelloChecklist.checkItems checklist) as [|item items];
      cbn [length Nat.ltb Nat.leb]; unfold push;
      rewrite <- ?app_assoc; reflexivity.
Qed.

Lemma includes_refl (text : string) : includes text text.
Proof.
  exists "", "". cbn. induction text as [|a text IH]; cbn; congruence.
Qed.

Lemma includes_app (before text after part : string) :
  includes text part -> includes (before ++ text ++ after) part.
Proof.
  intros (b & a & ->). exists (before ++ b), (a ++ after).
  now rewrite !string_app_assoc.
Qed.

Lemma includes_join (sep line : string) (lines : list string) :
  In line lines -> includes (join sep lines) line.
Proof.
  induction lines as [|first rest IH]; [contradiction|].
  intros [->|Hin].
  - destruct rest as [|second rest]; [apply includes_refl|].
    rewrite join_cons by discriminate.
    now exists "", (sep ++ join sep (second :: rest)).
  - destruct rest as [|second rest]; [contradiction|].
    rewrite join_cons by discriminate.
    specialize (IH Hin). destruct IH as (b & a & Heq). rewrite Heq.
    exists (first ++ sep ++ b), a. now rewrite !string_app_assoc.
Qed.

Lemma includes_trans (text middle part : string) :
  includes text middle -> includes middle part -> includes text part.
Proof.
  intros (b & a & ->) Hpart. now apply includes_app.
Qed.

Lemma has_char_app (c : ascii) (a b : string) :
  has_char c (a ++ b) = has_char c a || has_char c b.
Proof.
  induction a as [|x a IH]; cbn; [reflexivity|].
  now rewrite IH, orb_assoc.
Qed.

Lemma replaceAll_char_removes (c : ascii) (by_ text : string) :
  has_char c by_ = false ->
  has_char c (replaceAll_char c by_ text) = false.
Proof.
  intro Hby. induction text as [|a rest IH]; cbn; [reflexivity|].
  destruct (Ascii.eqb a c) eqn:Hac.
  - now rewrite has_char_app, Hby, IH.
  - cbn. now rewrite Hac, IH.
Qed.

(** What [escapeMarkdown] returns holds no line break, and each of its
    ["|"] follows a backslash. *)
Lemma escapeMarkdown_no_line_break (text : string) :
  has_char (ascii_of_nat 10) (escapeMarkdown text) = false.
Proof.
  unfold escapeMarkdown. now apply replaceAll_char_removes.
Qed.

Lemma escapeMarkdown_pipes_escaped (text : string) :
  forall escaped, pipes_escaped escaped (escapeMarkdown text) = true.
Proof.
  unfold escapeMarkdown.
  induction text as [|a rest IH]; intro escaped; [reflexivity|].
  cbn [replaceAll_char].
  destruct (Ascii.eqb a "|") eqn:Hpipe.
  - cbn. apply IH.
  - cbn [replaceAll_char].
    destruct (Ascii.eqb a (ascii_of_nat 10)) eqn:Hbreak.
    + cbn. apply IH.
    + cbn [pipes_escaped]. rewrite Hpipe. cbn. apply IH.
Qed.

Section RendererProperties.

Context `{JsRuntime}.
Variable formatGenericTable : EntityArray -> string.

(** The markdown rendering of a list of boards is, for the empty list,
    the heading and the message [_No items found._]; otherwise the
    heading, the count, the table header and the text of one row for each
    board, in the order of the input, which holds the name and the
    identifier of its board.  Whether that text is one line of the table
    depends on the name, which is inserted as it is. *)
Theorem boards_markdown_lists_every_board (boards : list TrelloBoard.t) :
  formatArrayAsMarkdown formatGenericTable (Boards boards) "boards" =
  Some (match boards with
        | [] => "## Boards" ++ LF ++ LF ++ "_No items found._"
        | _ =>
            join LF (["## Boards";
                      count_line (length boards);
                      "";
                      "| Name | ID | Status | URL |";
                      "|---|---|---|---|"]
                     ++ map board_row boards)%list
        end)
  /\ (forall board,
        includes (board_row board) (TrelloBoard.name board)
        /\ includes (board_row board) (TrelloBoard.id board))
  /\ (forall text board,
        formatArrayAsMarkdown formatGenericTable (Boards boards) "boards"
          = Some text ->
        In board boards ->
        includes text (TrelloBoard.name board)
        /\ includes text (TrelloBoard.id board)).
Proof.
  assert (Hrender :
    formatArrayAsMarkdown formatGenericTable (Boards boards) "boards" =
    Some (match boards with
          | [] => "## Boards" ++ LF ++ LF ++ "_No items found._"
          | _ =>
              join LF (["## Boards";
                        count_line (length boards);
                        "";
                        "| Name | ID | Status | URL |";
                        "|---|---|---|---|"]
                       ++ map board_row boards)%list
          end)).
  { unfold formatArrayAsMarkdown. cbn [data_length].
    destruct boards as [|board rest]; [reflexivity|].
    cbn [length Nat.eqb]. cbv zeta.
    change ("boards" =? "boards") with true. cbv iota.
    cbn [as_boards option_map]. f_equal.
    rewrite formatBoardsTable_rows, join_nested by discriminate.
    reflexivity. }
  assert (Hrow : forall board,
             includes (board_row board) (TrelloBoard.name board)
             /\ includes (board_row board) (TrelloBoard.id board)).
  { intro board. unfold board_row. split.
    - exists "| ". eexists. reflexivity.
    - exists ("| " ++ TrelloBoard.name board ++ " | `"). eexists.
      now rewrite !string_app_assoc. }
  split; [exact Hrender|]. split; [exact Hrow|].
  intros text board Htext Hin. rewrite Hrender in Htext.
  destruct boards as [|first rest]; [contradiction|].
  injection Htext as <-.
  assert (Hline : includes
            (join LF (["## Boards";
                       count_line (length (first :: rest));
                       "";
                       "| Name | ID | Status | URL |";
                       "|---|---|---|---|"]
                      ++ map board_row (first :: rest))%list)
            (board_row board)).
  { apply includes_join. apply in_or_app. right. now apply in_map. }
  split; eapply includes_trans; try exact Hline; apply Hrow.
Qed.

(** C9. The markdown rendering of checklists is the sequence of their
    blocks: a heading with the number of items whose state is [complete]
    over the number of items, the identifier, and one entry for each
    item, checked exactly when the state of the item is [complete]. *)
Theorem checklists_markdown_counts_and_boxes
  (checklists : list TrelloChecklist.t) :
  formatChecklistsTable checklists = join LF (flat_map checklist_block checklists)
  /\ (checklists <> [] ->
      formatArrayAsMarkdown formatGenericTable (Checklists checklists)
        "checklists" =
      Some (join LF (["## Checklists";
                      count_line (length checklists);
                      ""]
                     ++ flat_map checklist_block checklists)%list))
  /\ (forall checklist,
        checklist_heading checklist =
        "### " ++ escapeMarkdown (TrelloChecklist.name checklist) ++ " ("
        ++ String_nat (completed_count (TrelloChecklist.checkItems checklist))
        ++ "/"
        ++ String_nat (length (TrelloChecklist.checkItems checklist))
        ++ ")")
  /\ (forall item,
        (TrelloCheckItem.state item = "complete" ->
         check_item_entry item =
         "- [x] " ++ escapeMarkdown (TrelloCheckItem.name item))
        /\ (TrelloCheckItem.state item <> "complete" ->
            check_item_entry item =
            "- [ ] " ++ escapeMarkdown (TrelloCheckItem.name item))).
Proof.
  split; [apply formatChecklistsTable_blocks|].
  split; [|split; [reflexivity|]].
  - intro Hnonempty. unfold formatArrayAsMarkdown. cbn [data_length].
    destruct checklists as [|checklist rest]; [congruence|].
    cbn [length Nat.eqb]. cbv zeta.
    change ("checklists" =? "boards") with false.
    change ("checklists" =? "lists") with false.
    change ("checklists" =? "cards") with false.
    change ("checklists" =? "labels") with false.
    change ("checklists" =? "members") with false.
    change ("checklists" =? "checklists") with true.
    cbv iota. cbn [as_checklists option_map]. f_equal.
    rewrite formatChecklistsTable_blocks, join_nested; [reflexivity|].
    cbn [flat_map]. unfold checklist_block. discriminate.
  - intro item. unfold check_item_entry. split.
    + intros ->. reflexivity.
    + intro Hstate. apply String.eqb_neq in Hstate. now rewrite Hstate.
Qed.

(** C2 (the code departs from it). [formatBoardsTable] and
    [formatListsTable] insert the name as it is, for every board and every
    list: a board named [a|b] yields a row with a fifth cell, and a line
    break in the name of a list breaks its row, while [formatCardsTable]
    escapes the same name. *)
Theorem board_and_list_names_are_not_escaped (pos : number) :
  (forall board,
      formatBoardsTable [board] =
      "| Name | ID | Status | URL |" ++ LF ++ "|---|---|---|---|" ++ LF
      ++ "| " ++ TrelloBoard.name board ++ " | `" ++ TrelloBoard.id board
      ++ "` | " ++ (if TrelloBoard.closed board then "Closed" else "Open")
      ++ " | " ++ TrelloBoard.shortUrl board ++ " |")
  /\ (forall list,
        formatListsTable [list] =
        "| Name | ID | Status | Position |" ++ LF ++ "|---|---|---|---|" ++ LF
        ++ "| " ++ TrelloList.name list ++ " | `" ++ TrelloList.id list
        ++ "` | " ++ (if TrelloList.closed list then "Archived" else "Active")
        ++ " | " ++ String_number (TrelloList.pos list) ++ " |")
  /\ formatArrayAsMarkdown formatGenericTable
    (Boards [ {| TrelloBoard.id := "b1"; TrelloBoard.name := "a|b";
                 TrelloBoard.closed := false;
                 TrelloBoard.shortUrl := "https://trello.com/b/x" |} ])
    "boards" =
  Some ("## Boards" ++ LF ++ "**Count:** 1" ++ LF ++ LF
        ++ "| Name | ID | Status | URL |" ++ LF ++ "|---|---|---|---|" ++ LF
        ++ "| a|b | `b1` | Open | https://trello.com/b/x |")
  /\ formatArrayAsMarkdown formatGenericTable
       (Lists [ {| TrelloList.id := "l1";
                   TrelloList.name := "To" ++ LF ++ "do";
                   TrelloList.closed := false;
                   TrelloList.pos := pos |} ])
       "lists" =
     Some ("## Lists" ++ LF ++ "**Count:** 1" ++ LF ++ LF
           ++ "| Name | ID | Status | Position |" ++ LF
           ++ "|---|---|---|---|" ++ LF
           ++ "| To" ++ LF ++ "do | `l1` | Active | "
           ++ String_number pos ++ " |")
  /\ formatArrayAsMarkdown formatGenericTable
       (Cards [ {| TrelloCard.id := "c1"; TrelloCard.name := "a|b";
                   TrelloCard.closed := false; TrelloCard.due := None;
                   TrelloCard.dueComplete := false;
                   TrelloCard.shortUrl := "https://trello.com/c/y" |} ])
       "cards" =
     Some ("## Cards" ++ LF ++ "**Count:** 1" ++ LF ++ LF
           ++ "| Name | ID | Due | Status | URL |" ++ LF
           ++ "|---|---|---|---|---|" ++ LF
           ++ "| a\|b | `c1` | - | Active | https://trello.com/c/y |").
Proof.
  split; [|split].
  - intro board. reflexivity.
  - intro list. reflexivity.
  - repeat split; reflexivity.
Qed.

End RendererProperties.

(* ================================================================= *)
(** ** Further properties of the client *)

Section Transport.

Context `{JsRuntime}.
Variable credentials : TenantCredentials.

(** What [request] does with an answer that is neither 429 nor 401 nor a
    success. *)
Lemma handle_api_error (r : Response) :
  status r <> 429%Z -> status r <> 401%Z -> ok r = false ->
  outcome (handle_response r) =
  Throw (ApiError ("Trello API error: " ++ response_text r) (status r)).
Proof.
  intros H429 H401 Hok. unfold handle_response.
  apply Z.eqb_neq in H429, H401. now rewrite H429, H401, Hok.
Qed.

(** [request] resolves only on a success: to [undefined] for an empty
    body, to the parsed body otherwise. *)
Lemma handle_response_resolves (r : Response) (v : option json) :
  outcome (handle_response r) = Ok v ->
  ok r = true
  /\ ((response_text r = "" /\ v = None)
      \/ (response_text r <> ""
          /\ exists parsed,
               JSON_parse (response_text r) = Ok parsed /\ v = Some parsed)).
Proof.
  unfold handle_response.
  destruct (status r =? 429)%Z; [discriminate|].
  destruct (status r =? 401)%Z; [discriminate|].
  destruct (ok r); [|discriminate]. cbn [negb].
  unfold truthy_string.
  destruct (response_text r =? "") eqn:Htext; cbn [negb].
  - intros [= <-]. apply String.eqb_eq in Htext. auto.
  - apply String.eqb_neq in Htext. cbn.
    destruct (JSON_parse (response_text r)) as [parsed|e]; cbn;
      [|discriminate].
    intros [= <-]. split; [reflexivity|]. right. split; [assumption|].
    now exists parsed.
Qed.

(** The request of an operation does not depend on the upstream, and the
    operation resolves or throws as its request does. *)
Lemma methods_follow_their_request (op : Operation) :
  op <> TestConnection ->
  exists endpoint options extraParams,
    forall fetch,
      sent (invoke credentials fetch op) =
        [fetch_call credentials endpoint options extraParams]
      /\ outcome (invoke credentials fetch op) =
         match outcome (request credentials fetch endpoint options extraParams)
         with
         | Ok v => Ok (resolved op v)
         | Throw e => Throw e
         end.
Proof.
  intro Hop.
  destruct op; try congruence; clear Hop; cbn [invoke];
    autounfold with client_methods;
    do 3 eexists; intro fetch;
    rewrite ?data_run, ?void_run, ?request_void_run, ?request_run;
    cbn [sent outcome fst snd];
    (split; [reflexivity|]);
    destruct (fetch _) as [r|e'];
      try (destruct (outcome (handle_response r)));
      reflexivity.
Qed.

End Transport.

Section Outcomes.

Context `{JsRuntime}.
Variable credentials : TenantCredentials.
Variable fetch : FetchCall -> FetchOutcome.

Lemma handle_success_cases (r : Response) :
  ok r = true ->
  outcome (handle_response r) =
  if response_text r =? "" then Ok None
  else match JSON_parse (response_text r) with
       | Ok parsed => Ok (Some parsed)
       | Throw e => Throw e
       end.
Proof.
  intro Hok. unfold handle_response.
  unfold ok in Hok. apply andb_true_iff in Hok. destruct Hok as [Hlo Hhi].
  apply Z.leb_le in Hlo, Hhi.
  replace (status r =? 429)%Z with false by (symmetry; apply Z.eqb_neq; lia).
  replace (status r =? 401)%Z with false by (symmetry; apply Z.eqb_neq; lia).
  unfold ok. rewrite (proj2 (Z.leb_le _ _) Hlo), (proj2 (Z.leb_le _ _) Hhi).
  cbn [andb negb]. unfold truthy_string.
  destruct (response_text r =? ""); cbn [negb]; [reflexivity|].
  cbn. now destruct (JSON_parse (response_text r)).
Qed.

(** The outcome of an operation whose one call is answered by [r]. *)
Lemma invoke_answered (op : Operation) (r : Response) :
  op <> TestConnection ->
  (forall call, In call (sent (invoke credentials fetch op)) ->
                fetch call = Responded r) ->
  outcome (invoke credentials fetch op) =
  match outcome (handle_response r) with
  | Ok v => Ok (resolved op v)
  | Throw e => Throw e
  end.
Proof.
  intros Hop Hfetch.
  destruct (methods_follow_their_request credentials op Hop)
    as (endpoint & options & extraParams & Hrun).
  destruct (Hrun fetch) as [Hsent Hout].
  rewrite Hout, request_run. cbn [outcome snd].
  rewrite Hfetch; [reflexivity|]. rewrite Hsent. now left.
Qed.

(** X1. An answer that is neither 429 nor 401 nor a success makes every
    operation but [testConnection] throw an [ApiError] that carries the
    status and, after the prefix [Trello API error: ], the body of the
    answer; [testConnection] reports that message. *)
Theorem api_error_classification (op : Operation) (r : Response) :
  (forall call, In call (sent (invoke credentials fetch op)) ->
                fetch call = Responded r) ->
  status r <> 429%Z -> status r <> 401%Z -> ok r = false ->
  match op with
  | TestConnection =>
      outcome (invoke credentials fetch op) =
      Ok (Status {| connected := false;
                    message := "Trello API error: " ++ response_text r |})
  | _ =>
      outcome (invoke credentials fetch op) =
      Throw (ApiError ("Trello API error: " ++ response_text r) (status r))
  end.
Proof.
  intros Hfetch H429 H401 Hok.
  pose proof (handle_api_error r H429 H401 Hok) as Hthrow.
  destruct op;
    try (apply invoke_throws with (r := r); [discriminate | assumption ..]).
  exact (testConnection_reports credentials fetch r _ Hfetch Hthrow).
Qed.

(** X2. On a successful answer an operation that returns an entity
    resolves to [undefined] for an empty body and to the parsed body
    otherwise; an operation that returns nothing resolves whatever the
    body holds; and both throw what [JSON.parse] throws on a body that is
    not empty and does not parse. *)
Theorem success_resolution (op : Operation) (r : Response) :
  op <> TestConnection ->
  (forall call, In call (sent (invoke credentials fetch op)) ->
                fetch call = Responded r) ->
  ok r = true ->
  (response_text r = "" ->
   outcome (invoke credentials fetch op) = Ok (resolved op None))
  /\ (forall parsed,
        response_text r <> "" ->
        JSON_parse (response_text r) = Ok parsed ->
        outcome (invoke credentials fetch op) = Ok (resolved op (Some parsed)))
  /\ (forall e,
        response_text r <> "" ->
        JSON_parse (response_text r) = Throw e ->
        outcome (invoke credentials fetch op) = Throw e).
Proof.
  intros Hop Hfetch Hok.
  rewrite (invoke_answered op r Hop Hfetch), (handle_success_cases r Hok).
  split; [|split].
  - now intros ->.
  - intros parsed Htext Hparse. apply String.eqb_neq in Htext.
    now rewrite Htext, Hparse.
  - intros e Htext Hparse. apply String.eqb_neq in Htext.
    now rewrite Htext, Hparse.
Qed.

(** X3. An operation other than [testConnection] resolves only when the
    upstream answered its call with a status from 200 to 299. *)
Theorem resolution_needs_success (op : Operation) (v : Returned) :
  op <> TestConnection ->
  outcome (invoke credentials fetch op) = Ok v ->
  exists call r,
    sent (invoke credentials fetch op) = [call]
    /\ fetch call = Responded r
    /\ (200 <= status r <= 299)%Z.
Proof.
  intros Hop Hresolved.
  destruct (methods_follow_their_request credentials op Hop)
    as (endpoint & options & extraParams & Hrun).
  destruct (Hrun fetch) as [Hsent Hout].
  rewrite Hout, request_run in Hresolved. cbn [outcome snd] in Hresolved.
  exists (fetch_call credentials endpoint options extraParams).
  destruct (fetch _) as [r|e] eqn:Hanswer; [|discriminate].
  exists r. split; [assumption|]. split; [reflexivity|].
  destruct (outcome (handle_response r)) as [v'|e] eqn:Hhandled;
    [|discriminate].
  apply handle_response_resolves in Hhandled.
  destruct Hhandled as [Hok _]. unfold ok in Hok.
  apply andb_true_iff in Hok. destruct Hok as [Hlo Hhi].
  apply Z.leb_le in Hlo, Hhi. lia.
Qed.

(** X4. A rejection of [fetch] reaches the caller as it is, from every
    operation but [testConnection], which reports its message. *)
Theorem rejection_propagates (op : Operation) (e : JsError) :
  (forall call, In call (sent (invoke credentials fetch op)) ->
                fetch call = Rejected e) ->
  match op with
  | TestConnection =>
      outcome (invoke credentials fetch op) =
      Ok (Status {| connected := false; message := error_message e |})
  | _ => outcome (invoke credentials fetch op) = Throw e
  end.
Proof.
  intro Hfetch.
  assert (Hplain : op <> TestConnection ->
                   outcome (invoke credentials fetch op) = Throw e).
  { intro Hop.
    destruct (methods_follow_their_request credentials op Hop)
      as (endpoint & options & extraParams & Hrun).
    destruct (Hrun fetch) as [Hsent Hout].
    rewrite Hout, request_run. cbn [outcome snd].
    rewrite Hfetch; [reflexivity|]. rewrite Hsent. now left. }
  destruct op; try (apply Hplain; discriminate).
  apply invoke_testConnection_catches.
  unfold getMe. rewrite request_run. cbn [outcome snd].
  rewrite Hfetch; [reflexivity|].
  rewrite invoke_testConnection_sent. now left.
Qed.

(** X5. [testConnection] never throws.  It reports a connection only
    when [/members/me] was answered by a success whose body parsed to a
    value other than [null], and then its message begins with
    [Connected as ]. *)
Theorem testConnection_always_resolves :
  exists s,
    outcome (testConnection credentials fetch) = Ok s
    /\ (connected s = true ->
        (exists r member,
            fetch (fetch_call credentials "/members/me" no_options None)
              = Responded r
            /\ ok r = true
            /\ JSON_parse (response_text r) = Ok member
            /\ member <> JNull)
        /\ exists rest, message s = "Connected as " ++ rest).
Proof.
  unfold testConnection, getMe. rewrite request_run.
  unfold try_catch, bind. cbn [outcome snd fst].
  destruct (fetch _) as [r|e] eqn:Hanswer.
  2:{ eexists. split; [reflexivity|]. discriminate. }
  destruct (outcome (handle_response r)) as [member|e] eqn:Hhandled.
  2:{ eexists. split; [reflexivity|]. discriminate. }
  apply handle_response_resolves in Hhandled.
  destruct Hhandled as [Hok Hbody].
  destruct member as [member|].
  2:{ cbn. eexists. split; [reflexivity|]. discriminate. }
  destruct Hbody as [[_ [=]]|(_ & parsed & Hparse & [= <-])].
  destruct member; cbn;
    try (eexists; split; [reflexivity|]; discriminate);
    (eexists; split; [reflexivity|]; intros _; split;
     [exists r; eexists; repeat split; try eassumption; discriminate
     | eexists; reflexivity]).
Qed.

End Outcomes.

(** *** Objects with distinct properties *)

Lemma obj_set_keys_present {V : Type} (key : string) (value : V) obj :
  In key (obj_keys obj) -> obj_keys (obj_set key value obj) = obj_keys obj.
Proof.
  unfold obj_keys.
  induction obj as [|[k v] rest IH]; cbn; [contradiction|].
  destruct (k =? key) eqn:Hk; cbn; [reflexivity|].
  intros [->|Hin]; [now rewrite String.eqb_refl in Hk|].
  now rewrite IH.
Qed.

Lemma obj_set_keys_fresh {V : Type} (key : string) (value : V) obj :
  ~ In key (obj_keys obj) ->
  obj_keys (obj_set key value obj) = (obj_keys obj ++ [key])%list.
Proof.
  unfold obj_keys.
  induction obj as [|[k v] rest IH]; cbn; [reflexivity|].
  intro Hfresh. destruct (k =? key) eqn:Hk.
  - apply String.eqb_eq in Hk. tauto.
  - cbn. rewrite IH; [reflexivity|tauto].
Qed.

Lemma well_keyed_obj_set {V : Type} (key : string) (value : V) obj :
  key <> "key" -> key <> "token" ->
  well_keyed obj -> well_keyed (obj_set key value obj).
Proof.
  intros Hkey Htoken (Hnodup & Hk & Ht). unfold well_keyed.
  destruct (in_dec string_dec key (obj_keys obj)) as [Hin|Hfresh].
  - now rewrite obj_set_keys_present.
  - rewrite obj_set_keys_fresh by assumption. repeat split.
    + apply NoDup_app; [assumption|repeat constructor; intros []|].
      intros k Hin [<-|[]]. contradiction.
    + intro Hin. apply in_app_or in Hin. destruct Hin as [|[|[]]]; congruence.
    + intro Hin. apply in_app_or in Hin. destruct Hin as [|[|[]]]; congruence.
Qed.

Lemma well_keyed_set_if {V : Type} (cond : bool) key (value : V) obj :
  key <> "key" -> key <> "token" ->
  well_keyed obj -> well_keyed (set_if cond key value obj).
Proof.
  destruct cond; cbn; [apply well_keyed_obj_set|auto].
Qed.

Lemma well_keyed_set_truthy key v obj :
  key <> "key" -> key <> "token" ->
  well_keyed obj -> well_keyed (set_truthy key v obj).
Proof.
  destruct v; cbn; [apply well_keyed_set_if|auto].
Qed.

Lemma well_keyed_set_defined {T : Type} key (v : option T) show obj :
  key <> "key" -> key <> "token" ->
  well_keyed obj -> well_keyed (set_defined key v show obj).
Proof.
  destruct v; cbn; [apply well_keyed_obj_set|auto].
Qed.

Lemma well_keyed_set_nonempty key v obj :
  key <> "key" -> key <> "token" ->
  well_keyed obj -> well_keyed (set_nonempty key v obj).
Proof.
  destruct v; cbn; [apply well_keyed_set_if|auto].
Qed.

Lemma well_keyed_set_truthy_number `{JsNumber} key (v : option number) obj :
  key <> "key" -> key <> "token" ->
  well_keyed obj -> well_keyed (set_truthy_number key v obj).
Proof.
  destruct v; cbn; [apply well_keyed_set_if|auto].
Qed.

(** An object literal with distinct properties. *)
Ltac well_keyed_literal :=
  unfold well_keyed, obj_keys; cbn [map fst];
  repeat split;
  [ repeat (constructor; [cbn [In]; intuition discriminate|]); constructor
  | cbn [In]; intuition discriminate
  | cbn [In]; intuition discriminate ].

(** The [params] object of a method. *)
Ltac well_keyed_params :=
  cbv zeta;
  repeat first
    [ apply well_keyed_set_truthy; [discriminate|discriminate|]
    | apply well_keyed_set_defined; [discriminate|discriminate|]
    | apply well_keyed_set_nonempty; [discriminate|discriminate|]
    | apply well_keyed_set_truthy_number; [discriminate|discriminate|] ];
  well_keyed_literal.

(** *** The query of a request *)

Lemma usp_set_fresh (name value : string) (params : URLSearchParams) :
  ~ In name (map fst params) ->
  usp_set name value params = (params ++ [(name, value)])%list.
Proof.
  induction params as [|[n v] rest IH]; cbn; [reflexivity|].
  intro Hfresh. destruct (n =? name) eqn:Hn.
  - apply String.eqb_eq in Hn. tauto.
  - rewrite IH; [reflexivity|tauto].
Qed.

Lemma kept_entries_names (extra : JsObject ParamValue) k :
  In k (map fst (kept_entries extra)) -> In k (obj_keys extra).
Proof.
  unfold kept_entries, obj_keys.
  induction extra as [|[n v] rest IH]; cbn; [auto|].
  rewrite map_app. intro Hin. apply in_app_or in Hin.
  destruct Hin as [Hin|Hin]; [|right; now apply IH].
  destruct v as [| |s]; cbn in Hin; try contradiction.
  destruct (s =? ""); cbn in Hin; [contradiction|].
  destruct Hin as [<-|[]]. now left.
Qed.

Lemma kept_entries_In (extra : JsObject ParamValue) k s :
  In (k, PString s) extra -> s <> "" -> In (k, s) (kept_entries extra).
Proof.
  intros Hin Hne. unfold kept_entries. apply in_flat_map.
  exists (k, PString s). split; [assumption|]. cbn.
  apply String.eqb_neq in Hne. rewrite Hne. now left.
Qed.

Section Queries.

Context `{JsRuntime}.
Variable credentials : TenantCredentials.

Lemma add_extra_kept (extra : JsObject ParamValue) :
  forall params : URLSearchParams,
    NoDup (obj_keys extra) ->
    (forall k, In k (obj_keys extra) -> ~ In k (map fst params)) ->
    fold_left add_extra extra params = (params ++ kept_entries extra)%list.
Proof.
  induction extra as [|[n v] rest IH]; intros params Hnodup Hfresh.
  - cbn. now rewrite app_nil_r.
  - cbn [fold_left]. inversion Hnodup as [|? ? Hn Hrest]; subst.
    assert (Hrest_fresh : forall k, In k (obj_keys rest) ->
                                    ~ In k (map fst params))
      by (intros k Hin; apply Hfresh; now right).
    unfold kept_entries. cbn [flat_map snd fst].
    fold (kept_entries rest).
    destruct v as [| |s]; cbn [add_extra]; try (now apply IH).
    destruct (s =? "") eqn:Hs; cbn [negb]; [now apply IH|].
    rewrite usp_set_fresh by (apply Hfresh; now left).
    rewrite IH; [now rewrite <- app_assoc|assumption|].
    intros k Hin Hparams. rewrite map_app in Hparams.
    apply in_app_or in Hparams. destruct Hparams as [Hparams|[<-|[]]].
    + now apply (Hrest_fresh k).
    + contradiction.
Qed.

Lemma build_params_kept (extra : JsObject ParamValue) :
  well_keyed extra ->
  build_params credentials (Some extra) =
  (getAuthParams credentials ++ kept_entries extra)%list.
Proof.
  intros (Hnodup & Hkey & Htoken). unfold build_params.
  apply add_extra_kept; [assumption|].
  intros k Hin [<-|[<-|[]]]; contradiction.
Qed.

(** X6. When the properties of [extraParams] are distinct and none is
    [key] or [token], the query of the call is the two credentials
    followed by the entries that hold a string that is not empty, with
    their values and in their order. *)
Theorem query_is_credentials_then_kept (fetch : FetchCall -> FetchOutcome)
  (endpoint : string) (options : RequestInit) (extra : JsObject ParamValue) :
  NoDup (obj_keys extra) ->
  ~ In "key" (obj_keys extra) ->
  ~ In "token" (obj_keys extra) ->
  exists call,
    sent (request credentials fetch endpoint options (Some extra)) = [call]
    /\ call_params call =
       (("key", apiKey credentials) :: ("token", token credentials)
        :: kept_entries extra).
Proof.
  intros Hnodup Hkey Htoken.
  exists (fetch_call credentials endpoint options (Some extra)).
  split; [now rewrite request_run|].
  unfold fetch_call. cbn [call_params].
  now rewrite build_params_kept.
Qed.

(** The one call of an operation, which the upstream has no part in, and
    the [params] object it is made for. *)
Lemma operation_call (op : Operation) :
  exists endpoint options extraParams,
    (forall fetch,
        sent (invoke credentials fetch op) =
        [fetch_call credentials endpoint options extraParams])
    /\ headers options = None
    /\ match extraParams with
       | Some extra => well_keyed extra
       | None => True
       end.
Proof.
  destruct op;
    try (cbn [invoke]; autounfold with client_methods;
         do 3 eexists;
         (split;
          [ intro fetch;
            rewrite ?data_run, ?void_run, ?request_void_run, ?request_run;
            reflexivity
          | split; [reflexivity | try exact I; well_keyed_params] ])).
  exists "/members/me", no_options, None.
  split; [|split; [reflexivity|exact I]].
  intro fetch. apply invoke_testConnection_sent.
Qed.

End Queries.

(** *** What an assignment leaves in a [params] object *)

Lemma obj_set_adds {V : Type} (key : string) (value : V) obj :
  In (key, value) (obj_set key value obj).
Proof.
  induction obj as [|[k v] rest IH]; cbn; [now left|].
  destruct (k =? key) eqn:Hk; [|now right].
  apply String.eqb_eq in Hk. subst k. now left.
Qed.

Lemma obj_set_keeps {V : Type} (key : string) (value : V) obj k x :
  In (k, x) obj -> k <> key -> In (k, x) (obj_set key value obj).
Proof.
  intros Hin Hne.
  induction obj as [|[n v] rest IH]; cbn; [contradiction|].
  destruct (n =? key) eqn:Hn.
  - apply String.eqb_eq in Hn. subst n.
    destruct Hin as [[= <- <-]|Hin]; [congruence|now right].
  - destruct Hin as [Hin|Hin]; [now left|right; now apply IH].
Qed.

Lemma set_if_keeps {V : Type} (cond : bool) key (value : V) obj k x :
  In (k, x) obj -> k <> key -> In (k, x) (set_if cond key value obj).
Proof.
  destruct cond; cbn; [apply obj_set_keeps|auto].
Qed.

Lemma set_truthy_keeps key v obj k x :
  In (k, x) obj -> k <> key -> In (k, x) (set_truthy key v obj).
Proof.
  destruct v; cbn; [apply set_if_keeps|auto].
Qed.

Lemma set_defined_keeps {T : Type} key (v : option T) show obj k x :
  In (k, x) obj -> k <> key -> In (k, x) (set_defined key v show obj).
Proof.
  destruct v; cbn; [apply obj_set_keeps|auto].
Qed.

Lemma set_nonempty_keeps key v obj k x :
  In (k, x) obj -> k <> key -> In (k, x) (set_nonempty key v obj).
Proof.
  destruct v; cbn; [apply set_if_keeps|auto].
Qed.

Lemma set_truthy_number_keeps `{JsNumber} key (v : option number) obj k x :
  In (k, x) obj -> k <> key -> In (k, x) (set_truthy_number key v obj).
Proof.
  destruct v; cbn; [apply set_if_keeps|auto].
Qed.

Lemma set_defined_adds {T : Type} key (v : option T) show obj y :
  v = Some y -> In (key, PString (show y)) (set_defined key v show obj).
Proof.
  intros ->. apply obj_set_adds.
Qed.

Lemma set_nonempty_adds key v obj items :
  v = Some items -> items <> [] ->
  In (key, PString (join "," items)) (set_nonempty key v obj).
Proof.
  intros -> Hitems. cbn. destruct items; [congruence|]. apply obj_set_adds.
Qed.

(** Going down the assignments to the one that set the property of the
    goal; [tac] shows that it did. *)
Ltac find_assignment tac :=
  cbv zeta;
  repeat first
    [ apply set_defined_adds; tac
    | apply set_nonempty_adds; tac
    | apply set_truthy_keeps; [|discriminate]
    | apply set_defined_keeps; [|discriminate]
    | apply set_nonempty_keeps; [|discriminate]
    | apply set_truthy_number_keeps; [|discriminate] ].

Lemma String_boolean_not_empty (b : bool) : String_boolean b <> "".
Proof. destruct b; discriminate. Qed.

Section Fields.

Context `{JsRuntime}.
Variable credentials : TenantCredentials.
Variable fetch : FetchCall -> FetchOutcome.

(** A string that a well-keyed [params] object holds, and that is not
    empty, is a parameter of the call. *)
Lemma kept_parameter (extra : JsObject ParamValue) k s :
  well_keyed extra -> In (k, PString s) extra -> s <> "" ->
  In (k, s) (build_params credentials (Some extra)).
Proof.
  intros Hkeyed Hin Hne. rewrite build_params_kept by assumption.
  apply in_or_app. right. now apply kept_entries_In.
Qed.

(** X7. Every operation makes exactly one call, which is the same
    whatever the upstream answers; it carries the header [Content-Type:
    application/json] and no other, and its query begins with the [key]
    and the [token] of the tenant, which no other parameter repeats. *)
Theorem one_authenticated_call (op : Operation) :
  exists call rest,
    (forall upstream, sent (invoke credentials upstream op) = [call])
    /\ call_headers call = [("Content-Type", "application/json")]
    /\ call_params call =
       ("key", apiKey credentials) :: ("token", token credentials) :: rest
    /\ ~ In "key" (map fst rest)
    /\ ~ In "token" (map fst rest).
Proof.
  destruct (operation_call credentials op)
    as (endpoint & options & extraParams & Hsent & Hheaders & Hkeyed).
  exists (fetch_call credentials endpoint options extraParams).
  assert (Hcontent :
    call_headers (fetch_call credentials endpoint options extraParams) =
    [("Content-Type", "application/json")])
    by (unfold fetch_call, build_headers; cbn [call_headers];
        now rewrite Hheaders).
  destruct extraParams as [extra|].
  - exists (kept_entries extra). split; [exact Hsent|].
    split; [exact Hcontent|].
    unfold fetch_call. cbn [call_params].
    rewrite (build_params_kept credentials extra Hkeyed).
    split; [reflexivity|].
    destruct Hkeyed as (_ & Hkey & Htoken).
    split; intro Hin; apply kept_entries_names in Hin; contradiction.
  - exists []. split; [exact Hsent|]. split; [exact Hcontent|].
    repeat split; auto.
Qed.

End Fields.

Lemma set_nonempty_In key (v : option (list string)) obj k x :
  In (k, x) (set_nonempty key v obj) ->
  (k = key /\ exists items, v = Some items /\ x = PString (join "," items))
  \/ In (k, x) obj.
Proof.
  destruct v as [items|]; cbn; [|now right].
  intro Hin. apply set_if_In in Hin.
  destruct Hin as [[-> ->]|Hin]; [left|now right].
  split; [reflexivity|now exists items].
Qed.

(** As [trace_value], through the assignments of lists as well. *)
Ltac trace_any_value Hin :=
  repeat first
    [ apply set_truthy_In in Hin;
      destruct Hin as [[? (? & ? & ?)]|Hin]; [try discriminate|]
    | apply set_defined_In in Hin;
      destruct Hin as [[? (? & ? & ?)]|Hin]; [try discriminate|]
    | apply set_nonempty_In in Hin;
      destruct Hin as [[? (? & ? & ?)]|Hin]; [try discriminate|] ].

(** The assignment found gave the empty string. *)
Ltac empty_value Hgiven Hne :=
  match goal with
  | Hsome : _ = Some ?x, Hvalue : PString _ = PString _ |- _ =>
      rewrite Hgiven in Hsome; injection Hsome as <-;
      injection Hvalue as ->; now apply Hne
  end.

Section MoreFields.

Context `{JsRuntime}.
Variable credentials : TenantCredentials.
Variable fetch : FetchCall -> FetchOutcome.

(** X8. Only [setCardCustomFieldValue] and [addCustomFieldOption] send a
    body, the JSON of the value and of the option; their query holds the
    credentials and nothing else.  No other operation sends a body. *)
Theorem only_custom_fields_send_a_body (op : Operation) (call : FetchCall) :
  In call (sent (invoke credentials fetch op)) ->
  call_body call = json_body op
  /\ (json_body op <> None ->
      call_params call =
      [("key", apiKey credentials); ("token", token credentials)]).
Proof.
  intro Hcall.
  destruct op; rewrite ?invoke_testConnection_sent in Hcall;
    cbn [invoke] in Hcall;
    autounfold with client_methods in Hcall;
    rewrite ?data_run, ?void_run, ?request_void_run, ?request_run in Hcall;
    cbn [sent fst] in Hcall; destruct Hcall as [<-|[]];
    cbn [json_body fetch_call call_body call_params];
    try (split; [reflexivity|congruence]).
  - split; [reflexivity|reflexivity].
  - split; [|reflexivity]. cbn [with_method_body body].
    destruct color as [c|]; [|reflexivity].
    unfold truthy_string. destruct (c =? ""); reflexivity.
Qed.

(** X9. A boolean field that the caller gives is sent, as [true] or as
    [false]: unlike an empty string, [false] is not dropped. *)
Theorem boolean_fields_are_sent (op : Operation) (wire : string) (b : bool)
  (call : FetchCall) :
  In (wire, Some b) (boolean_fields op) ->
  In call (sent (invoke credentials fetch op)) ->
  In (wire, String_boolean b) (call_params call).
Proof.
  intros Hfield Hcall.
  destruct op; cbn [boolean_fields] in Hfield; try contradiction;
    try (match type of Hfield with
         | In _ (match ?o with _ => _ end) =>
             destruct o; [|contradiction]
         end);
    cbn [invoke] in Hcall; autounfold with client_methods in Hcall;
    rewrite data_run, request_run in Hcall; cbn [sent fst] in Hcall;
    destruct Hcall as [<-|[]];
    unfold fetch_call; cbn [call_params];
    cbn [In] in Hfield;
    repeat (destruct Hfield as [Hfield|Hfield]);
    try contradiction;
    injection Hfield as <- Hvalue;
    (apply kept_parameter;
     [ well_keyed_params
     | cbv beta zeta iota; find_assignment ltac:(exact Hvalue)
     | apply String_boolean_not_empty ]).
Qed.

(** X10. A string field cleared with [null] or with the empty string is
    left out: [updateLabel] sends no [color] for [color: null] or
    [color: ''], [updateOrganization] no [website] for [website: ''],
    and [updateCard] no [desc] for [desc: '']. *)
Theorem cleared_strings_are_not_sent :
  (forall labelId input call,
      In call (sent (updateLabel credentials fetch labelId input)) ->
      TrelloLabelUpdateInput.color input = Some None
      \/ TrelloLabelUpdateInput.color input = Some (Some "") ->
      ~ In "color" (param_names call))
  /\ (forall orgId input call,
        In call (sent (updateOrganization credentials fetch orgId input)) ->
        TrelloOrganizationUpdateInput.website input = Some "" ->
        ~ In "website" (param_names call))
  /\ (forall cardId input call,
        In call (sent (updateCard credentials fetch cardId input)) ->
        TrelloCardUpdateInput.desc input = Some "" ->
        ~ In "desc" (param_names call)).
Proof.
  split; [|split].
  - intros labelId input call Hcall Hcleared Hsent.
    unfold updateLabel in Hcall. rewrite request_run in Hcall.
    destruct Hcall as [<-|[]].
    apply sent_parameter in Hsent; try discriminate.
    destruct Hsent as (v & Hne & Hin).
    trace_any_value Hin; try contradiction.
    destruct Hcleared as [Hgiven|Hgiven]; empty_value Hgiven Hne.
  - intros orgId input call Hcall Hgiven Hsent.
    unfold updateOrganization in Hcall. rewrite request_run in Hcall.
    destruct Hcall as [<-|[]].
    apply sent_parameter in Hsent; try discriminate.
    destruct Hsent as (v & Hne & Hin).
    trace_any_value Hin; try contradiction.
    empty_value Hgiven Hne.
  - intros cardId input call Hcall Hgiven Hsent.
    unfold updateCard in Hcall. rewrite request_run in Hcall.
    destruct Hcall as [<-|[]].
    apply sent_parameter in Hsent; try discriminate.
    destruct Hsent as (v & Hne & Hin).
    trace_any_value Hin; try contradiction.
    empty_value Hgiven Hne.
Qed.

(** X11. [createCard] sends the members and the labels as one parameter
    each, the identifiers joined by commas, and sends none for an empty
    array. *)
Theorem identifier_lists_are_joined (input : TrelloCardCreateInput.t)
  (call : FetchCall) :
  In call (sent (createCard credentials fetch input)) ->
  (forall ids, TrelloCardCreateInput.idMembers input = Some ids ->
               join "," ids <> "" ->
               In ("idMembers", join "," ids) (call_params call))
  /\ (forall ids, TrelloCardCreateInput.idLabels input = Some ids ->
                  join "," ids <> "" ->
                  In ("idLabels", join "," ids) (call_params call))
  /\ (TrelloCardCreateInput.idMembers input = Some [] ->
      ~ In "idMembers" (param_names call))
  /\ (TrelloCardCreateInput.idLabels input = Some [] ->
      ~ In "idLabels" (param_names call)).
Proof.
  intro Hcall. unfold createCard in Hcall. rewrite request_run in Hcall.
  destruct Hcall as [<-|[]].
  assert (Hnonempty : forall ids : list string, join "," ids <> "" -> ids <> [])
    by (intros ids Hjoin ->; now apply Hjoin).
  unfold param_names, fetch_call. cbn [call_params].
  repeat split.
  - intros ids Hgiven Hjoin.
    apply kept_parameter; [well_keyed_params| |assumption].
    find_assignment ltac:(first [exact Hgiven | now apply Hnonempty]).
  - intros ids Hgiven Hjoin.
    apply kept_parameter; [well_keyed_params| |assumption].
    find_assignment ltac:(first [exact Hgiven | now apply Hnonempty]).
  - intros Hgiven Hsent.
    apply sent_parameter in Hsent; try discriminate.
    destruct Hsent as (v & Hne & Hin).
    trace_any_value Hin;
      try (cbn [In] in Hin; destruct Hin as [[=]|[[=]|[]]]).
    empty_value Hgiven Hne.
  - intros Hgiven Hsent.
    apply sent_parameter in Hsent; try discriminate.
    destruct Hsent as (v & Hne & Hin).
    trace_any_value Hin;
      try (cbn [In] in Hin; destruct Hin as [[=]|[[=]|[]]]).
    empty_value Hgiven Hne.
Qed.

End MoreFields.

(* ================================================================= *)
(** ** Properties of the credentials, the environment and the Worker *)






Lemma or_empty_truthy (v : option string) :
  truthy_string (or_empty v) = true ->
  exists s, v = Some s /\ s <> "" /\ or_empty v = s.
Proof.
  destruct v as [s|]; cbn; [|discriminate].
  destruct (truthy_string s) eqn:Hs; [|discriminate]. intros _.
  exists s. repeat split.
  apply negb_true_iff in Hs. now apply String.eqb_neq.
Qed.

Lemma or_empty_given (s : string) :
  s <> "" -> or_empty (Some s) = s /\ truthy_string s = true.
Proof.
  intro Hne. cbn. unfold truthy_string. apply String.eqb_neq in Hne.
  now rewrite Hne.
Qed.

(** The credentials that pass [validateCredentials] are the values of
    the two headers. *)
Lemma validated_credentials (headers : list (string * string)) :
  validateCredentials (parseTenantCredentials headers) = Ok tt ->
  exists k t,
    headers_get "X-Trello-API-Key" headers = Some k
    /\ headers_get "X-Trello-Token" headers = Some t
    /\ k <> "" /\ t <> ""
    /\ parseTenantCredentials headers = {| apiKey := k; token := t |}.
Proof.
  unfold parseTenantCredentials, validateCredentials. cbn [apiKey token].
  destruct (truthy_string (or_empty (headers_get "X-Trello-API-Key" headers)))
    eqn:Hk; cbn [negb]; [|discriminate].
  destruct (truthy_string (or_empty (headers_get "X-Trello-Token" headers)))
    eqn:Ht; cbn [negb]; [|discriminate].
  intros _. destruct (or_empty_truthy _ Hk) as (k & Hkey & Hkne & Hkv).
  destruct (or_empty_truthy _ Ht) as (t & Htok & Htne & Htv).
  exists k, t. rewrite Hkv, Htv. auto.
Qed.

(** X12. The credentials read from the headers pass [validateCredentials]
    exactly when both headers are present with a value that is not empty,
    and then they hold those values.  Otherwise the error names the
    header of the API key when that one is missing or empty, and the
    header of the token when only that one is. *)
Theorem credentials_from_headers (headers : list (string * string)) :
  let key := headers_get "X-Trello-API-Key" headers in
  let tok := headers_get "X-Trello-Token" headers in
  let credentials := parseTenantCredentials headers in
  (validateCredentials credentials = Ok tt <->
   exists k t, key = Some k /\ tok = Some t /\ k <> "" /\ t <> "")
  /\ (forall k t, key = Some k -> tok = Some t -> k <> "" -> t <> "" ->
                  credentials = {| apiKey := k; token := t |})
  /\ (key = None \/ key = Some "" ->
      validateCredentials credentials =
      Throw (JsThrown "Missing X-Trello-API-Key header. Get your API key from https://trello.com/power-ups/admin"))
  /\ (forall k, key = Some k -> k <> "" -> tok = None \/ tok = Some "" ->
      validateCredentials credentials =
      Throw (JsThrown "Missing X-Trello-Token header. Get your token from https://trello.com/power-ups/admin")).
Proof.
  cbv zeta. split; [split|split; [|split]].
  - intro Hvalid.
    destruct (validated_credentials headers Hvalid)
      as (k & t & Hk & Ht & Hkne & Htne & _).
    now exists k, t.
  - intros (k & t & Hk & Ht & Hkne & Htne).
    unfold parseTenantCredentials, validateCredentials. cbn [apiKey token].
    rewrite Hk, Ht.
    destruct (or_empty_given k Hkne) as [-> ->].
    destruct (or_empty_given t Htne) as [-> ->].
    reflexivity.
  - intros k t Hk Ht Hkne Htne. unfold parseTenantCredentials.
    rewrite Hk, Ht.
    destruct (or_empty_given k Hkne) as [-> _].
    destruct (or_empty_given t Htne) as [-> _].
    reflexivity.
  - unfold parseTenantCredentials, validateCredentials. cbn [apiKey token].
    intros [->| ->]; reflexivity.
  - intros k Hk Hkne Htok.
    unfold parseTenantCredentials, validateCredentials. cbn [apiKey token].
    rewrite Hk. destruct (or_empty_given k Hkne) as [-> ->]. cbn [negb].
    destruct Htok as [->| ->]; reflexivity.
Qed.


Section WorkerProperties.

Context `{JsRuntime}.

(** X14. The Worker hands a request to the MCP server only when it is a
    [POST] of [/mcp] whose two credential headers hold a value that is not
    empty, and the server gets exactly these values.  A [POST] of [/mcp]
    without them is answered with status 401, and [/health] with status
    200 whatever the method and the headers; the Worker answers with no
    status other than 200, 401 and 501. *)
Theorem worker_routing (request : WorkerRequest) :
  (forall credentials,
      worker_fetch request = Delegated credentials ->
      url_pathname request = "/mcp"
      /\ request_method request = "POST"
      /\ headers_get "X-Trello-API-Key" (request_headers request)
         = Some (apiKey credentials)
      /\ headers_get "X-Trello-Token" (request_headers request)
         = Some (token credentials)
      /\ apiKey credentials <> "" /\ token credentials <> "")
  /\ (url_pathname request = "/mcp" -> request_method request = "POST" ->
      forall e,
        validateCredentials (parseTenantCredentials (request_headers request))
          = Throw e ->
        exists response,
          worker_fetch request = Answered response
          /\ worker_status response = 401%Z)
  /\ (url_pathname request = "/health" ->
      exists response,
        worker_fetch request = Answered response
        /\ worker_status response = 200%Z)
  /\ (forall response,
        worker_fetch request = Answered response ->
        worker_status response = 200%Z \/ worker_status response = 401%Z
        \/ worker_status response = 501%Z).
Proof.
  unfold worker_fetch. split; [|split; [|split]].
  - intros credentials.
    destruct (url_pathname request =? "/health"); [discriminate|].
    destruct (url_pathname request =? "/mcp") eqn:Hpath;
      [|cbn [andb]; destruct (url_pathname request =? "/sse"); discriminate].
    destruct (request_method request =? "POST") eqn:Hmethod;
      [|cbn [andb]; destruct (url_pathname request =? "/sse"); discriminate].
    cbn [andb].
    destruct (validateCredentials _) as [[]|e] eqn:Hvalid; [|discriminate].
    intros [= <-].
    apply String.eqb_eq in Hpath, Hmethod.
    destruct (validated_credentials (request_headers request) Hvalid)
      as (k & t & Hk & Ht & Hkne & Htne & ->).
    cbn [apiKey token]. auto 10.
  - intros -> -> e Hvalid. cbn. rewrite Hvalid. eexists. split; reflexivity.
  - intros ->. cbn. eexists. split; reflexivity.
  - intros response.
    destruct (url_pathname request =? "/health");
      [intros [= <-]; now left|].
    destruct ((url_pathname request =? "/mcp")
              && (request_method request =? "POST")).
    + destruct (validateCredentials _); [discriminate|].
      intros [= <-]. right. now left.
    + destruct (url_pathname request =? "/sse"); intros [= <-]; auto.
Qed.

End WorkerProperties.

(* ================================================================= *)
(** ** Further properties of the renderer *)

Lemma count_char_app (c : ascii) (a b : string) :
  count_char c (a ++ b) = count_char c a + count_char c b.
Proof.
  induction a as [|x a IH]; cbn; [reflexivity|].
  destruct (Ascii.eqb x c); cbn; now rewrite IH.
Qed.

Lemma count_char_none (c : ascii) (text : string) :
  has_char c text = false -> count_char c text = 0.
Proof.
  induction text as [|a rest IH]; cbn; [reflexivity|].
  destruct (Ascii.eqb a c); cbn; [discriminate|exact IH].
Qed.

Lemma replaceAll_char_app (c : ascii) (by_ a b : string) :
  replaceAll_char c by_ (a ++ b) =
  replaceAll_char c by_ a ++ replaceAll_char c by_ b.
Proof.
  induction a as [|x a IH]; cbn; [reflexivity|].
  destruct (Ascii.eqb x c); cbn; rewrite IH;
    [now rewrite string_app_assoc|reflexivity].
Qed.

Lemma replaceAll_char_absent (c : ascii) (by_ text : string) :
  has_char c text = false -> replaceAll_char c by_ text = text.
Proof.
  induction text as [|a rest IH]; cbn; [reflexivity|].
  destruct (Ascii.eqb a c); cbn; [discriminate|].
  intro Hrest. now rewrite IH.
Qed.

Lemma string_length_app (a b : string) :
  String.length (a ++ b) = String.length a + String.length b.
Proof.
  induction a as [|x a IH]; cbn; [reflexivity|now rewrite IH].
Qed.

Lemma replaceAll_char_length (c : ascii) (by_ text : string) :
  String.length (replaceAll_char c by_ text) + count_char c text
  = String.length text + count_char c text * String.length by_.
Proof.
  induction text as [|a rest IH]; cbn; [reflexivity|].
  destruct (Ascii.eqb a c); cbn; [rewrite string_length_app|]; lia.
Qed.

(** X15. [escapeMarkdown] works character by character: the escape of a
    concatenation is the concatenation of the escapes.  What it returns
    holds no line break, each of its pipes follows a backslash, and it
    is longer than the text by the number of pipes of the text; a text
    with no pipe and no line break is returned as it is. *)
Theorem escapeMarkdown_is_character_wise (text : string) :
  (forall more, escapeMarkdown (text ++ more)
                 = escapeMarkdown text ++ escapeMarkdown more)
  /\ has_char (ascii_of_nat 10) (escapeMarkdown text) = false
  /\ pipes_escaped false (escapeMarkdown text) = true
  /\ String.length (escapeMarkdown text)
     = String.length text + count_char "|" text
  /\ (has_char "|" text = false -> has_char (ascii_of_nat 10) text = false ->
      escapeMarkdown text = text).
Proof.
  split; [|split; [|split; [|split]]].
  - intro more. unfold escapeMarkdown. now rewrite !replaceAll_char_app.
  - apply escapeMarkdown_no_line_break.
  - apply escapeMarkdown_pipes_escaped.
  - unfold escapeMarkdown.
    pose proof (replaceAll_char_length (ascii_of_nat 10) " "
                  (replaceAll_char "|" "\|" text)) as Hbreaks.
    pose proof (replaceAll_char_length "|" "\|" text) as Hpipes.
    cbn [String.length] in Hbreaks, Hpipes. lia.
  - intros Hpipe Hbreak. unfold escapeMarkdown.
    rewrite (replaceAll_char_absent "|" _ text Hpipe).
    now apply replaceAll_char_absent.
Qed.

(** The lines of a text joined from lines that hold no line break. *)
Lemma line_count_join (lines : list string) :
  lines <> [] ->
  Forall (fun line => has_char (ascii_of_nat 10) line = false) lines ->
  line_count (join LF lines) = length lines.
Proof.
  unfold line_count. intros Hlines Hclean.
  induction lines as [|first rest IH]; [congruence|].
  inversion Hclean as [|? ? Hfirst Hrest]; subst.
  destruct rest as [|second rest].
  - unfold join. cbn [String.concat]. now rewrite (count_char_none _ _ Hfirst).
  - rewrite join_cons by discriminate.
    rewrite !count_char_app, (count_char_none _ _ Hfirst).
    cbn [LF count_char]. rewrite Ascii.eqb_refl.
    cbn [plus]. rewrite IH by (assumption || discriminate). reflexivity.
Qed.

Lemma formatLabelsTable_rows (labels : list TrelloLabel.t) :
  formatLabelsTable labels =
  join LF (["| Name | ID | Color |"; "|---|---|---|"]
           ++ map label_row labels)%list.
Proof.
  unfold formatLabelsTable. cbv zeta.
  rewrite (fold_left_push
             (fun label =>
                "| "
                ++ escapeMarkdown (if truthy_string (TrelloLabel.name label)
                                   then TrelloLabel.name label
                                   else "(no name)")
                ++ " | `" ++ TrelloLabel.id label ++ "` | "
                ++ match TrelloLabel.color label with
                   | Some c => if truthy_string c then c else "none"
                   | None => "none"
                   end
                ++ " |")).
  f_equal. f_equal. apply map_ext. intro label.
  unfold label_row, truthy_string.
  destruct (TrelloLabel.name label =? ""); cbn [negb];
    destruct (TrelloLabel.color label) as [c|]; try reflexivity;
    destruct (c =? ""); reflexivity.
Qed.

Lemma formatMembersTable_rows (members : list TrelloMember.t) :
  formatMembersTable members =
  join LF (["| Name | Username | ID |"; "|---|---|---|"]
           ++ map member_row members)%list.
Proof.
  unfold formatMembersTable. cbv zeta.
  now rewrite (fold_left_push member_row).
Qed.

Lemma formatOrganizationsTable_rows (orgs : list TrelloOrganization.t) :
  formatOrganizationsTable orgs =
  join LF (["| Name | ID | URL |"; "|---|---|---|"]
           ++ map organization_row orgs)%list.
Proof.
  unfold formatOrganizationsTable. cbv zeta.
  now rewrite (fold_left_push organization_row).
Qed.

Lemma formatCardsTable_rows `{JsRuntime} (cards : list TrelloCard.t) :
  formatCardsTable cards =
  join LF (["| Name | ID | Due | Status | URL |"; "|---|---|---|---|---|"]
           ++ map card_row cards)%list.
Proof.
  unfold formatCardsTable. cbv zeta.
  rewrite (fold_left_push
             (fun card =>
                "| " ++ escapeMarkdown (TrelloCard.name card) ++ " | `"
                ++ TrelloCard.id card ++ "` | "
                ++ match TrelloCard.due card with
                   | Some d => if truthy_string d then toLocaleDateString d
                               else "-"
                   | None => "-"
                   end
                ++ (if TrelloCard.dueComplete card then " (Done)" else "")
                ++ " | "
                ++ (if TrelloCard.closed card then "Archived" else "Active")
                ++ " | " ++ TrelloCard.shortUrl card ++ " |")).
  f_equal. f_equal. apply map_ext. intro card.
  unfold card_row, truthy_string.
  destruct (TrelloCard.due card) as [d|]; [|reflexivity].
  destruct (d =? ""); reflexivity.
Qed.

(** Proving that a row holds no line break, field by field. *)
Ltac no_line_break :=
  rewrite ?has_char_app, ?escapeMarkdown_no_line_break;
  repeat match goal with
         | Hclean : has_char _ ?field = false |- context [has_char _ ?field] =>
             rewrite Hclean
         end;
  cbn; try reflexivity.

Section TableLines.

Context `{JsRuntime}.

(** X16. The tables of cards, labels, members and organizations hold the
    two lines of the header and one line for each entity, also when a
    name holds line breaks, provided that the fields that are not
    escaped (identifiers, user names, colours, URLs and the date as
    rendered) hold none. *)
Theorem escaped_tables_have_one_line_per_entity :
  (forall cards,
      (forall card, In card cards ->
                    line_free (TrelloCard.id card)
                    /\ line_free (TrelloCard.shortUrl card)
                    /\ forall d, TrelloCard.due card = Some d ->
                                 line_free (toLocaleDateString d)) ->
      line_count (formatCardsTable cards) = 2 + length cards)
  /\ (forall labels,
        (forall label, In label labels ->
                       line_free (TrelloLabel.id label)
                       /\ forall c, TrelloLabel.color label = Some c ->
                                    line_free c) ->
        line_count (formatLabelsTable labels) = 2 + length labels)
  /\ (forall members,
        (forall member, In member members ->
                        line_free (TrelloMember.username member)
                        /\ line_free (TrelloMember.id member)) ->
        line_count (formatMembersTable members) = 2 + length members)
  /\ (forall orgs,
        (forall org, In org orgs ->
                     line_free (TrelloOrganization.id org)
                     /\ line_free (TrelloOrganization.url org)) ->
        line_count (formatOrganizationsTable orgs) = 2 + length orgs).
Proof.
  unfold line_free.
  assert (Htable : forall (A : Type) (row : A -> string) (items : list A)
                          (first second : string),
             has_char (ascii_of_nat 10) first = false ->
             has_char (ascii_of_nat 10) second = false ->
             (forall item, In item items ->
                           has_char (ascii_of_nat 10) (row item) = false) ->
             line_count (join LF ([first; second] ++ map row items)%list)
             = 2 + length items).
  { intros A row items first second Hfirst Hsecond Hrows.
    rewrite line_count_join.
    - now rewrite length_app, length_map.
    - discriminate.
    - cbn [app]. repeat constructor; try assumption.
      apply Forall_forall. intros line Hline.
      apply in_map_iff in Hline. destruct Hline as (item & <- & Hitem).
      now apply Hrows. }
  split; [|split; [|split]].
  - intros cards Hcards. rewrite formatCardsTable_rows.
    apply Htable; try reflexivity.
    intros card Hcard. destruct (Hcards card Hcard) as (Hid & Hurl & Hdue).
    unfold card_row.
    destruct (TrelloCard.due card) as [d|] eqn:Hd.
    + specialize (Hdue d eq_refl).
      destruct (d =? ""), (TrelloCard.dueComplete card),
        (TrelloCard.closed card); no_line_break.
    + destruct (TrelloCard.dueComplete card), (TrelloCard.closed card);
        no_line_break.
  - intros labels Hlabels. rewrite formatLabelsTable_rows.
    apply Htable; try reflexivity.
    intros label Hlabel. destruct (Hlabels label Hlabel) as (Hid & Hcolor).
    unfold label_row.
    destruct (TrelloLabel.color label) as [c|] eqn:Hc.
    + specialize (Hcolor c eq_refl). destruct (c =? ""); no_line_break.
    + no_line_break.
  - intros members Hmembers. rewrite formatMembersTable_rows.
    apply Htable; try reflexivity.
    intros member Hmember.
    destruct (Hmembers member Hmember) as (Huser & Hid).
    unfold member_row. no_line_break.
  - intros orgs Horgs. rewrite formatOrganizationsTable_rows.
    apply Htable; try reflexivity.
    intros org Horg. destruct (Horgs org Horg) as (Hid & Hurl).
    unfold organization_row. no_line_break.
Qed.

End TableLines.

Lemma String_nat_line_free (n : nat) :
  has_char (ascii_of_nat 10) (String_nat n) = false.
Proof.
  unfold String_nat.
  assert (Hdigits : forall d,
             has_char (ascii_of_nat 10) (NilEmpty.string_of_uint d) = false)
    by (induction d; cbn [NilEmpty.string_of_uint has_char];
        try rewrite IHd; reflexivity).
  destruct (Nat.to_uint n); try apply Hdigits. reflexivity.
Qed.

Lemma line_free_list_sum (lines : list string) :
  Forall (fun line => has_char (ascii_of_nat 10) line = false) lines ->
  list_sum (map (count_char (ascii_of_nat 10)) lines) = 0.
Proof.
  induction 1 as [|line rest Hline Hrest IH]; [reflexivity|].
  unfold list_sum in *. cbn [map fold_right].
  rewrite (count_char_none _ _ Hline). exact IH.
Qed.

(** The line breaks of a text joined from lines. *)
Lemma line_breaks_join (lines : list string) :
  lines <> [] ->
  line_count (join LF lines)
  = length lines + list_sum (map (count_char (ascii_of_nat 10)) lines).
Proof.
  unfold line_count. intro Hlines.
  induction lines as [|first rest IH]; [congruence|].
  destruct rest as [|second rest].
  - unfold join. cbn -[count_char]. lia.
  - rewrite join_cons by discriminate.
    rewrite !count_char_app. cbn [LF count_char]. rewrite Ascii.eqb_refl.
    specialize (IH ltac:(discriminate)).
    cbn -[count_char join] in *. lia.
Qed.

Lemma has_char_count (c : ascii) (text : string) :
  has_char c text = true -> 1 <= count_char c text.
Proof.
  induction text as [|a rest IH]; cbn; [discriminate|].
  destruct (Ascii.eqb a c); cbn; [lia|exact IH].
Qed.

Lemma board_row_line_breaks (board : TrelloBoard.t) :
  line_free (TrelloBoard.id board) ->
  line_free (TrelloBoard.shortUrl board) ->
  count_char (ascii_of_nat 10) (board_row board)
  = count_char (ascii_of_nat 10) (TrelloBoard.name board).
Proof.
  unfold line_free, board_row. intros Hid Hurl.
  rewrite !count_char_app.
  rewrite (count_char_none _ _ Hid), (count_char_none _ _ Hurl).
  assert (Hliteral : forall part,
             has_char (ascii_of_nat 10) part = false ->
             count_char (ascii_of_nat 10) part = 0)
    by (intros part Hpart; now apply count_char_none).
  rewrite (Hliteral "| " eq_refl), (Hliteral " | `" eq_refl),
    (Hliteral "` | " eq_refl), (Hliteral " | " eq_refl),
    (Hliteral " |" eq_refl).
  destruct (TrelloBoard.closed board);
    [rewrite (Hliteral "Closed" eq_refl) | rewrite (Hliteral "Open" eq_refl)];
    lia.
Qed.

Section BoardRows.

Context `{JsRuntime}.
Variable formatGenericTable : EntityArray -> string.

(** C8 (the code departs from it). The table of boards has one line for
    each board only when no name holds a line break: with identifiers
    and URLs that hold none, its lines are the two of the header, one
    for each board and one more for each line break in a name, since
    [formatBoardsTable] inserts the name as it is.  The same holds of the
    whole rendering, which has three lines before the table. *)
Theorem board_rows_follow_line_breaks (boards : list TrelloBoard.t) :
  (forall board, In board boards ->
                 line_free (TrelloBoard.id board)
                 /\ line_free (TrelloBoard.shortUrl board)) ->
  line_count (formatBoardsTable boards)
  = 2 + length boards + name_line_breaks boards
  /\ (forall board,
        In board boards ->
        has_char (ascii_of_nat 10) (TrelloBoard.name board) = true ->
        2 + length boards < line_count (formatBoardsTable boards))
  /\ (boards <> [] ->
      exists text,
        formatArrayAsMarkdown formatGenericTable (Boards boards) "boards"
        = Some text
        /\ line_count text = 5 + length boards + name_line_breaks boards).
Proof.
  intro Hfields.
  assert (Hrows : list_sum (map (count_char (ascii_of_nat 10))
                              (map board_row boards))
                  = name_line_breaks boards).
  { unfold name_line_breaks. rewrite map_map. f_equal.
    apply map_ext_in. intros board Hboard.
    destruct (Hfields board Hboard) as [Hid Hurl].
    now apply board_row_line_breaks. }
  assert (Htable : line_count (formatBoardsTable boards)
                   = 2 + length boards + name_line_breaks boards).
  { rewrite formatBoardsTable_rows, line_breaks_join by discriminate.
    rewrite length_app, map_app, list_sum_app, length_map, Hrows.
    cbn -[name_line_breaks]. lia. }
  split; [exact Htable|]. split.
  - intros board Hboard Hbreak. rewrite Htable.
    apply has_char_count in Hbreak.
    enough (count_char (ascii_of_nat 10) (TrelloBoard.name board)
            <= name_line_breaks boards) by lia.
    unfold name_line_breaks. clear - Hboard.
    induction boards as [|first rest IH]; [contradiction|].
    unfold list_sum in *. cbn [map fold_right].
    destruct Hboard as [->|Hrest]; [lia|].
    specialize (IH Hrest). lia.
  - intro Hboards.
    destruct (boards_markdown_lists_every_board formatGenericTable boards)
      as (Hrender & _).
    destruct boards as [|first rest]; [congruence|].
    eexists. split; [exact Hrender|].
    rewrite line_breaks_join by discriminate.
    rewrite length_app, map_app, list_sum_app, length_map, Hrows.
    rewrite line_free_list_sum.
    + cbn [length]. lia.
    + repeat constructor.
      unfold count_line. rewrite has_char_app. cbn [has_char orb].
      apply String_nat_line_free.
Qed.

End BoardRows.

(* ----------------------------------------------------------------- *)
(** *** Single objects *)

Lemma drop_final_s_app (entity : string) : drop_final_s (entity ++ "s") = entity.
Proof.
  induction entity as [|a rest IH]; [reflexivity|].
  destruct rest as [|b rest]; [reflexivity|].
  change ((String a (String b rest)) ++ "s")
    with (String a (String b (rest ++ "s"))).
  change (drop_final_s (String a (String b (rest ++ "s"))))
    with (String a (drop_final_s (String b (rest ++ "s")))).
  f_equal. exact IH.
Qed.

Lemma drop_final_s_keeps (entityType : string) :
  ends_in_s entityType = false -> drop_final_s entityType = entityType.
Proof.
  induction entityType as [|a rest IH]; [reflexivity|].
  destruct rest as [|b rest].
  - cbn. now intros ->.
  - change (ends_in_s (String a (String b rest)))
      with (ends_in_s (String b rest)).
    change (drop_final_s (String a (String b rest)))
      with (String a (drop_final_s (String b rest))).
    intro Hend. now rewrite IH.
Qed.

Lemma ends_in_s_app (entityType : string) :
  ends_in_s entityType = true -> exists entity, entityType = entity ++ "s".
Proof.
  induction entityType as [|a rest IH]; [discriminate|].
  destruct rest as [|b rest].
  - cbn. intro Hs. apply Ascii.eqb_eq in Hs. subst a. now exists "".
  - change (ends_in_s (String a (String b rest)))
      with (ends_in_s (String b rest)).
    intro Hend. destruct (IH Hend) as [entity ->].
    now exists (String a entity).
Qed.

Section ObjectProperties.

Context `{JsNumber}.
Variable JSON_stringify_pretty : json -> string.

Lemma formatObjectAsMarkdown_lines (data : JsObject json) (entityType : string) :
  formatObjectAsMarkdown JSON_stringify_pretty data entityType =
  join LF (("## " ++ capitalize (drop_final_s entityType)) :: ""
           :: flat_map (entry_lines JSON_stringify_pretty) data).
Proof.
  unfold formatObjectAsMarkdown. cbv zeta. f_equal.
  match goal with
  | |- fold_left ?step _ ?start = _ =>
      enough (Hgen : forall lines,
                 fold_left step data lines =
                 (lines ++ flat_map (entry_lines JSON_stringify_pretty) data)%list)
        by (rewrite Hgen; reflexivity)
  end.
  induction data as [|[key value] rest IH]; intro lines;
    cbn [fold_left flat_map].
  - now rewrite app_nil_r.
  - rewrite IH. unfold entry_lines. cbn [fst snd].
    destruct value; unfold push; rewrite <- ?app_assoc; reflexivity.
Qed.

Lemma entry_lines_without_nulls (data : JsObject json) :
  flat_map (entry_lines JSON_stringify_pretty) (without_nulls data) =
  flat_map (entry_lines JSON_stringify_pretty) data.
Proof.
  unfold without_nulls.
  induction data as [|[key value] rest IH]; [reflexivity|].
  cbn [filter snd]. destruct value; cbn [is_null negb flat_map];
    rewrite IH; reflexivity.
Qed.

(** X17. A single object whose keys, like its entity type, are of ASCII
    is rendered as a heading, an empty line and the lines of its entries
    in order.  The heading is the entity type with its first letter in
    upper case, and without its last letter when that is an [s]:
    [member] and [members] give the same heading.  A property that holds
    [null] leaves no trace: the rendering is that of the object without
    it, and an object of such properties only is rendered as the empty
    object is. *)
Theorem object_markdown_skips_null (data : JsObject json)
  (entityType : string) :
  is_ascii_text entityType = true ->
  (forall key value, In (key, value) data -> is_ascii_text key = true) ->
  (forall entity,
      entityType = entity ++ "s" ->
      formatObjectAsMarkdown JSON_stringify_pretty data entityType =
      join LF (("## " ++ capitalize entity) :: ""
               :: flat_map (entry_lines JSON_stringify_pretty) data))
  /\ (ends_in_s entityType = false ->
      formatObjectAsMarkdown JSON_stringify_pretty data entityType =
      join LF (("## " ++ capitalize entityType) :: ""
               :: flat_map (entry_lines JSON_stringify_pretty) data))
  /\ (ends_in_s entityType = true ->
      exists entity, entityType = entity ++ "s")
  /\ formatObjectAsMarkdown JSON_stringify_pretty (without_nulls data)
       entityType
     = formatObjectAsMarkdown JSON_stringify_pretty data entityType
  /\ (without_nulls data = [] ->
      formatObjectAsMarkdown JSON_stringify_pretty data entityType
      = formatObjectAsMarkdown JSON_stringify_pretty [] entityType).
Proof.
  intros _ _. repeat split.
  - intros entity ->.
    now rewrite formatObjectAsMarkdown_lines, drop_final_s_app.
  - intro Hend.
    now rewrite formatObjectAsMarkdown_lines, drop_final_s_keeps.
  - apply ends_in_s_app.
  - now rewrite !formatObjectAsMarkdown_lines, entry_lines_without_nulls.
  - intro Hnull.
    rewrite !formatObjectAsMarkdown_lines.
    now rewrite <- entry_lines_without_nulls, Hnull.
Qed.

End ObjectProperties.

(* ----------------------------------------------------------------- *)
(** *** Keys *)









(* ----------------------------------------------------------------- *)
(** *** The generic table *)







Section GenericTable.

Context `{JsNumber}.
Variable slice_0_50 : string -> string.
Variable String_function : string -> string.





End GenericTable.

(* ----------------------------------------------------------------- *)
(** *** The connection tool *)

Section ConnectionToolProperties.

Context `{JsRuntime}.
Variable JSON_stringify_pretty : json -> string.
Variable credentials : TenantCredentials.
Variable fetch : FetchCall -> FetchOutcome.

Lemma testConnection_resolves :
  exists s, outcome (testConnection credentials fetch) = Ok s.
Proof.
  unfold testConnection, getMe. rewrite request_run.
  unfold try_catch, bind. cbn [outcome snd fst].
  destruct (fetch _) as [r|e]; [|eexists; reflexivity].
  destruct (outcome (handle_response r)) as [member|e];
    [|eexists; reflexivity].
  destruct member as [[]|]; cbn; eexists; reflexivity.
Qed.

(** X20. The tool [trello_test_connection] never answers with
    [isError]: its handler for a thrown error is never reached, since
    [testConnection] throws nothing.  Whatever the upstream does, the
    tool makes the one call of [testConnection] and answers with the
    JSON of its status, so a failed connection is reported as
    [connected: false] in a regular answer. *)
Theorem connection_tool_never_fails :
  exists s,
    outcome (testConnection credentials fetch) = Ok s
    /\ outcome (trello_test_connection JSON_stringify_pretty credentials fetch)
       = Ok {| content :=
                 [ {| text := JSON_stringify_pretty (status_object s) |} ];
               isError := None |}
    /\ sent (trello_test_connection JSON_stringify_pretty credentials fetch)
       = [fetch_call credentials "/members/me" no_options None].
Proof.
  destruct testConnection_resolves as [s Hs]. exists s.
  split; [exact Hs|].
  unfold trello_test_connection.
  pose proof (testConnection_sent credentials fetch) as Hsent.
  unfold outcome, sent in *.
  destruct (testConnection credentials fetch) as [calls [s'|e]];
    cbn [fst snd] in *; [|discriminate].
  injection Hs as ->. cbn. rewrite app_nil_r. now split.
Qed.

End ConnectionToolProperties.

(* ================================================================= *)
(** ** The properties at concrete inputs *)

#[local] Existing Instance integer_numbers.
#[local] Existing Instance literal_runtime.

(** [getBoard] under a 401 answer. *)
Lemma unauthorized_classification_witness :
  (forall call,
      In call (sent (invoke tenant (always unauthorized) (GetBoard "b1"))) ->
      always unauthorized call = Responded unauthorized)
  /\ status unauthorized = 401%Z
  /\ outcome (invoke tenant (always unauthorized) (GetBoard "b1")) =
     Throw (AuthenticationError "Invalid API key or token").
Proof.
  assert (Hfetch : forall call,
             In call (sent (invoke tenant (always unauthorized)
                              (GetBoard "b1"))) ->
             always unauthorized call = Responded unauthorized)
    by (intros; reflexivity).
  assert (Hstatus : status unauthorized = 401%Z) by reflexivity.
  split; [exact Hfetch|]. split; [exact Hstatus|].
  exact (unauthorized_classification tenant (always unauthorized)
           (GetBoard "b1") unauthorized Hfetch Hstatus).
Defined.

(** [testConnection] under a 401 answer resolves instead of throwing. *)
Lemma testConnection_swallows_unauthorized :
  outcome (invoke tenant (always unauthorized) TestConnection) =
  Ok (Status {| connected := false; message := "Invalid API key or token" |})
  /\ ~ (forall op : Operation,
          exists message,
            outcome (invoke tenant (always unauthorized) op) =
            Throw (AuthenticationError message)).
Proof.
  split; [reflexivity|].
  intro Hall. destruct (Hall TestConnection) as [message Hthrown].
  discriminate Hthrown.
Qed.


(** [testConnection] under a 429 answer resolves instead of throwing. *)
Lemma testConnection_swallows_rate_limit :
  outcome (invoke tenant (always (too_many_requests (Some "120")))
             TestConnection) =
  Ok (Status {| connected := false; message := "Rate limit exceeded" |})
  /\ ~ (forall op : Operation,
          exists delay,
            outcome (invoke tenant (always (too_many_requests (Some "120")))
                       op) =
            Throw (RateLimitError "Rate limit exceeded" delay)).
Proof.
  split; [reflexivity|].
  intro Hall. destruct (Hall TestConnection) as [delay Hthrown].
  discriminate Hthrown.
Qed.


(** A board whose name holds a line break takes two lines of the table,
    and is rendered as two boards are. *)
Lemma board_rows_follow_line_breaks_witness :
  (forall board, In board [forged_board] ->
                 line_free (TrelloBoard.id board)
                 /\ line_free (TrelloBoard.shortUrl board))
  /\ line_count (formatBoardsTable [forged_board]) = 4
  /\ formatBoardsTable [forged_board]
     = formatBoardsTable [roadmap_board; archive_board].
Proof.
  assert (Hfields : forall board, In board [forged_board] ->
                      line_free (TrelloBoard.id board)
                      /\ line_free (TrelloBoard.shortUrl board))
    by (intros board [<-|[]]; split; reflexivity).
  split; [exact Hfields|]. split; [|reflexivity].
  exact (proj1 (board_rows_follow_line_breaks no_generic_table
                  [forged_board] Hfields)).
Defined.

(** [updateCard] with [due: null] and nothing else. *)
Lemma null_field_is_not_sent_witness :
  TrelloCardUpdateInput.due clear_due = Some None
  /\ In (put_call "/cards/c1" [("key", "k"); ("token", "t")])
        (sent (updateCard tenant (always unauthorized) "c1" clear_due))
  /\ ~ In "due" (param_names (put_call "/cards/c1" [("key", "k"); ("token", "t")])).
Proof.
  assert (Hnull : TrelloCardUpdateInput.due clear_due = Some None)
    by reflexivity.
  assert (Hcall :
    In (put_call "/cards/c1" [("key", "k"); ("token", "t")])
       (sent (updateCard tenant (always unauthorized) "c1" clear_due)))
    by (left; reflexivity).
  split; [exact Hnull|]. split; [exact Hcall|].
  exact (proj1 (null_field_is_not_sent tenant (always unauthorized))
           "c1" clear_due _ Hnull Hcall).
Defined.

(** [createCard] with a list and a name only. *)
Lemma omitted_fields_are_not_sent_witness :
  TrelloCardCreateInput.due bare_card = None
  /\ In (fetch_call tenant "/cards" (with_method "POST")
           (Some [("idList", PString "l1"); ("name", PString "Buy milk")]))
        (sent (createCard tenant (always unauthorized) bare_card))
  /\ ~ In "due"
        (param_names
           (fetch_call tenant "/cards" (with_method "POST")
              (Some [("idList", PString "l1"); ("name", PString "Buy milk")]))).
Proof.
  assert (Hdue : TrelloCardCreateInput.due bare_card = None) by reflexivity.
  assert (Hcall :
    In (fetch_call tenant "/cards" (with_method "POST")
          (Some [("idList", PString "l1"); ("name", PString "Buy milk")]))
       (sent (createCard tenant (always unauthorized) bare_card)))
    by (left; reflexivity).
  split; [exact Hdue|]. split; [exact Hcall|].
  exact (proj2 (omitted_fields_are_not_sent tenant (always unauthorized))
           bare_card _ Hdue Hcall).
Defined.

(** [getBoardCards] without a filter, answered by an empty array. *)
Lemma status_filter_default_and_all_witness :
  status_filtered (GetBoardCards "b1" None) = Some ("/boards/b1/cards", None)
  /\ sent (invoke tenant (always empty_array_answer) (GetBoardCards "b1" None))
     = [filter_call tenant "/boards/b1/cards" "open"]
  /\ outcome (invoke tenant (always empty_array_answer)
                (GetBoardCards "b1" None)) = Ok (Data (Some (JArray []))).
Proof.
  assert (Hop : status_filtered (GetBoardCards "b1" None)
                = Some ("/boards/b1/cards", None)) by reflexivity.
  destruct (status_filter_default_and_all tenant (always empty_array_answer)
              (GetBoardCards "b1" None) _ _ Hop) as (Hopen & _ & Hdata).
  split; [exact Hop|]. split; [exact (Hopen eq_refl)|].
  apply (Hdata empty_array_answer (JArray [])).
  - now left.
  - reflexivity.
  - reflexivity.
  - discriminate.
  - reflexivity.
Defined.

(** An update whose [due] is the empty string and whose [desc] is [null]. *)
Lemma request_query_invariant_witness :
  "due" <> "key" /\ "due" <> "token"
  /\ ~ In "due"
        (param_names
           (fetch_call tenant "/cards/c1" (with_method "PUT")
              (Some [("due", PString ""); ("name", PString "x");
                     ("desc", PNull)]))).
Proof.
  assert (Hkey : "due" <> "key") by discriminate.
  assert (Htoken : "due" <> "token") by discriminate.
  split; [exact Hkey|]. split; [exact Htoken|].
  apply (proj1 (proj2 (proj2
           (request_query_invariant tenant (always unauthorized)
              "/cards/c1" (with_method "PUT")
              (Some [("due", PString ""); ("name", PString "x");
                     ("desc", PNull)])))) "due" Hkey Htoken).
  intros extra v [= <-] [Hin|[Hin|[Hin|[]]]]; inversion Hin; auto.
Defined.

(** Two boards. *)
Lemma boards_markdown_lists_every_board_witness :
  formatArrayAsMarkdown no_generic_table
    (Boards [roadmap_board; archive_board]) "boards" =
  Some ("## Boards" ++ LF ++ "**Count:** 2" ++ LF ++ LF
        ++ "| Name | ID | Status | URL |" ++ LF ++ "|---|---|---|---|" ++ LF
        ++ "| Roadmap | `b1` | Open | https://trello.com/b/r |" ++ LF
        ++ "| Archive | `b2` | Closed | https://trello.com/b/a |")
  /\ In archive_board [roadmap_board; archive_board]
  /\ includes
       ("## Boards" ++ LF ++ "**Count:** 2" ++ LF ++ LF
        ++ "| Name | ID | Status | URL |" ++ LF ++ "|---|---|---|---|" ++ LF
        ++ "| Roadmap | `b1` | Open | https://trello.com/b/r |" ++ LF
        ++ "| Archive | `b2` | Closed | https://trello.com/b/a |")
       "Archive".
Proof.
  assert (Htext :
    formatArrayAsMarkdown no_generic_table
      (Boards [roadmap_board; archive_board]) "boards" =
    Some ("## Boards" ++ LF ++ "**Count:** 2" ++ LF ++ LF
          ++ "| Name | ID | Status | URL |" ++ LF ++ "|---|---|---|---|" ++ LF
          ++ "| Roadmap | `b1` | Open | https://trello.com/b/r |" ++ LF
          ++ "| Archive | `b2` | Closed | https://trello.com/b/a |"))
    by reflexivity.
  assert (Hin : In archive_board [roadmap_board; archive_board])
    by (right; left; reflexivity).
  split; [exact Htext|]. split; [exact Hin|].
  exact (proj1 (proj2 (proj2 (boards_markdown_lists_every_board
                                no_generic_table
                                [roadmap_board; archive_board]))
                  _ archive_board Htext Hin)).
Defined.

(** A checklist of two items, one of them complete. *)
Lemma checklists_markdown_counts_and_boxes_witness :
  [todo_checklist] <> []
  /\ formatArrayAsMarkdown no_generic_table (Checklists [todo_checklist])
       "checklists" =
     Some ("## Checklists" ++ LF ++ "**Count:** 1" ++ LF ++ LF
           ++ "### Todo (1/2)" ++ LF ++ "**ID:** `cl1`" ++ LF ++ LF
           ++ "- [x] a" ++ LF ++ "- [ ] b" ++ LF).
Proof.
  assert (Hnonempty : [todo_checklist] <> []) by discriminate.
  split; [exact Hnonempty|].
  exact (proj1 (proj2 (checklists_markdown_counts_and_boxes
                         no_generic_table [todo_checklist])) Hnonempty).
Defined.

(** [getBoard] under a 500 answer. *)
Lemma api_error_classification_witness :
  outcome (invoke tenant (always server_error) (GetBoard "b1")) =
  Throw (ApiError "Trello API error: boom" 500).
Proof.
  apply (api_error_classification tenant (always server_error)
           (GetBoard "b1") server_error).
  - intros; reflexivity.
  - discriminate.
  - discriminate.
  - reflexivity.
Defined.

(** [listBoards] and [deleteBoard] answered by [[]]. *)
Lemma success_resolution_witness :
  outcome (invoke tenant (always empty_array_answer) (ListBoards None)) =
  Ok (Data (Some (JArray [])))
  /\ outcome (invoke tenant (always empty_array_answer) (DeleteBoard "b1")) =
     Ok Void.
Proof.
  split.
  - apply (proj1 (proj2 (success_resolution tenant (always empty_array_answer)
                           (ListBoards None) empty_array_answer
                           ltac:(discriminate) ltac:(intros; reflexivity)
                           eq_refl))
             (JArray []));
      [discriminate|reflexivity].
  - apply (proj1 (proj2 (success_resolution tenant (always empty_array_answer)
                           (DeleteBoard "b1") empty_array_answer
                           ltac:(discriminate) ltac:(intros; reflexivity)
                           eq_refl))
             (JArray []));
      [discriminate|reflexivity].
Defined.

(** [getBoard] resolved: its call was answered with status 200. *)
Lemma resolution_needs_success_witness :
  exists call r,
    sent (invoke tenant (always empty_array_answer) (GetBoard "b1")) = [call]
    /\ always empty_array_answer call = Responded r
    /\ (200 <= status r <= 299)%Z.
Proof.
  apply (resolution_needs_success tenant (always empty_array_answer)
           (GetBoard "b1") (Data (Some (JArray [])))).
  - discriminate.
  - reflexivity.
Defined.

(** [getBoard] when the upstream cannot be reached. *)
Lemma rejection_propagates_witness :
  outcome (invoke tenant unreachable (GetBoard "b1")) =
  Throw (JsThrown "fetch failed").
Proof.
  apply (rejection_propagates tenant unreachable (GetBoard "b1")
           (JsThrown "fetch failed")).
  intros; reflexivity.
Defined.

(** [testConnection] answered by the empty object: connected, since the
    body parsed. *)
Lemma testConnection_always_resolves_witness :
  exists r member,
    always empty_object_answer
      (fetch_call tenant "/members/me" no_options None) = Responded r
    /\ ok r = true
    /\ JSON_parse (response_text r) = Ok member
    /\ member <> JNull.
Proof.
  destruct (testConnection_always_resolves tenant (always empty_object_answer))
    as (s & Hresolved & Hconnected).
  apply Hconnected.
  injection Hresolved as <-. reflexivity.
Defined.

(** Of four parameters the one that holds a string that is not empty is
    sent. *)
Lemma query_is_credentials_then_kept_witness :
  exists call,
    sent (request tenant (always empty_array_answer) "/cards/c1"
            (with_method "PUT") (Some mixed_params)) = [call]
    /\ call_params call = [("key", "k"); ("token", "t"); ("name", "n")].
Proof.
  apply (query_is_credentials_then_kept tenant (always empty_array_answer)
           "/cards/c1" (with_method "PUT") mixed_params).
  - repeat constructor; cbn; intuition discriminate.
  - cbn; intuition discriminate.
  - cbn; intuition discriminate.
Defined.

(** The call of [createCard] *)
Lemma one_authenticated_call_witness :
  exists call rest,
    (forall upstream,
        sent (invoke tenant upstream (CreateCard bare_card)) = [call])
    /\ call_headers call = [("Content-Type", "application/json")]
    /\ call_params call = ("key", "k") :: ("token", "t") :: rest
    /\ ~ In "key" (map fst rest)
    /\ ~ In "token" (map fst rest).
Proof.
  exact (one_authenticated_call tenant (CreateCard bare_card)).
Defined.

(** [setCardCustomFieldValue] sends the JSON of the value. *)
Lemma only_custom_fields_send_a_body_witness :
  In {| call_endpoint := "/cards/c1/customField/f1/item";
        call_params := [("key", "k"); ("token", "t")];
        call_method := Some "PUT";
        call_body := Some "{}";
        call_headers := [("Content-Type", "application/json")] |}
     (sent (invoke tenant (always empty_array_answer)
              (SetCardCustomFieldValue "c1" "f1" (JObject []))))
  /\ json_body (SetCardCustomFieldValue "c1" "f1" (JObject [])) = Some "{}".
Proof.
  assert (Hcall :
    In {| call_endpoint := "/cards/c1/customField/f1/item";
          call_params := [("key", "k"); ("token", "t")];
          call_method := Some "PUT";
          call_body := Some "{}";
          call_headers := [("Content-Type", "application/json")] |}
       (sent (invoke tenant (always empty_array_answer)
                (SetCardCustomFieldValue "c1" "f1" (JObject [])))))
    by (left; reflexivity).
  split; [exact Hcall|].
  symmetry.
  exact (proj1 (only_custom_fields_send_a_body tenant
                  (always empty_array_answer)
                  (SetCardCustomFieldValue "c1" "f1" (JObject [])) _ Hcall)).
Defined.

(** [updateList] with [closed: false] sends [closed=false]. *)
Lemma boolean_fields_are_sent_witness :
  In ("closed", Some false) (boolean_fields (UpdateList "l1" reopened_list))
  /\ In {| call_endpoint := "/lists/l1";
           call_params := [("key", "k"); ("token", "t"); ("closed", "false")];
           call_method := Some "PUT";
           call_body := None;
           call_headers := [("Content-Type", "application/json")] |}
        (sent (invoke tenant (always empty_array_answer)
                 (UpdateList "l1" reopened_list)))
  /\ In ("closed", "false")
        [("key", "k"); ("token", "t"); ("closed", "false")].
Proof.
  assert (Hfield : In ("closed", Some false)
                     (boolean_fields (UpdateList "l1" reopened_list)))
    by (left; reflexivity).
  assert (Hcall :
    In {| call_endpoint := "/lists/l1";
          call_params := [("key", "k"); ("token", "t"); ("closed", "false")];
          call_method := Some "PUT";
          call_body := None;
          call_headers := [("Content-Type", "application/json")] |}
       (sent (invoke tenant (always empty_array_answer)
                (UpdateList "l1" reopened_list))))
    by (left; reflexivity).
  split; [exact Hfield|]. split; [exact Hcall|].
  exact (boolean_fields_are_sent tenant (always empty_array_answer)
           (UpdateList "l1" reopened_list) "closed" false _ Hfield Hcall).
Defined.

(** [updateLabel] with [color: null] sends no [color]. *)
Lemma cleared_strings_are_not_sent_witness :
  In {| call_endpoint := "/labels/lb1";
        call_params := [("key", "k"); ("token", "t")];
        call_method := Some "PUT";
        call_body := None;
        call_headers := [("Content-Type", "application/json")] |}
     (sent (updateLabel tenant (always empty_array_answer) "lb1"
              uncoloured_label))
  /\ ~ In "color" (map fst [("key", "k"); ("token", "t")]).
Proof.
  assert (Hcall :
    In {| call_endpoint := "/labels/lb1";
          call_params := [("key", "k"); ("token", "t")];
          call_method := Some "PUT";
          call_body := None;
          call_headers := [("Content-Type", "application/json")] |}
       (sent (updateLabel tenant (always empty_array_answer) "lb1"
                uncoloured_label)))
    by (left; reflexivity).
  split; [exact Hcall|].
  exact (proj1 (cleared_strings_are_not_sent tenant
                  (always empty_array_answer))
           "lb1" uncoloured_label _ Hcall (or_introl eq_refl)).
Defined.

(** [createCard] with two members and an empty array of labels. *)
Lemma identifier_lists_are_joined_witness :
  In {| call_endpoint := "/cards";
        call_params :=
          [("key", "k"); ("token", "t"); ("idList", "l1");
           ("name", "Buy milk"); ("idMembers", "m1,m2")];
        call_method := Some "POST";
        call_body := None;
        call_headers := [("Content-Type", "application/json")] |}
     (sent (createCard tenant (always empty_array_answer) assigned_card))
  /\ In ("idMembers", "m1,m2")
        [("key", "k"); ("token", "t"); ("idList", "l1");
         ("name", "Buy milk"); ("idMembers", "m1,m2")]
  /\ ~ In "idLabels"
        (map fst [("key", "k"); ("token", "t"); ("idList", "l1");
                  ("name", "Buy milk"); ("idMembers", "m1,m2")]).
Proof.
  assert (Hcall :
    In {| call_endpoint := "/cards";
          call_params :=
            [("key", "k"); ("token", "t"); ("idList", "l1");
             ("name", "Buy milk"); ("idMembers", "m1,m2")];
          call_method := Some "POST";
          call_body := None;
          call_headers := [("Content-Type", "application/json")] |}
       (sent (createCard tenant (always empty_array_answer) assigned_card)))
    by (left; reflexivity).
  split; [exact Hcall|].
  destruct (identifier_lists_are_joined tenant (always empty_array_answer)
              assigned_card _ Hcall)
    as (Hmembers & _ & _ & Hlabels).
  split.
  - apply (Hmembers ["m1"; "m2"]); [reflexivity|discriminate].
  - apply Hlabels. reflexivity.
Defined.

(** The names of the headers are found in lower case too. *)
Lemma credentials_from_headers_witness :
  validateCredentials (parseTenantCredentials lower_case_headers) = Ok tt
  /\ parseTenantCredentials lower_case_headers = tenant.
Proof.
  split.
  - apply (proj1 (credentials_from_headers lower_case_headers)).
    exists "k", "t". repeat split; discriminate.
  - apply (proj1 (proj2 (credentials_from_headers lower_case_headers))
             "k" "t"); (reflexivity || discriminate).
Defined.


(** A [POST] of [/mcp] without credentials is answered with 401. *)
Lemma worker_routing_witness :
  exists response,
    worker_fetch anonymous_post = Answered response
    /\ worker_status response = 401%Z.
Proof.
  apply (proj1 (proj2 (worker_routing anonymous_post)) eq_refl eq_refl
           (JsThrown "Missing X-Trello-API-Key header. Get your API key from https://trello.com/power-ups/admin")).
  reflexivity.
Defined.

(** A text without pipe and line break is not changed. *)
Lemma escapeMarkdown_is_character_wise_witness :
  escapeMarkdown "Buy milk" = "Buy milk".
Proof.
  apply (proj2 (proj2 (proj2 (proj2
           (escapeMarkdown_is_character_wise "Buy milk")))));
    reflexivity.
Defined.

(** A member whose name holds a line break takes one line. *)
Lemma escaped_tables_have_one_line_per_entity_witness :
  line_count (formatMembersTable [two_line_member]) = 3.
Proof.
  apply (proj1 (proj2 (proj2 escaped_tables_have_one_line_per_entity))
           [two_line_member]).
  intros member [<-|[]]. split; reflexivity.
Defined.

(** A member whose description is [null], under the entity types
    [member] and [members]. *)
Lemma object_markdown_skips_null_witness :
  formatObjectAsMarkdown no_pretty_printer
    [("desc", JNull); ("fullName", JString "Ann")] "member"
  = "## Member" ++ LF ++ LF ++ "**Full Name:** Ann"
  /\ formatObjectAsMarkdown no_pretty_printer
       [("desc", JNull); ("fullName", JString "Ann")] "members"
     = "## Member" ++ LF ++ LF ++ "**Full Name:** Ann".
Proof.
  assert (Hkeys : forall key (value : json),
             In (key, value) [("desc", JNull); ("fullName", JString "Ann")] ->
             is_ascii_text key = true)
    by (intros key value [[= <- _]|[[= <- _]|[]]]; reflexivity).
  split.
  - exact (proj1 (proj2 (object_markdown_skips_null no_pretty_printer
                           [("desc", JNull); ("fullName", JString "Ann")]
                           "member" eq_refl Hkeys)) eq_refl).
  - exact (proj1 (object_markdown_skips_null no_pretty_printer
                    [("desc", JNull); ("fullName", JString "Ann")]
                    "members" eq_refl Hkeys) "member" eq_refl).
Defined.



(* ----------------------------------------------------------------- *)
(** *** The embedding on small inputs *)

Example urlencode_reserved :
  urlencode "a b&c=d/e_f" = "a+b%26c%3Dd%2Fe_f".
Proof. reflexivity. Qed.

Example usp_set_replaces_first :
  usp_set "a" "9" [("a", "1"); ("b", "2"); ("a", "3")] = [("a", "9"); ("b", "2")].
Proof. reflexivity. Qed.

Example parseInt10_prefix : parseInt10 " 12abc" = IntNum 12.
Proof. reflexivity. Qed.

Example parseInt10_negative : parseInt10 "-5" = IntNum (-5).
Proof. reflexivity. Qed.

Example parseInt10_date : parseInt10 "Wed, 21 Oct 2015 07:28:00 GMT" = NaN.
Proof. reflexivity. Qed.

Example headers_get_ignores_case :
  headers_get "Retry-After" [("content-type", "text/plain"); ("RETRY-AFTER", "7")]
  = Some "7".
Proof. reflexivity. Qed.

Example escapeMarkdown_pipe_and_break :
  escapeMarkdown ("a|b" ++ LF ++ "c") = "a\|b c".
Proof. reflexivity. Qed.

Example capitalize_kind : capitalize "checklists" = "Checklists".
Proof. reflexivity. Qed.

Example updateCard_null_due_url :
  map call_url (sent (updateCard tenant (always unauthorized) "c1" clear_due))
  = ["https://api.trello.com/1/cards/c1?key=k&token=t"].
Proof. reflexivity. Qed.

Example getBoardCards_default_url :
  map call_url (sent (getBoardCards tenant (always empty_array_answer) "b1" None))
  = ["https://api.trello.com/1/boards/b1/cards?key=k&token=t&filter=open"].
Proof. reflexivity. Qed.

Example moveCard_url :
  map call_url
    (sent (moveCard tenant (always empty_array_answer) "c1" "l2" (Some "b 3")))
  = ["https://api.trello.com/1/cards/c1?key=k&token=t&idList=l2&idBoard=b+3"].
Proof. reflexivity. Qed.

Example testConnection_empty_body :
  outcome (testConnection tenant
             (always {| status := 200; response_headers := [];
                        response_text := "" |})) =
  Ok {| connected := false;
        message := "Cannot read properties of undefined (reading 'fullName')" |}.
Proof. reflexivity. Qed.

Example formatKey_camel_case :
  formatKey "idBoard" = "Id Board" /\ formatKey "URL" = "U R L"
  /\ formatKey "prefs_selfJoin" = "Prefs_self Join".
Proof. repeat split. Qed.

Example parseInt_text_leading_space :
  parseInt_text "  42px" = IntNum 42 /\ parseInt_text "px" = NaN
  /\ parseInt_text "" = NaN.
Proof. repeat split. Qed.

Example getEnvNumber_not_a_number :
  getEnvNumber (fun _ => EnvString "many") MAX_PAGE_SIZE (IntNum 100)
  = IntNum 100.
Proof. reflexivity. Qed.

Example formatObjectAsMarkdown_member :
  formatObjectAsMarkdown no_pretty_printer
    [("desc", JNull); ("fullName", JString "Ann"); ("prefs", JObject [])]
    "members"
  = "## Member" ++ LF ++ LF ++ "**Full Name:** Ann" ++ LF ++ "**Prefs:**" ++ LF
    ++ "```json" ++ LF ++ "{}" ++ LF ++ "```".
Proof. reflexivity. Qed.

Example formatGenericTable_two_items :
  formatGenericTable_records ascii_slice_0_50 native_function
    [ [("name", JString "a"); ("tags", JArray [])]; [("name", JNull)] ]
  = "| name | tags |" ++ LF ++ "|---|---|" ++ LF ++ "| a | (object) |" ++ LF
    ++ "| - | - |".
Proof. reflexivity. Qed.

Example worker_fetch_health :
  worker_fetch {| url_pathname := "/health"; request_method := "DELETE";
                  request_headers := [] |}
  = Answered (json_response 200 "{}").
Proof. reflexivity. Qed.

Example worker_fetch_mcp_get :
  exists response,
    worker_fetch {| url_pathname := "/mcp"; request_method := "GET";
                    request_headers := lower_case_headers |}
    = Answered response
    /\ worker_status response = 200%Z.
Proof. eexists. split; reflexivity. Qed.

Example trello_test_connection_unauthorized :
  outcome (trello_test_connection no_pretty_printer tenant (always unauthorized))
  = Ok {| content := [ {| text := "{}" |} ]; isError := None |}.
Proof. reflexivity. Qed.

Example parseInt10_rounds_to_a_double :
  parseInt10 "9007199254740993" = IntNum 9007199254740992
  /\ parseInt10 "9007199254740995" = IntNum 9007199254740996
  /\ parseInt10 "-0" = NegativeZero.
Proof. repeat split. Qed.

Example parseInt_text_overflows :
  parseInt_text ("1" ++ String.concat "" (repeat "0" 400)) = Infinity.
Proof. vm_compute. reflexivity. Qed.

Example formatGenericTable_inherited_property :
  formatGenericTable_records ascii_slice_0_50 native_function
    [ [("toString", JNull)]; [] ]
  = "| toString |" ++ LF ++ "|---|" ++ LF ++ "| - |" ++ LF
    ++ "| function toString() { [native code] } |".
Proof. reflexivity. Qed.
